(** * iot_service: the MQTT-to-TimescaleDB ingestion bridge

    A shallow embedding of [services/iot_service/iot_service.py]:
    [get_db_connection], [store_sensor_data] and [on_message], over a model
    of the Python values, exceptions and library calls they use.

    Conventions.
    - A Python [str] is a Rocq [string] holding its UTF-8 encoding; the
      operations the program applies ([in], [find], slicing from a found
      index, [endswith], dropping a final ASCII character) act the same on
      the encoding as on the code points.
    - A Python [dict] is an association list in insertion order with
      unique keys.
    - A Python [float] is an IEEE-754 binary64 value, as [spec_float].
    - A call that may raise returns [exn + A] ([inl] is the raised
      exception).  Effects are the list of events a call emits (log records,
      sleeps, calls on the database connection) and the connection state
      it threads. *)

From Stdlib Require Import ZArith List String Ascii Bool Lia.
From Stdlib Require Import Strings.Byte.
From Stdlib Require Import Floats.SpecFloat.
Import ListNotations.
Open Scope string_scope.
Open Scope Z_scope.
Open Scope list_scope.

Set Implicit Arguments.
Set Warnings "-register-all".

(* ===================================================================== *)
(** * Python exceptions *)
(* ===================================================================== *)

(** The exception classes that the calls of this program raise.  All of
    them derive from [Exception]. *)
Inductive exn_class :=
| Exception
| ArithmeticError | OverflowError
| AttributeError
| LookupError | KeyError
| NameError | UnboundLocalError
| RuntimeError | RecursionError
| TypeError
| ValueError | UnicodeError | UnicodeDecodeError | JSONDecodeError
| Psycopg2Error | InterfaceError | DatabaseError
| OperationalError | IntegrityError | DataError | ProgrammingError
| InternalError.

(** The direct base class ([None] for [Exception] itself). *)
Definition base (c : exn_class) : option exn_class :=
  match c with
  | Exception => None
  | ArithmeticError => Some Exception
  | OverflowError => Some ArithmeticError
  | AttributeError => Some Exception
  | LookupError => Some Exception
  | KeyError => Some LookupError
  | NameError => Some Exception
  | UnboundLocalError => Some NameError
  | RuntimeError => Some Exception
  | RecursionError => Some RuntimeError
  | TypeError => Some Exception
  | ValueError => Some Exception
  | UnicodeError => Some ValueError
  | UnicodeDecodeError => Some UnicodeError
  | JSONDecodeError => Some ValueError
  | Psycopg2Error => Some Exception
  | InterfaceError => Some Psycopg2Error
  | DatabaseError => Some Psycopg2Error
  | OperationalError => Some DatabaseError
  | IntegrityError => Some DatabaseError
  | DataError => Some DatabaseError
  | ProgrammingError => Some DatabaseError
  | InternalError => Some DatabaseError
  end.

Definition exn_class_eqb (c d : exn_class) : bool :=
  match c, d with
  | Exception, Exception | ArithmeticError, ArithmeticError
  | OverflowError, OverflowError | AttributeError, AttributeError
  | LookupError, LookupError | KeyError, KeyError
  | NameError, NameError | UnboundLocalError, UnboundLocalError
  | RuntimeError, RuntimeError | RecursionError, RecursionError
  | TypeError, TypeError | ValueError, ValueError
  | UnicodeError, UnicodeError
  | UnicodeDecodeError, UnicodeDecodeError
  | JSONDecodeError, JSONDecodeError
  | Psycopg2Error, Psycopg2Error | InterfaceError, InterfaceError
  | DatabaseError, DatabaseError | OperationalError, OperationalError
  | IntegrityError, IntegrityError | DataError, DataError
  | ProgrammingError, ProgrammingError | InternalError, InternalError => true
  | _, _ => false
  end.

(** [issubclass c d]: [d] is [c] or one of its bases.  The hierarchy is
    four levels deep. *)
Fixpoint issubclass_upto (n : nat) (c d : exn_class) : bool :=
  exn_class_eqb c d ||
  match n with
  | O => false
  | S n' => match base c with
            | Some b => issubclass_upto n' b d
            | None => false
            end
  end.

Definition issubclass : exn_class -> exn_class -> bool := issubclass_upto 4.

(** A raised exception: its class and its message. *)
Record exn := Raise { exn_cls : exn_class; exn_msg : string }.

Definition isinstance (e : exn) (c : exn_class) : bool :=
  issubclass (exn_cls e) c.

(** The result of a call that may raise. *)
Definition result (A : Type) : Type := exn + A.

(* ===================================================================== *)
(** * Python values *)
(* ===================================================================== *)

(** [tzinfo] of an aware [datetime]: [pytz.UTC], or the fixed offset
    ([timezone(timedelta(...))], here in microseconds) that
    [fromisoformat] attaches. *)
Inductive tz := UTC | FixedOffset (us : Z).

Record datetime := mkDatetime {
  year : Z; month : Z; day : Z;
  hour : Z; minute : Z; second : Z; microsecond : Z;
  tzinfo : option tz
}.

(** [dt.replace(tzinfo=t)]: the same wall-clock fields under [t]. *)
Definition replace_tzinfo (dt : datetime) (t : tz) : datetime :=
  mkDatetime (year dt) (month dt) (day dt)
             (hour dt) (minute dt) (second dt) (microsecond dt) (Some t).

(** The values [json.loads] builds, and the [datetime] that [on_message]
    stores back into the dict. *)
Inductive pyval :=
| PNone
| PBool (b : bool)
| PInt (z : Z)
| PFloat (f : spec_float)
| PStr (s : string)
| PList (l : list pyval)
| PDict (d : list (string * pyval))
| PDatetime (dt : datetime).

Definition dict := list (string * pyval).

(** ** dict operations *)

(** [d.get(k)] as an option; [None] when the key is missing. *)
Fixpoint dict_get (k : string) (d : dict) : option pyval :=
  match d with
  | [] => None
  | (k', v) :: d' => if String.eqb k k' then Some v else dict_get k d'
  end.

(** [k in d] *)
Definition dict_mem (k : string) (d : dict) : bool :=
  match dict_get k d with Some _ => true | None => false end.

(** [d[k] = v]: overwrite in place, or append a new key. *)
Fixpoint dict_set (k : string) (v : pyval) (d : dict) : dict :=
  match d with
  | [] => [(k, v)]
  | (k', v') :: d' =>
      if String.eqb k k' then (k', v) :: d' else (k', v') :: dict_set k v d'
  end.

(** [d.pop(k)] on a present key: the dict without it. *)
Fixpoint dict_remove (k : string) (d : dict) : dict :=
  match d with
  | [] => []
  | (k', v') :: d' =>
      if String.eqb k k' then dict_remove k d'
      else (k', v') :: dict_remove k d'
  end.

(** [d.setdefault(k, v)] *)
Definition dict_setdefault (k : string) (v : pyval) (d : dict) : dict :=
  if dict_mem k d then d else dict_set k v d.

(** [d.get(k)]: the value, or Python's [None]. *)
Definition dict_get_or_none (k : string) (d : dict) : pyval :=
  match dict_get k d with Some v => v | None => PNone end.

(** ** Truthiness *)

Definition is_zero_float (f : spec_float) : bool :=
  match f with S754_zero _ => true | _ => false end.

(** [bool(v)] *)
Definition truthy (v : pyval) : bool :=
  match v with
  | PNone => false
  | PBool b => b
  | PInt z => negb (z =? 0)
  | PFloat f => negb (is_zero_float f)
  | PStr s => negb (String.eqb s "")
  | PList l => match l with [] => false | _ => true end
  | PDict d => match d with [] => false | _ => true end
  | PDatetime _ => true
  end.

(** ** str operations *)

(** [needle in s] *)
Definition str_contains (needle s : string) : bool :=
  match String.index 0 needle s with Some _ => true | None => false end.

(** [s.find(needle)]: [None] stands for Python's [-1]. *)
Definition str_find (needle s : string) : option nat :=
  String.index 0 needle s.

(** [s[i:]] *)
Definition str_from (i : nat) (s : string) : string :=
  String.substring i (String.length s - i) s.

(** [s.endswith(suffix)] *)
Definition endswith (suffix s : string) : bool :=
  let n := String.length s in
  let m := String.length suffix in
  (m <=? n)%nat && String.eqb (String.substring (n - m) m s) suffix.

(** [s[:-1]] *)
Definition str_drop_last (s : string) : string :=
  String.substring 0 (String.length s - 1) s.

(** ** int() and float() *)

Definition prec : Z := 53.
Definition emax : Z := 1024.

(** The integer part of a finite float, towards zero. *)
Definition float_trunc (s : bool) (m : positive) (e : Z) : Z :=
  cond_Zopp s (Z.shiftl (Zpos m) e).

(** The binary64 nearest to an integer (ties to even); an infinity when
    the integer is beyond the largest float. *)
Definition float_of_Z (z : Z) : spec_float :=
  binary_normalize prec emax z 0 false.

(* ===================================================================== *)
(** * The library calls *)
(* ===================================================================== *)

(** The functions of the Python runtime and standard library that the
    program calls on text.  The program is verified for every behaviour of
    these; [Reference] below gives one instance to run it on. *)
Record pylib := {
  (** [payload.decode()] *)
  bytes_decode : list byte -> result string;
  (** [json.loads(text)] *)
  json_loads : string -> result pyval;
  (** [datetime.fromisoformat(text)] *)
  fromisoformat : string -> result datetime;
  (** [int(text)], [None] when it raises [ValueError] *)
  int_of_str : string -> option Z;
  (** [float(text)], [None] when it raises [ValueError] *)
  float_of_str : string -> option spec_float;
  (** [str(v)] *)
  str_of : pyval -> string
}.

(** The calls made on the psycopg2 connection [db_conn], over a
    connection state [C]: each returns the exception it raises, if any,
    and the state it leaves. *)
Record driver (C : Type) := {
  (** [db_conn.cursor()] *)
  cursor : C -> option exn * C;
  (** [cur.execute(INSERT INTO sensor_data ..., params)] *)
  execute : dict -> C -> option exn * C;
  (** [db_conn.commit()] *)
  commit : C -> option exn * C;
  (** [db_conn.rollback()] *)
  rollback : C -> option exn * C
}.

(* ===================================================================== *)
(** * Events and the effect monad *)
(* ===================================================================== *)

Inductive level := DEBUG | INFO | WARNING | ERROR.

(** [logger.setLevel(logging.INFO)] *)
Definition level_enabled (l : level) : bool :=
  match l with DEBUG => false | _ => true end.

(** The log records of the program, by format string, with the values
    that are interpolated. *)
Inductive message :=
| Successfully_connected
| Could_not_connect (e : exn)
| Retrying_in_5_seconds
| Storing (event_type device_id temperature motion wifi_rssi
             uptime_seconds : pyval)
| Successfully_stored (event_type device_id : pyval)
| Invalid_numeric_value (key : string) (value : pyval)
| Database_error_storing (e : exn)
| Unexpected_error_storing (e : exn)
| Data_that_caused_error (db_data : dict)
| Received_message (topic text : string)
| Error_decoding_JSON (e : exn)
| Error_processing_message (e : exn)
| Raw_message (text : string)
| Message_processing_time.

Inductive event :=
| Log (lvl : level) (m : message)
| Sleep (seconds : Z)
| CallCursor
| CallExecute (params : dict)
| CallCommit
| CallRollback.

Section Effects.

Variable C : Type.   (* the connection state *)
Variable L : Type.   (* the local variables of the running function *)

(** A computation reads and writes the locals and the connection, emits
    events, and returns or raises. *)
Definition M (A : Type) : Type :=
  L -> C -> result A * L * C * list event.

Definition ret {A} (a : A) : M A := fun l c => (inr a, l, c, []).

Definition raise {A} (e : exn) : M A := fun l c => (inl e, l, c, []).

Definition bind {A B} (m : M A) (k : A -> M B) : M B :=
  fun l c =>
    match m l c with
    | (inl e, l1, c1, ev1) => (inl e, l1, c1, ev1)
    | (inr a, l1, c1, ev1) =>
        let '(r, l2, c2, ev2) := k a l1 c1 in (r, l2, c2, ev1 ++ ev2)
    end.

Definition lift {A} (r : result A) : M A := fun l c => (r, l, c, []).

Definition get_local : M L := fun l c => (inr l, l, c, []).

Definition set_local (l' : L) : M unit := fun _ c => (inr tt, l', c, []).

Definition emit (e : event) : M unit := fun l c => (inr tt, l, c, [e]).

(** [logger.<lvl>(m)] *)
Definition log (lvl : level) (m : message) : M unit :=
  if level_enabled lvl then emit (Log lvl m) else ret tt.

(** One call on the connection: the event, then its outcome. *)
Definition db_call (ev : event) (op : C -> option exn * C) : M unit :=
  fun l c =>
    match op c with
    | (Some e, c') => (inl e, l, c', [ev])
    | (None, c') => (inr tt, l, c', [ev])
    end.

(** An [except (c1, c2, ...) as e:] clause. *)
Definition clause (A : Type) : Type := list exn_class * (exn -> M A).

Fixpoint find_clause {A} (e : exn) (hs : list (clause A))
  : option (exn -> M A) :=
  match hs with
  | [] => None
  | (cs, h) :: hs' =>
      if existsb (isinstance e) cs then Some h else find_clause e hs'
  end.

(** [try: body  except ...: ...]: the first clause that matches the
    raised exception runs, in the state the body left; with no match
    the exception goes on. *)
Definition try_except {A} (body : M A) (hs : list (clause A)) : M A :=
  fun l c =>
    match body l c with
    | (inr a, l1, c1, ev1) => (inr a, l1, c1, ev1)
    | (inl e, l1, c1, ev1) =>
        match find_clause e hs with
        | Some h => let '(r, l2, c2, ev2) := h e l1 c1 in
                    (r, l2, c2, ev1 ++ ev2)
        | None => (inl e, l1, c1, ev1)
        end
    end.

(** [for x in xs: f(x)] *)
Definition for_each {A} (xs : list A) (f : A -> M unit) : M unit :=
  fold_right (fun x k => bind (f x) (fun _ => k)) (ret tt) xs.

End Effects.

Arguments ret {C L A} a.
Arguments raise {C L A} e.
Arguments bind {C L A B} m k.
Arguments lift {C L A} r.
Arguments get_local {C L}.
Arguments set_local {C L} l'.
Arguments emit {C L} e.
Arguments log {C L} lvl m.
Arguments db_call {C L} ev op.
Arguments try_except {C L A} body hs.
Arguments for_each {C L A} xs f.

Declare Scope py_scope.
Delimit Scope py_scope with py.
Notation "x <- m ;; k" := (bind m (fun x => k))
  (at level 61, m at next level, right associativity) : py_scope.
Notation "m ;; k" := (bind m (fun _ => k))
  (at level 61, right associativity) : py_scope.

(** A function call: the callee runs in a frame of its own, starting
    from [l0]; the caller sees its result, the connection and the
    events. *)
Definition call {C L A} (l0 : L) (m : M C L A)
  : C -> result A * C * list event :=
  fun c => let '(r, _, c', ev) := m l0 c in (r, c', ev).

Definition invoke {C L A} (f : C -> result A * C * list event) : M C L A :=
  fun l c => let '(r, c', ev) := f c in (r, l, c', ev).

(* ===================================================================== *)
(** * The program *)
(* ===================================================================== *)

Section Program.

Variable lib : pylib.
Variable C : Type.
Variable drv : driver C.

Local Open Scope py_scope.

(** ** Builtins on values *)

(** [int(v)] *)
Definition py_int (v : pyval) : result Z :=
  match v with
  | PBool b => inr (if b then 1 else 0)
  | PInt z => inr z
  | PFloat (S754_zero _) => inr 0
  | PFloat (S754_finite s m e) => inr (float_trunc s m e)
  | PFloat (S754_infinity _) =>
      inl (Raise OverflowError "cannot convert float infinity to integer")
  | PFloat S754_nan =>
      inl (Raise ValueError "cannot convert float NaN to integer")
  | PStr s =>
      match int_of_str lib s with
      | Some z => inr z
      | None => inl (Raise ValueError "invalid literal for int() with base 10")
      end
  | PNone | PList _ | PDict _ | PDatetime _ =>
      inl (Raise TypeError "int() argument must be a string, a bytes-like object or a real number")
  end.

(** [float(v)] *)
Definition py_float (v : pyval) : result spec_float :=
  match v with
  | PBool b => inr (float_of_Z (if b then 1 else 0))
  | PInt z =>
      match float_of_Z z with
      | S754_infinity _ =>
          inl (Raise OverflowError "int too large to convert to float")
      | f => inr f
      end
  | PFloat f => inr f
  | PStr s =>
      match float_of_str lib s with
      | Some f => inr f
      | None => inl (Raise ValueError "could not convert string to float")
      end
  | PNone | PList _ | PDict _ | PDatetime _ =>
      inl (Raise TypeError "float() argument must be a string or a real number")
  end.

(** [d[k]] *)
Definition subscript (k : string) (d : dict) : result pyval :=
  match dict_get k d with
  | Some v => inr v
  | None => inl (Raise KeyError k)
  end.

(** ** get_db_connection (lines 47-62) *)

(** What a run of the retry loop has come to. *)
Inductive acquired :=
| Returned (conn : C)      (* [return conn] *)
| Raised (e : exn)         (* an exception left the function *)
| Retrying.                (* still inside [while True] *)

(** [attempts k] is the outcome of the [k]-th call of
    [psycopg2.connect].  The loop is run for at most [fuel] attempts,
    from attempt [k] on; the events are those of that run. *)
Fixpoint get_db_connection (attempts : nat -> result C)
         (fuel k : nat) : acquired * list event :=
  match fuel with
  | O => (Retrying, [])
  | S fuel' =>
      match attempts k with
      | inr conn => (Returned conn, [Log INFO Successfully_connected])
      | inl e =>
          if isinstance e OperationalError then
            let '(r, ev) := get_db_connection attempts fuel' (S k) in
            (r, Log ERROR (Could_not_connect e)
                  :: Log INFO Retrying_in_5_seconds
                  :: Sleep 5 :: ev)
          else (Raised e, [])
      end
  end.

(** ** store_sensor_data (lines 65-144) *)

Definition numeric_fields : list string :=
  ["temperature"; "humidity"; "pressure"; "wifi_rssi"; "uptime_seconds";
   "fan_pwm"; "fans_active_level"].

Definition integer_fields : list string :=
  ["uptime_seconds"; "fan_pwm"; "fans_active_level"; "wifi_rssi"].

Definition text_fields : list string :=
  ["motion"; "switch"; "version"; "uptime"; "temp_sensor_type"].

Definition expected_fields : list string :=
  ["time"; "device_id"; "event_type"; "temperature"; "humidity";
   "pressure"; "temp_sensor_type"; "motion"; "switch"; "version"; "uptime";
   "wifi_rssi"; "uptime_seconds"; "fan_pwm"; "fans_active_level"].

(** [key in fields] *)
Definition in_list (key : string) (fields : list string) : bool :=
  existsb (String.eqb key) fields.

(** The computations of [store_sensor_data]: their local is [db_data],
    which the two handlers read. *)
Definition Writer := M C dict.

(** [db_data[key] = v] *)
Definition assign (key : string) (v : pyval) : Writer unit :=
  db_data <- get_local ;; set_local (dict_set key v db_data).

(** Lines 77-88, the body of the loop over [numeric_fields]. *)
Definition coerce_numeric (key : string) : Writer unit :=
  db_data <- get_local ;;
  match dict_get_or_none key db_data with
  | PNone => ret tt
  | v =>
      try_except
        (if in_list key integer_fields then
           z <- lift (py_int v) ;; assign key (PInt z)
         else
           f <- lift (py_float v) ;; assign key (PFloat f))
        [ ([ValueError; TypeError],
           fun _ =>
             log WARNING (Invalid_numeric_value key v) ;;
             assign key PNone) ]
  end.

(** Lines 93-94, the body of the loop over [text_fields]. *)
Definition coerce_text (key : string) : Writer unit :=
  db_data <- get_local ;;
  match dict_get key db_data with
  | None | Some PNone => ret tt
  | Some v => assign key (PStr (str_of lib v))
  end.

(** Lines 97-98. *)
Definition rename_timestamp : Writer unit :=
  db_data <- get_local ;;
  match dict_get "timestamp" db_data with
  | Some v => set_local (dict_set "time" v (dict_remove "timestamp" db_data))
  | None => ret tt
  end.

(** Lines 108-109, the body of the loop over [expected_fields]. *)
Definition fill_missing (field : string) : Writer unit :=
  db_data <- get_local ;;
  if dict_mem field db_data then ret tt else assign field PNone.

(** Lines 69-114: the record is built in [db_data] and announced. *)
Definition build_db_data : Writer unit :=
  db_data <- get_local ;;
  set_local (dict_setdefault "event_type" (PStr "unknown") db_data) ;;
  for_each numeric_fields coerce_numeric ;;
  for_each text_fields coerce_text ;;
  rename_timestamp ;;
  for_each expected_fields fill_missing ;;
  db_data <- get_local ;;
  event_type <- lift (subscript "event_type" db_data) ;;
  device_id <- lift (subscript "device_id" db_data) ;;
  log INFO (Storing event_type device_id
              (dict_get_or_none "temperature" db_data)
              (dict_get_or_none "motion" db_data)
              (dict_get_or_none "wifi_rssi" db_data)
              (dict_get_or_none "uptime_seconds" db_data)).

(** Lines 116-134: the insert, the commit and the success record. *)
Definition insert_db_data : Writer unit :=
  db_call CallCursor (cursor drv) ;;
  db_data <- get_local ;;
  db_call (CallExecute db_data) (execute drv db_data) ;;
  db_call CallCommit (commit drv) ;;
  event_type <- lift (subscript "event_type" db_data) ;;
  device_id <- lift (subscript "device_id" db_data) ;;
  log INFO (Successfully_stored event_type device_id).

(** The function: [db_data = data.copy()] opens the frame, and the two
    [except] clauses read [db_data] as the body left it. *)
Definition store_sensor_data (data : dict)
  : C -> result unit * C * list event :=
  call data
    (try_except
       (build_db_data ;; insert_db_data)
       [ ([Psycopg2Error],
          fun e =>
            log ERROR (Database_error_storing e) ;;
            db_data <- get_local ;;
            log ERROR (Data_that_caused_error db_data) ;;
            db_call CallRollback (rollback drv));
         ([Exception],
          fun e =>
            log ERROR (Unexpected_error_storing e) ;;
            db_data <- get_local ;;
            log ERROR (Data_that_caused_error db_data) ;;
            db_call CallRollback (rollback drv)) ]).

(** ** on_message (lines 153-204) *)

Record mqtt_message := { topic : string; payload : list byte }.

(** Lines 160-170: the JSON text of the message, parsed. *)
Definition load_message_json (message_text : string) : result pyval :=
  if str_contains "MQTT event:" message_text then
    match str_find "{" message_text with
    | Some json_start => json_loads lib (str_from json_start message_text)
    | None => inl (Raise ValueError "No JSON object found in message")
    end
  else json_loads lib message_text.

(** Looking up the method [get] on [data], line 173: among the values
    that [json.loads] returns only a dict has it. *)
Definition attr_get (data : pyval) : result dict :=
  match data with
  | PDict d => inr d
  | _ => inl (Raise AttributeError "object has no attribute 'get'")
  end.

(** [d.get(k, default)] *)
Definition dict_get_default (k : string) (default : pyval) (d : dict)
  : pyval :=
  match dict_get k d with Some v => v | None => default end.

(** Lines 176-190: [data["timestamp"]] becomes an aware datetime. *)
Definition parse_timestamp (data : dict) : result dict :=
  match dict_get "timestamp" data with
  | None => inr data
  | Some ts =>
      if truthy ts then
        match ts with
        | PStr s =>
            if endswith "Z" s then
              match fromisoformat lib (str_drop_last s) with
              | inl e => inl e
              | inr dt =>
                  inr (dict_set "timestamp"
                         (PDatetime (replace_tzinfo dt UTC)) data)
              end
            else
              match fromisoformat lib s with
              | inl e => inl e
              | inr dt =>
                  match tzinfo dt with
                  | None =>
                      inr (dict_set "timestamp"
                             (PDatetime (replace_tzinfo dt UTC)) data)
                  | Some _ => inr (dict_set "timestamp" (PDatetime dt) data)
                  end
              end
        | _ => inl (Raise AttributeError "object has no attribute 'endswith'")
        end
      else inr data
  end.

(** The computations of [on_message]: their local is [message_text],
    which the two handlers read; it is unbound ([None]) until line 156
    has run. *)
Definition Handler := M C (option string).

(** Reading [message_text]. *)
Definition read_message_text : Handler string :=
  l <- get_local ;;
  match l with
  | Some text => ret text
  | None =>
      raise (Raise UnboundLocalError
               "cannot access local variable 'message_text'")
  end.

(** The callback.  [start_time] (line 155) is read only by the debug
    record of line 197, which the INFO level drops; [device_id] (line
    173) is read by nothing. *)
Definition on_message (msg : mqtt_message)
  : C -> result unit * C * list event :=
  call None
    (try_except
       (message_text <- lift (bytes_decode lib (payload msg)) ;;
        set_local (Some message_text) ;;
        log INFO (Received_message (topic msg) message_text) ;;
        data <- lift (load_message_json message_text) ;;
        data <- lift (attr_get data) ;;
        let device_id := dict_get_default "device_id" (PStr "unknown") data in
        data <- lift (parse_timestamp data) ;;
        invoke (store_sensor_data data) ;;
        log DEBUG Message_processing_time)
       [ ([JSONDecodeError],
          fun e =>
            log ERROR (Error_decoding_JSON e) ;;
            message_text <- read_message_text ;;
            log ERROR (Raw_message message_text));
         ([Exception],
          fun e =>
            log ERROR (Error_processing_message e) ;;
            message_text <- read_message_text ;;
            log ERROR (Raw_message message_text)) ]).

End Program.

Arguments Raised {C} e.
Arguments Retrying {C}.
Arguments assign {C} key v.
Arguments coerce_numeric lib {C} key.
Arguments coerce_text lib {C} key.
Arguments rename_timestamp {C}.
Arguments fill_missing {C} field.
Arguments build_db_data lib {C}.
Arguments read_message_text {C}.

(** The record with which [on_message] reports an exception: the first
    [except] clause takes a [JSONDecodeError], the second the rest. *)
Definition reported (e : exn) : message :=
  if isinstance e JSONDecodeError then Error_decoding_JSON e
  else Error_processing_message e.

(** The three records of a message dropped before the Writer. *)
Definition dropped (msg : mqtt_message) (text : string) (e : exn)
  : list event :=
  [Log INFO (Received_message (topic msg) text);
   Log ERROR (reported e);
   Log ERROR (Raw_message text)].

(** ** Predicates on runs *)

Definition is_log (e : event) : Prop :=
  match e with Log _ _ => True | _ => False end.

(** [d'] has the keys of [d], and the values of [d] outside [fields]. *)
Definition updated (fields : list string) (d d' : dict) : Prop :=
  (forall k, dict_mem k d' = dict_mem k d) /\
  (forall k, in_list k fields = false -> dict_get k d' = dict_get k d).

(** A computation on [db_data] that leaves the connection alone, emits
    only log records, and takes the dict along [R], whether it returns
    or raises. *)
Definition keeps {C A} (R : dict -> dict -> Prop) (m : M C dict A) : Prop :=
  forall d c r d' c' ev,
    m d c = (r, d', c', ev) -> c' = c /\ Forall is_log ev /\ R d d'.

(** The dict after line 98, from the dict before it. *)
Definition renamed (d : dict) : dict :=
  match dict_get "timestamp" d with
  | Some v => dict_set "time" v (dict_remove "timestamp" d)
  | None => d
  end.

(** The record with which [store_sensor_data] reports an exception: the
    first [except] clause takes a [psycopg2.Error], the second the rest. *)
Definition storing_failed (e : exn) : message :=
  if isinstance e Psycopg2Error then Database_error_storing e
  else Unexpected_error_storing e.

(** What [on_message] makes of a run of [store_sensor_data] on the
    message [text]: the record of reception in front, and, if the Writer
    raised, the report of that behind. *)
Definition after_store {C} (msg : mqtt_message) (text : string)
           (run : result unit * C * list event)
  : result unit * C * list event :=
  match run with
  | (inr _, c', ev) =>
      (inr tt, c', Log INFO (Received_message (topic msg) text) :: ev)
  | (inl e, c', ev) =>
      (inr tt, c',
       Log INFO (Received_message (topic msg) text)
       :: ev ++ [Log ERROR (reported e); Log ERROR (Raw_message text)])
  end.

(** The message [msg], whose JSON object is [data], has its timestamp
    stored as the aware datetime [t]: [t] carries a timezone, it is what
    line 176-190 put under [timestamp], the Writer is run on that dict, and
    the record that reaches the insert has [t] under [time] and no
    [timestamp]. *)
Definition time_stored_as (lib : pylib) {C} (drv : driver C)
           (msg : mqtt_message) (text : string) (c : C)
           (data : dict) (t : datetime) : Prop :=
  tzinfo t <> None /\
  parse_timestamp lib data
  = inr (dict_set "timestamp" (PDatetime t) data) /\
  on_message lib drv msg c
  = after_store msg text
      (store_sensor_data lib drv
         (dict_set "timestamp" (PDatetime t) data) c) /\
  forall params,
    In (CallExecute params) (snd (on_message lib drv msg c)) ->
    dict_get "time" params = Some (PDatetime t) /\
    dict_get "timestamp" params = None.

(** The conversion of lines 80-83 for the field [key]. *)
Definition converted (lib : pylib) (key : string) (v : pyval)
  : result pyval :=
  if in_list key integer_fields then
    match py_int lib v with inl e => inl e | inr z => inr (PInt z) end
  else
    match py_float lib v with inl e => inl e | inr f => inr (PFloat f) end.

(** The body of the [try] of [store_sensor_data], lines 69-134. *)
Definition store_attempt (lib : pylib) {C} (drv : driver C)
  : M C dict unit :=
  bind (build_db_data lib) (fun _ => insert_db_data drv).

(** ** What the retry loop is expected to emit *)

(** The records and the sleep of one failed attempt. *)
Definition retry_round (e : exn) : list event :=
  [Log ERROR (Could_not_connect e); Log INFO Retrying_in_5_seconds; Sleep 5].

(** The events of [n] failed attempts in a row, from attempt [k] on. *)
Fixpoint retry_events {C} (attempts : nat -> result C) (k n : nat)
  : list event :=
  match n with
  | O => []
  | S n' =>
      match attempts k with
      | inl e => retry_round e
      | inr _ => []
      end ++ retry_events attempts (S k) n'
  end.

(** ** Measures of a run *)

(** The seconds spent in [time.sleep] during a run. *)
Fixpoint slept (ev : list event) : Z :=
  match ev with
  | [] => 0
  | Sleep seconds :: ev' => seconds + slept ev'
  | _ :: ev' => slept ev'
  end.

(** The calls made on the connection during a run, in order. *)
Definition is_call (e : event) : bool :=
  match e with
  | CallCursor | CallExecute _ | CallCommit | CallRollback => true
  | Log _ _ | Sleep _ => false
  end.

Definition calls (ev : list event) : list event := filter is_call ev.

(** ** The fields of the record, from the fields of the input *)

(** The exceptions that the clause of line 84 takes. *)
Definition caught (e : exn) : bool :=
  isinstance e ValueError || isinstance e TypeError.

(** What lines 77-88 leave under the numeric field [key] that held [v],
    when they go through: the converted value, or [None] after a
    conversion that raised ([None] itself is left alone, and [int] and
    [float] raise on it). *)
Definition coerced (lib : pylib) (key : string) (v : pyval) : pyval :=
  match converted lib key v with inr v' => v' | inl _ => PNone end.

(** What lines 93-94 leave under a text field that held [v]. *)
Definition as_text (lib : pylib) (v : pyval) : pyval :=
  match v with PNone => PNone | _ => PStr (str_of lib v) end.

(** The warning of lines 85-87 for the numeric field [key] of [data], in
    a run of the loop that goes through: there is one when the field
    holds a value other than [None] whose conversion raises. *)
Definition warning (lib : pylib) (data : dict) (key : string)
  : list event :=
  match dict_get key data with
  | None | Some PNone => []
  | Some v =>
      match converted lib key v with
      | inl _ => [Log WARNING (Invalid_numeric_value key v)]
      | inr _ => []
      end
  end.

(** ** When the record reaches the insert *)

(** No numeric field of [data] holds a value whose conversion raises
    past line 84: the loop of lines 76-88 goes through. *)
Definition numbers_convert (lib : pylib) (data : dict) : Prop :=
  forall key v e,
    In key numeric_fields -> dict_get key data = Some v ->
    converted lib key v = inl e -> caught e = true.

(** The timestamp of the message [msg] is stored as the aware datetime
    [t], and the insert is reached: besides [time_stored_as], when the
    numeric fields convert and [cursor()] returns, [cur.execute] is
    called, with a record that has [t] under [time] and no
    [timestamp]. *)
Definition time_inserted_as (lib : pylib) {C} (drv : driver C)
           (msg : mqtt_message) (text : string) (c : C)
           (data : dict) (t : datetime) : Prop :=
  time_stored_as lib drv msg text c data t /\
  (numbers_convert lib data -> fst (cursor drv c) = None ->
   exists params,
     In (CallExecute params) (snd (on_message lib drv msg c)) /\
     dict_get "time" params = Some (PDatetime t) /\
     dict_get "timestamp" params = None).

(** ** Successive messages *)

(** The connection after the client loop of line 242 has handed the
    messages [msgs] to [on_message] in turn, on the one connection
    [db_conn] of line 216.  An exception that leaves the callback leaves
    [loop_forever] with it (the client re-raises what a callback
    raises); the clause of lines 247-249 then closes the connection,
    which is [close], and the messages that follow are not handled. *)
Fixpoint deliver (lib : pylib) {C} (drv : driver C) (close : C -> C)
         (msgs : list mqtt_message) (c : C) : C :=
  match msgs with
  | [] => c
  | msg :: msgs' =>
      match on_message lib drv msg c with
      | (inr _, c', _) => deliver lib drv close msgs' c'
      | (inl _, c', _) => close c'
      end
  end.

(* ===================================================================== *)
(** * A reference instance of the library calls *)
(* ===================================================================== *)

(** One instance of [pylib] and of [driver], to run the program on
    concrete messages.  Each function follows CPython (and psycopg2) on
    the inputs its comment describes.  The general theorems about the
    program hold for every instance; this one serves the concrete runs. *)
Module Reference.

Definition dquote : ascii := "034"%char.
Definition backslash : ascii := "092"%char.

Definition code (c : ascii) : Z := Z.of_N (N_of_ascii c).
Definition chr (z : Z) : ascii := ascii_of_N (Z.to_N z).

Definition is_digit (c : ascii) : bool :=
  (48 <=? code c) && (code c <=? 57).

Definition digit_value (c : ascii) : Z := code c - 48.

Definition digits_to_Z (ds : list ascii) : Z :=
  fold_left (fun acc c => 10 * acc + digit_value c) ds 0.

(** ** bytes.decode(): strict UTF-8 *)

(** After a lead byte: how many continuation bytes follow, and the
    range of the first of them (well-formed sequences, Unicode 3.9). *)
Definition utf8_lead (n : Z) : option (nat * Z * Z) :=
  if n <=? 0x7F then Some (0%nat, 0x80, 0xBF)
  else if n <? 0xC2 then None
  else if n <=? 0xDF then Some (1%nat, 0x80, 0xBF)
  else if n =? 0xE0 then Some (2%nat, 0xA0, 0xBF)
  else if n =? 0xED then Some (2%nat, 0x80, 0x9F)
  else if n <=? 0xEF then Some (2%nat, 0x80, 0xBF)
  else if n =? 0xF0 then Some (3%nat, 0x90, 0xBF)
  else if n <=? 0xF3 then Some (3%nat, 0x80, 0xBF)
  else if n =? 0xF4 then Some (3%nat, 0x80, 0x8F)
  else None.

Fixpoint utf8_valid (need : nat) (lo hi : Z) (bs : list byte) : bool :=
  match bs with
  | [] => match need with O => true | S _ => false end
  | b :: bs' =>
      let n := Z.of_N (Byte.to_N b) in
      match need with
      | O =>
          match utf8_lead n with
          | Some (k, lo', hi') => utf8_valid k lo' hi' bs'
          | None => false
          end
      | S k => (lo <=? n) && (n <=? hi) && utf8_valid k 0x80 0xBF bs'
      end
  end.

Definition decode (bs : list byte) : result string :=
  if utf8_valid 0 0x80 0xBF bs then inr (string_of_list_byte bs)
  else inl (Raise UnicodeDecodeError "'utf-8' codec can't decode byte").

(** The UTF-8 encoding of a code point (a lone surrogate is encoded
    like any other three-byte code point). *)
Definition utf8_encode (cp : Z) : list ascii :=
  if cp <? 0x80 then [chr cp]
  else if cp <? 0x800 then
    [chr (0xC0 + cp / 64); chr (0x80 + cp mod 64)]
  else if cp <? 0x10000 then
    [chr (0xE0 + cp / 4096); chr (0x80 + (cp / 64) mod 64);
     chr (0x80 + cp mod 64)]
  else
    [chr (0xF0 + cp / 262144); chr (0x80 + (cp / 4096) mod 64);
     chr (0x80 + (cp / 64) mod 64); chr (0x80 + cp mod 64)].

(** ** Decimal text to float *)

(** The binary64 nearest to [m * 10^e10] (ties to even), signed by
    [neg]; for [0 <= m].  From [10^310] on the result is an infinity and
    below [10^-330] a zero, which the first two tests settle without
    computing the power. *)
Definition decimal_to_float (neg : bool) (m e10 : Z) : spec_float :=
  match m with
  | Zpos p =>
      if 310 <=? e10 then S754_infinity neg
      else if Z.log2 m + 1 + e10 <? -330 then S754_zero neg
      else if 0 <=? e10 then
        binary_normalize prec emax (cond_Zopp neg (m * 10 ^ e10)) 0 false
      else
        SFdiv prec emax (S754_finite neg p 0)
              (S754_finite false (Z.to_pos (10 ^ (- e10))) 0)
  | _ => S754_zero neg
  end.

(** A run of digits; with [us], single underscores between digits are
    skipped (PEP 515). *)
Fixpoint take_digits (us : bool) (cs : list ascii)
  : list ascii * list ascii :=
  match cs with
  | c :: cs' =>
      if is_digit c then
        match cs' with
        | u :: cs'' =>
            if us && Ascii.eqb u "_"%char
               && match cs'' with d :: _ => is_digit d | [] => false end
            then let (ds, r) := take_digits us cs'' in (c :: ds, r)
            else let (ds, r) := take_digits us cs' in (c :: ds, r)
        | [] => ([c], [])
        end
      else ([], cs)
  | [] => ([], [])
  end.

(** An optional sign: [true] for [-]. *)
Definition take_sign (cs : list ascii) : bool * list ascii :=
  match cs with
  | c :: cs' =>
      if Ascii.eqb c "-"%char then (true, cs')
      else if Ascii.eqb c "+"%char then (false, cs')
      else (false, cs)
  | [] => (false, [])
  end.

(** An exponent part [e[+-]digits], when there is one: its value and
    what follows it. *)
Definition take_exponent (us : bool) (cs : list ascii)
  : option (Z * list ascii) :=
  match cs with
  | c :: cs' =>
      if Ascii.eqb c "e"%char || Ascii.eqb c "E"%char then
        let (neg, r) := take_sign cs' in
        match take_digits us r with
        | ([], _) => None
        | (ds, r') => Some (cond_Zopp neg (digits_to_Z ds), r')
        end
      else None
  | [] => None
  end.

(** The ASCII white space that [int] and [float] skip around a number. *)
Definition is_space (c : ascii) : bool :=
  let n := code c in
  ((9 <=? n) && (n <=? 13)) || (n =? 32).

Fixpoint lstrip (cs : list ascii) : list ascii :=
  match cs with
  | c :: cs' => if is_space c then lstrip cs' else cs
  | [] => []
  end.

Definition strip (cs : list ascii) : list ascii :=
  rev (lstrip (rev (lstrip cs))).

(** [int(text)] for ASCII text: white space around, a sign, decimal
    digits with single underscores between them. *)
Definition int_of_str (s : string) : option Z :=
  let (neg, r) := take_sign (strip (list_ascii_of_string s)) in
  match take_digits true r with
  | ((_ :: _) as ds, []) => Some (cond_Zopp neg (digits_to_Z ds))
  | _ => None
  end.

Definition lower (c : ascii) : ascii :=
  if (65 <=? code c) && (code c <=? 90) then chr (code c + 32) else c.

(** [float(text)] for ASCII text: white space around, a sign, then
    [inf], [infinity], [nan] in any case, or a decimal number with an
    optional fraction and exponent. *)
Definition float_of_str (s : string) : option spec_float :=
  let (neg, r) := take_sign (strip (list_ascii_of_string s)) in
  let word := string_of_list_ascii (map lower r) in
  if String.eqb word "inf" || String.eqb word "infinity"
  then Some (S754_infinity neg)
  else if String.eqb word "nan" then Some S754_nan
  else
    let (ip, r1) := take_digits true r in
    let (fp, r2) :=
      match r1 with
      | c :: r' => if Ascii.eqb c "."%char then take_digits true r' else ([], r1)
      | [] => ([], r1)
      end in
    match ip ++ fp with
    | [] => None
    | ds =>
        let (e, r3) :=
          match take_exponent true r2 with
          | Some (e, r') => (e, r')
          | None => (0, r2)
          end in
        match r3 with
        | [] => Some (decimal_to_float neg (digits_to_Z ds)
                        (e - Z.of_nat (List.length fp)))
        | _ => None
        end
    end.

(** ** json.loads *)

Definition is_json_ws (c : ascii) : bool :=
  Ascii.eqb c " "%char || (code c =? 9) || (code c =? 10) || (code c =? 13).

Fixpoint skip_ws (cs : list ascii) : list ascii :=
  match cs with
  | c :: cs' => if is_json_ws c then skip_ws cs' else cs
  | [] => []
  end.

Definition hex_value (c : ascii) : option Z :=
  let n := code c in
  if (48 <=? n) && (n <=? 57) then Some (n - 48)
  else if (65 <=? n) && (n <=? 70) then Some (n - 55)
  else if (97 <=? n) && (n <=? 102) then Some (n - 87)
  else None.

(** Four hexadecimal digits: their value and what follows. *)
Definition take_hex4 (cs : list ascii) : option (Z * list ascii) :=
  match cs with
  | a :: b :: c :: d :: r =>
      match hex_value a, hex_value b, hex_value c, hex_value d with
      | Some x, Some y, Some z, Some w =>
          Some (((x * 16 + y) * 16 + z) * 16 + w, r)
      | _, _, _, _ => None
      end
  | _ => None
  end.

(** The character a one-letter escape stands for. *)
Definition unescape (c : ascii) : option ascii :=
  if Ascii.eqb c dquote then Some dquote
  else if Ascii.eqb c backslash then Some backslash
  else if Ascii.eqb c "/"%char then Some "/"%char
  else if Ascii.eqb c "b"%char then Some (chr 8)
  else if Ascii.eqb c "f"%char then Some (chr 12)
  else if Ascii.eqb c "n"%char then Some (chr 10)
  else if Ascii.eqb c "r"%char then Some (chr 13)
  else if Ascii.eqb c "t"%char then Some (chr 9)
  else None.

(** After [\uXXXX] gave a high surrogate [hi]: a low surrogate escape
    right behind it, if there is one. *)
Definition take_low_surrogate (cs : list ascii) : option (Z * list ascii) :=
  match cs with
  | b :: u :: r =>
      if Ascii.eqb b backslash && Ascii.eqb u "u"%char then
        match take_hex4 r with
        | Some (lo, r') =>
            if (0xDC00 <=? lo) && (lo <=? 0xDFFF) then Some (lo, r')
            else None
        | None => None
        end
      else None
  | _ => None
  end.

(** The body of a string literal, after its opening quote (strict
    mode: no raw control characters). *)
Fixpoint scan_string (fuel : nat) (cs acc : list ascii)
  : option (string * list ascii) :=
  match fuel, cs with
  | S fuel', c :: cs' =>
      if Ascii.eqb c dquote then Some (string_of_list_ascii (rev acc), cs')
      else if Ascii.eqb c backslash then
        match cs' with
        | e :: cs'' =>
            if Ascii.eqb e "u"%char then
              match take_hex4 cs'' with
              | Some (uni, r) =>
                  match
                    (if (0xD800 <=? uni) && (uni <=? 0xDBFF)
                     then take_low_surrogate r else None)
                  with
                  | Some (lo, r') =>
                      let cp := 0x10000 + (uni - 0xD800) * 1024
                                + (lo - 0xDC00) in
                      scan_string fuel' r' (rev (utf8_encode cp) ++ acc)
                  | None =>
                      scan_string fuel' r (rev (utf8_encode uni) ++ acc)
                  end
              | None => None
              end
            else
              match unescape e with
              | Some ch => scan_string fuel' cs'' (ch :: acc)
              | None => None
              end
        | [] => None
        end
      else if code c <? 32 then None
      else scan_string fuel' cs' (c :: acc)
  | _, _ => None
  end.

(** A number at the head of the text: an optional minus, then a zero
    or digits not starting with zero, then an optional fraction (a dot
    and digits) and an optional exponent.  An [int] when it has neither
    fraction nor exponent, a [float] otherwise. *)
Definition scan_number (cs : list ascii) : option (pyval * list ascii) :=
  let (neg, r0) :=
    match cs with
    | c :: cs' => if Ascii.eqb c "-"%char then (true, cs') else (false, cs)
    | [] => (false, cs)
    end in
  let (ip, r1) :=
    match r0 with
    | c :: r => if Ascii.eqb c "0"%char then ([c], r)
                else take_digits false r0
    | [] => ([], r0)
    end in
  match ip with
  | [] => None
  | _ =>
      let (fp, r2) :=
        match r1 with
        | c :: r =>
            if Ascii.eqb c "."%char then
              match take_digits false r with
              | ([], _) => ([], r1)
              | (ds, r') => (ds, r')
              end
            else ([], r1)
        | [] => ([], r1)
        end in
      match take_exponent false r2, fp with
      | None, [] => Some (PInt (cond_Zopp neg (digits_to_Z ip)), r2)
      | None, _ =>
          Some (PFloat (decimal_to_float neg (digits_to_Z (ip ++ fp))
                          (- Z.of_nat (List.length fp))), r2)
      | Some (e, r3), _ =>
          Some (PFloat (decimal_to_float neg (digits_to_Z (ip ++ fp))
                          (e - Z.of_nat (List.length fp))), r3)
      end
  end.

(** [cs] begins with [word]: what follows it. *)
Fixpoint take_word (word : string) (cs : list ascii)
  : option (list ascii) :=
  match word, cs with
  | EmptyString, _ => Some cs
  | String w word', c :: cs' =>
      if Ascii.eqb w c then take_word word' cs' else None
  | String _ _, [] => None
  end.

Definition constants : list (string * pyval) :=
  [("null", PNone); ("true", PBool true); ("false", PBool false);
   ("NaN", PFloat S754_nan); ("Infinity", PFloat (S754_infinity false));
   ("-Infinity", PFloat (S754_infinity true))].

Fixpoint scan_constant (ks : list (string * pyval)) (cs : list ascii)
  : option (pyval * list ascii) :=
  match ks with
  | [] => None
  | (word, v) :: ks' =>
      match take_word word cs with
      | Some r => Some (v, r)
      | None => scan_constant ks' cs
      end
  end.

(** One JSON value at the head of the text, and what follows it.
    [fuel] bounds the number of values, members and elements read. *)
Fixpoint scan_once (fuel : nat) (cs : list ascii)
  : option (pyval * list ascii) :=
  match fuel with
  | O => None
  | S fuel' =>
      match cs with
      | [] => None
      | c :: cs' =>
          if Ascii.eqb c dquote then
            match scan_string (List.length cs) cs' [] with
            | Some (s, r) => Some (PStr s, r)
            | None => None
            end
          else if Ascii.eqb c "{"%char then
            match skip_ws cs' with
            | c1 :: r1 =>
                if Ascii.eqb c1 "}"%char then Some (PDict [], r1)
                else scan_members fuel' (c1 :: r1) []
            | [] => None
            end
          else if Ascii.eqb c "["%char then
            match skip_ws cs' with
            | c1 :: r1 =>
                if Ascii.eqb c1 "]"%char then Some (PList [], r1)
                else scan_elements fuel' (c1 :: r1) []
            | [] => None
            end
          else
            match scan_number cs with
            | Some r => Some r
            | None => scan_constant constants cs
            end
      end
  end

(** The members of an object from a key on, [acc] holding those read. *)
with scan_members (fuel : nat) (cs : list ascii) (acc : dict)
  : option (pyval * list ascii) :=
  match fuel with
  | O => None
  | S fuel' =>
      match cs with
      | q :: cs' =>
          if Ascii.eqb q dquote then
            match scan_string (List.length cs) cs' [] with
            | Some (key, r) =>
                match skip_ws r with
                | colon :: r1 =>
                    if Ascii.eqb colon ":"%char then
                      match scan_once fuel' (skip_ws r1) with
                      | Some (v, r2) =>
                          let acc' := dict_set key v acc in
                          match skip_ws r2 with
                          | c :: r3 =>
                              if Ascii.eqb c "}"%char
                              then Some (PDict acc', r3)
                              else if Ascii.eqb c ","%char
                              then scan_members fuel' (skip_ws r3) acc'
                              else None
                          | [] => None
                          end
                      | None => None
                      end
                    else None
                | [] => None
                end
            | None => None
            end
          else None
      | [] => None
      end
  end

(** The elements of an array from a value on, [acc] holding those read,
    last first. *)
with scan_elements (fuel : nat) (cs : list ascii) (acc : list pyval)
  : option (pyval * list ascii) :=
  match fuel with
  | O => None
  | S fuel' =>
      match scan_once fuel' cs with
      | Some (v, r) =>
          match skip_ws r with
          | c :: r1 =>
              if Ascii.eqb c "]"%char then Some (PList (rev (v :: acc)), r1)
              else if Ascii.eqb c ","%char
              then scan_elements fuel' (skip_ws r1) (v :: acc)
              else None
          | [] => None
          end
      | None => None
      end
  end.

(** [json.loads(text)]: one value with white space around it, for
    documents nested less deeply than the interpreter's recursion limit
    and integers within its digit limit. *)
Definition json_loads (text : string) : result pyval :=
  let cs := list_ascii_of_string text in
  match scan_once (S (2 * List.length cs)) (skip_ws cs) with
  | Some (v, r) =>
      match skip_ws r with
      | [] => inr v
      | _ => inl (Raise JSONDecodeError "Extra data")
      end
  | None => inl (Raise JSONDecodeError "Expecting value")
  end.

(** The text with every apostrophe turned into a double quote: JSON
    documents are written with apostrophes in this file. *)
Definition dq (s : string) : string :=
  string_of_list_ascii
    (map (fun c => if Ascii.eqb c "'"%char then dquote else c)
         (list_ascii_of_string s)).

(** ** datetime.fromisoformat *)

(** Exactly [n] digits: their value and what follows. *)
Fixpoint take_n_digits (n : nat) (cs : list ascii) (acc : Z)
  : option (Z * list ascii) :=
  match n, cs with
  | O, _ => Some (acc, cs)
  | S n', c :: cs' =>
      if is_digit c then take_n_digits n' cs' (10 * acc + digit_value c)
      else None
  | S _, [] => None
  end.

Definition expect (c : ascii) (cs : list ascii) : option (list ascii) :=
  match cs with
  | c' :: cs' => if Ascii.eqb c c' then Some cs' else None
  | [] => None
  end.

Definition is_leap (y : Z) : bool :=
  ((y mod 4 =? 0) && negb (y mod 100 =? 0)) || (y mod 400 =? 0).

Definition days_in_month (y m : Z) : Z :=
  if m =? 2 then (if is_leap y then 29 else 28)
  else if (m =? 4) || (m =? 6) || (m =? 9) || (m =? 11) then 30
  else 31.

(** [HH[:MM[:SS[.fff[fff]]]]] up to the end of the text:
    hours, minutes, seconds, microseconds. *)
Definition parse_hh_mm_ss_ff (cs : list ascii) : option (Z * Z * Z * Z) :=
  match take_n_digits 2 cs 0 with
  | None => None
  | Some (h, []) => Some (h, 0, 0, 0)
  | Some (h, r1) =>
      match expect ":"%char r1 with
      | None => None
      | Some r2 =>
          match take_n_digits 2 r2 0 with
          | None => None
          | Some (m, []) => Some (h, m, 0, 0)
          | Some (m, r3) =>
              match expect ":"%char r3 with
              | None => None
              | Some r4 =>
                  match take_n_digits 2 r4 0 with
                  | None => None
                  | Some (s, []) => Some (h, m, s, 0)
                  | Some (s, r5) =>
                      match expect "."%char r5 with
                      | None => None
                      | Some r6 =>
                          match List.length r6 with
                          | 3%nat =>
                              match take_n_digits 3 r6 0 with
                              | Some (f, _) => Some (h, m, s, f * 1000)
                              | None => None
                              end
                          | 6%nat =>
                              match take_n_digits 6 r6 0 with
                              | Some (f, _) => Some (h, m, s, f)
                              | None => None
                              end
                          | _ => None
                          end
                      end
                  end
              end
          end
      end
  end.

(** The text up to the first [+] or [-], and the sign and text after
    it, if there is one. *)
Fixpoint split_offset (cs : list ascii)
  : list ascii * option (bool * list ascii) :=
  match cs with
  | [] => ([], None)
  | c :: cs' =>
      if Ascii.eqb c "+"%char then ([], Some (false, cs'))
      else if Ascii.eqb c "-"%char then ([], Some (true, cs'))
      else let (t, o) := split_offset cs' in (c :: t, o)
  end.

(** The offset [HH:MM[:SS[.ffffff]]] after its sign, in microseconds,
    strictly within a day; an offset of zero whole seconds is UTC,
    whatever its fraction. *)
Definition parse_offset (neg : bool) (cs : list ascii) : option tz :=
  match List.length cs with
  | 5%nat | 8%nat | 15%nat =>
      match parse_hh_mm_ss_ff cs with
      | Some (h, m, s, f) =>
          let seconds := (h * 60 + m) * 60 + s in
          let us := seconds * 1000000 + f in
          if seconds =? 0 then Some (FixedOffset 0)
          else if us <? 86400000000 then Some (FixedOffset (cond_Zopp neg us))
          else None
      | None => None
      end
  | _ => None
  end.

Definition parse_isoformat (cs : list ascii) : option datetime :=
  match take_n_digits 4 cs 0 with
  | None => None
  | Some (y, r1) =>
  match expect "-"%char r1 with
  | None => None
  | Some r2 =>
  match take_n_digits 2 r2 0 with
  | None => None
  | Some (mo, r3) =>
  match expect "-"%char r3 with
  | None => None
  | Some r4 =>
  match take_n_digits 2 r4 0 with
  | None => None
  | Some (d, r5) =>
      if (1 <=? y) && (1 <=? mo) && (mo <=? 12)
         && (1 <=? d) && (d <=? days_in_month y mo)
      then
        match r5 with
        | [] => Some (mkDatetime y mo d 0 0 0 0 None)
        | _sep :: r6 =>
            let (t, o) := split_offset r6 in
            match parse_hh_mm_ss_ff t with
            | None => None
            | Some (h, mi, s, f) =>
                if (h <? 24) && (mi <? 60) && (s <? 60) then
                  match o with
                  | None => Some (mkDatetime y mo d h mi s f None)
                  | Some (neg, off) =>
                      match parse_offset neg off with
                      | Some z => Some (mkDatetime y mo d h mi s f (Some z))
                      | None => None
                      end
                  end
                else None
            end
        end
      else None
  end end end end end.

(** [datetime.fromisoformat(text)] on the format that
    [datetime.isoformat] writes,
    [YYYY-MM-DD[*HH[:MM[:SS[.fff[fff]]]][+HH:MM[:SS[.ffffff]]]]], which
    is what Python 3.7 to 3.10 accept; any other text is refused. *)
Definition fromisoformat (text : string) : result datetime :=
  match parse_isoformat (list_ascii_of_string text) with
  | Some dt => inr dt
  | None => inl (Raise ValueError "Invalid isoformat string")
  end.

(** ** str() and repr() *)

Fixpoint decimal_digits (fuel : nat) (z : Z) (acc : list ascii)
  : list ascii :=
  match fuel with
  | O => acc
  | S fuel' =>
      if z <? 10 then chr (48 + z) :: acc
      else decimal_digits fuel' (z / 10) (chr (48 + z mod 10) :: acc)
  end.

(** The decimal digits of [0 <= z]. *)
Definition decimal (z : Z) : list ascii :=
  decimal_digits (S (Z.to_nat (Z.log2 z))) z [].

Definition repr_int (z : Z) : list ascii :=
  if z <? 0 then "-"%char :: decimal (- z) else decimal z.

(** [decimal z], padded with zeros on the left to [n] digits. *)
Definition zero_padded (n : nat) (z : Z) : list ascii :=
  let ds := decimal z in
  repeat "0"%char (n - List.length ds) ++ ds.

(** [10^k <= num / den], for positive [num] and [den]. *)
Definition ge_pow10 (num den k : Z) : bool :=
  if 0 <=? k then 10 ^ k * den <=? num else den <=? num * 10 ^ (- k).

Fixpoint raise_log10 (fuel : nat) (num den k : Z) : Z :=
  match fuel with
  | O => k
  | S fuel' =>
      if ge_pow10 num den (k + 1) then raise_log10 fuel' num den (k + 1)
      else k
  end.

(** The [k] with [10^k <= num / den < 10^(k+1)]: an estimate from the
    binary logarithms that is at most three too low, then raised. *)
Definition floor_log10 (num den : Z) : Z :=
  let l := Z.log2 num - Z.log2 den in
  raise_log10 4 num den ((l - 1) * 30103 / 100000 - 1).

Definition float_eqb (f g : spec_float) : bool :=
  match f, g with
  | S754_finite s m e, S754_finite s' m' e' =>
      Bool.eqb s s' && Pos.eqb m m' && (e =? e')
  | _, _ => false
  end.

(** The integer nearest to [num * 10^s / den] that reads back as
    [x] when scaled by [10^-s], if one of the two neighbours does. *)
Definition round_trip (x : spec_float) (num den s : Z) : option Z :=
  let n := if 0 <=? s then num * 10 ^ s else num in
  let d := if 0 <=? s then den else den * 10 ^ (- s) in
  let lo := n / d in
  let hi := lo + 1 in
  let ok z := float_eqb (decimal_to_float false z (- s)) x in
  let lo_first :=
    match 2 * n ?= (2 * lo + 1) * d with
    | Lt => true
    | Eq => Z.even lo
    | Gt => false
    end in
  let (a, b) := if lo_first then (lo, hi) else (hi, lo) in
  if ok a then Some a else if ok b then Some b else None.

Fixpoint lstrip_zeros (cs : list ascii) : list ascii :=
  match cs with
  | c :: cs' => if Ascii.eqb c "0"%char then lstrip_zeros cs' else cs
  | [] => []
  end.

(** The shortest digit string that reads back as [x], trying [n]
    digits and more, with the position of its decimal point. *)
Fixpoint shortest (fuel : nat) (x : spec_float) (num den k : Z) (n : Z)
  : list ascii * Z :=
  match fuel with
  | O => ([], 0)
  | S fuel' =>
      let s := n - 1 - k in
      match round_trip x num den s with
      | Some z =>
          let ds := decimal z in
          (rev (lstrip_zeros (rev ds)), Z.of_nat (List.length ds) - s)
      | None => shortest fuel' x num den k (n + 1)
      end
  end.

(** [repr(x)] of a float. *)
Definition repr_float (x : spec_float) : list ascii :=
  match x with
  | S754_nan => list_ascii_of_string "nan"
  | S754_infinity s => list_ascii_of_string (if s then "-inf" else "inf")
  | S754_zero s => list_ascii_of_string (if s then "-0.0" else "0.0")
  | S754_finite s m e =>
      let num := if 0 <=? e then Zpos m * 2 ^ e else Zpos m in
      let den := if 0 <=? e then 1 else 2 ^ (- e) in
      let '(ds, decpt) :=
        shortest 17 (S754_finite false m e) num den
                 (floor_log10 num den) 1 in
      let nd := Z.of_nat (List.length ds) in
      let body :=
        if (decpt <=? -4) || (16 <? decpt) then
          let x10 := decpt - 1 in
          firstn 1 ds
          ++ match skipn 1 ds with [] => [] | r => "."%char :: r end
          ++ ["e"%char; if x10 <? 0 then "-"%char else "+"%char]
          ++ zero_padded 2 (Z.abs x10)
        else if decpt <=? 0 then
          ["0"%char; "."%char] ++ repeat "0"%char (Z.to_nat (- decpt)) ++ ds
        else if nd <=? decpt then
          ds ++ repeat "0"%char (Z.to_nat (decpt - nd))
          ++ ["."%char; "0"%char]
        else
          firstn (Z.to_nat decpt) ds
          ++ "."%char :: skipn (Z.to_nat decpt) ds
      in
      if s then "-"%char :: body else body
  end.

Definition hex_digit (z : Z) : ascii :=
  if z <? 10 then chr (48 + z) else chr (87 + z).

Definition squote : ascii := "039"%char.

(** [repr(s)] of a str whose non-ASCII characters are all printable. *)
Definition repr_str (s : string) : list ascii :=
  let cs := list_ascii_of_string s in
  let q := if existsb (Ascii.eqb squote) cs
              && negb (existsb (Ascii.eqb dquote) cs)
           then dquote else squote in
  let esc (c : ascii) : list ascii :=
    let n := code c in
    if Ascii.eqb c backslash || Ascii.eqb c q then [backslash; c]
    else if n =? 9 then [backslash; "t"%char]
    else if n =? 10 then [backslash; "n"%char]
    else if n =? 13 then [backslash; "r"%char]
    else if (n <? 32) || (n =? 127) then
      [backslash; "x"%char; hex_digit (n / 16); hex_digit (n mod 16)]
    else [c] in
  q :: flat_map esc cs ++ [q].

Fixpoint join (sep : list ascii) (xs : list (list ascii)) : list ascii :=
  match xs with
  | [] => []
  | [x] => x
  | x :: xs' => x ++ sep ++ join sep xs'
  end.

Definition text (s : string) : list ascii := list_ascii_of_string s.

(** [repr(d)] of a [timedelta] of [us] microseconds. *)
Definition repr_timedelta (us : Z) : list ascii :=
  let days := us / 86400000000 in
  let seconds := (us mod 86400000000) / 1000000 in
  let micros := us mod 1000000 in
  let arg (name : string) (z : Z) :=
    if z =? 0 then [] else [text name ++ "="%char :: repr_int z] in
  let args := arg "days" days ++ arg "seconds" seconds
              ++ arg "microseconds" micros in
  text "datetime.timedelta("
  ++ match args with [] => text "0" | _ => join (text ", ") args end
  ++ text ")".

Definition repr_tz (t : tz) : list ascii :=
  match t with
  | UTC => text "<UTC>"
  | FixedOffset us =>
      if us =? 0 then text "datetime.timezone.utc"
      else text "datetime.timezone(" ++ repr_timedelta us ++ text ")"
  end.

Definition repr_datetime (dt : datetime) : list ascii :=
  let fields :=
    [year dt; month dt; day dt; hour dt; minute dt]
    ++ (if microsecond dt =? 0 then
          if second dt =? 0 then [] else [second dt]
        else [second dt; microsecond dt]) in
  text "datetime.datetime("
  ++ join (text ", ") (map repr_int fields)
  ++ match tzinfo dt with
     | Some t => text ", tzinfo=" ++ repr_tz t
     | None => []
     end
  ++ text ")".

(** [str(dt)], which is [dt.isoformat(sep=' ')]. *)
Definition str_datetime (dt : datetime) : list ascii :=
  zero_padded 4 (year dt) ++ "-"%char :: zero_padded 2 (month dt)
  ++ "-"%char :: zero_padded 2 (day dt)
  ++ " "%char :: zero_padded 2 (hour dt)
  ++ ":"%char :: zero_padded 2 (minute dt)
  ++ ":"%char :: zero_padded 2 (second dt)
  ++ (if microsecond dt =? 0 then []
      else "."%char :: zero_padded 6 (microsecond dt))
  ++ match tzinfo dt with
     | None => []
     | Some t =>
         let us := match t with UTC => 0 | FixedOffset us => us end in
         let a := Z.abs us in
         (if us <? 0 then "-"%char else "+"%char)
         :: zero_padded 2 (a / 3600000000)
         ++ ":"%char :: zero_padded 2 ((a / 60000000) mod 60)
         ++ (if a mod 60000000 =? 0 then []
             else ":"%char :: zero_padded 2 ((a / 1000000) mod 60)
                  ++ (if a mod 1000000 =? 0 then []
                      else "."%char :: zero_padded 6 (a mod 1000000)))
     end.

Fixpoint repr (v : pyval) : list ascii :=
  match v with
  | PNone => text "None"
  | PBool b => text (if b then "True" else "False")
  | PInt z => repr_int z
  | PFloat f => repr_float f
  | PStr s => repr_str s
  | PList l => "["%char :: join (text ", ") (map repr l) ++ ["]"%char]
  | PDict d =>
      "{"%char
      :: join (text ", ")
           (map (fun kv : string * pyval =>
                   let (k, x) := kv in repr_str k ++ text ": " ++ repr x) d)
      ++ ["}"%char]
  | PDatetime dt => repr_datetime dt
  end.

(** [str(v)] *)
Definition str_of (v : pyval) : string :=
  match v with
  | PStr s => s
  | PDatetime dt => string_of_list_ascii (str_datetime dt)
  | _ => string_of_list_ascii (repr v)
  end.

Definition lib : pylib :=
  Build_pylib decode json_loads fromisoformat int_of_str float_of_str
              str_of.

(** ** The connection *)

(** A psycopg2 connection to a PostgreSQL server, in its default
    (non-autocommit) mode: the rows committed to [sensor_data], the rows
    inserted by the open transaction, whether the server has aborted
    that transaction, and whether the connection is closed. *)
Record pg := mkPg {
  committed : list (list pyval);
  pending : list (list pyval);
  aborted : bool;
  closed : bool
}.

Definition connection_closed : exn :=
  Raise InterfaceError "connection already closed".

(** The values bound to the fifteen named placeholders of the INSERT,
    in column order (lines 119-128); a missing name is a [KeyError]. *)
Fixpoint bind_params (columns : list string) (params : dict)
  : result (list pyval) :=
  match columns with
  | [] => inr []
  | col :: columns' =>
      match dict_get col params, bind_params columns' params with
      | None, _ => inl (Raise KeyError col)
      | _, inl e => inl e
      | Some v, inr row => inr (v :: row)
      end
  end.

(** [server row] is the error, if any, with which the server refuses
    the row (a violated constraint, a value of the wrong type). *)
Definition pg_driver (server : list pyval -> option exn) : driver pg := {|
  cursor c :=
    if closed c then (Some connection_closed, c) else (None, c);
  execute params c :=
    if closed c then (Some connection_closed, c)
    else
      match bind_params expected_fields params with
      | inl e => (Some e, c)
      | inr row =>
          if aborted c then
            (Some (Raise InternalError
                     "current transaction is aborted, commands ignored until end of transaction block"),
             c)
          else
            match server row with
            | Some e =>
                (Some e, mkPg (committed c) (pending c) true false)
            | None =>
                (None, mkPg (committed c) (pending c ++ [row]) false false)
            end
      end;
  commit c :=
    if closed c then (Some connection_closed, c)
    else if aborted c then (None, mkPg (committed c) [] false false)
    else (None, mkPg (committed c ++ pending c) [] false false);
  rollback c :=
    if closed c then (Some connection_closed, c)
    else (None, mkPg (committed c) [] false false)
|}.

(** A server that takes every row. *)
Definition any_row : list pyval -> option exn := fun _ => None.

(** A server whose [time] column is NOT NULL. *)
Definition time_not_null (row : list pyval) : option exn :=
  match row with
  | PNone :: _ =>
      Some (Raise IntegrityError
              "null value in column time violates not-null constraint")
  | _ => None
  end.

(** A connection with nothing stored and no transaction open. *)
Definition fresh : pg := mkPg [] [] false false.

(** A connection that has been closed. *)
Definition closed_connection : pg := mkPg [] [] false true.

Definition bytes_of (s : string) : list byte := list_byte_of_string s.

(** The MQTT message whose payload is the UTF-8 text [dq text]. *)
Definition message (text : string) : mqtt_message :=
  {| topic := "your_topic_prefix/d1"; payload := bytes_of (dq text) |}.

(** [on_message] on that message, over a server that takes every
    row. *)
Definition run (text : string) (c : pg)
  : result unit * pg * list event :=
  on_message lib (pg_driver any_row) (message text) c.

(** Two refused connection attempts, then a connection. *)
Definition third_time_lucky (k : nat) : result pg :=
  match k with
  | 0%nat | 1%nat =>
      inl (Raise OperationalError "could not connect to server")
  | _ => inr fresh
  end.

End Reference.

(** [db_conn.close()] on the reference connection: the transaction in
    progress, if any, is discarded; on a connection that is closed
    already nothing happens. *)
Definition pg_close (c : Reference.pg) : Reference.pg :=
  if Reference.closed c then c
  else Reference.mkPg (Reference.committed c) [] false true.

(** An open connection of the reference model with no transaction in
    progress: nothing pending, nothing aborted. *)
Definition clean (c : Reference.pg) : Prop :=
  Reference.closed c = false /\ Reference.aborted c = false /\
  Reference.pending c = [].

(** ** A sample message *)

(** A message with a number sent as text, a text where a number is
    wanted, a boolean under a text field, a null [event_type], a key
    outside the schema and a [time] of its own; the object that
    [json.loads] makes of it; and the record that reaches the insert
    for it (lemma [sample_run]). *)
Definition sample_text : string :=
  "{'device_id':'d1','event_type':null,'temperature':'21.5','fan_pwm':'x','motion':true,'note':'hi','time':'noon'}".

Definition sample_object : dict :=
  [("device_id", PStr "d1"); ("event_type", PNone);
   ("temperature", PStr "21.5"); ("fan_pwm", PStr "x");
   ("motion", PBool true); ("note", PStr "hi"); ("time", PStr "noon")].

Definition sample_record : dict :=
  [("device_id", PStr "d1"); ("event_type", PNone);
   ("temperature", PFloat (S754_finite false 6051711999279104 (-48)));
   ("fan_pwm", PNone); ("motion", PStr "True"); ("note", PStr "hi");
   ("time", PStr "noon"); ("humidity", PNone); ("pressure", PNone);
   ("temp_sensor_type", PNone); ("switch", PNone); ("version", PNone);
   ("uptime", PNone); ("wifi_rssi", PNone); ("uptime_seconds", PNone);
   ("fans_active_level", PNone)].

(* ===================================================================== *)
(** * Properties *)
(* ===================================================================== *)

(** ** Exceptions *)

Lemma every_class_is_an_Exception (c : exn_class) :
  issubclass c Exception = true.
Proof. destruct c; reflexivity. Qed.

Lemma isinstance_Exception (e : exn) : isinstance e Exception = true.
Proof. apply every_class_is_an_Exception. Qed.

(** ** get_db_connection *)

Section Acquire.

Variable C : Type.
Variable attempts : nat -> result C.

(** Every failed attempt raises [psycopg2.OperationalError], the
    exception with which [psycopg2.connect] reports that it could not
    connect. *)
Hypothesis connect_failures :
  forall k e, attempts k = inl e -> isinstance e OperationalError = true.

Lemma get_db_connection_never_raises (fuel k : nat) (e : exn) :
  fst (get_db_connection attempts fuel k) <> Raised e.
Proof.
  revert k. induction fuel as [|fuel IH]; intros k; simpl.
  - discriminate.
  - destruct (attempts k) as [e'|conn] eqn:Hk.
    + rewrite (connect_failures Hk).
      specialize (IH (S k)).
      destruct (get_db_connection attempts fuel (S k)) as [r ev].
      exact IH.
    + discriminate.
Qed.

Lemma get_db_connection_first_success (n : nat) :
  forall (k fuel : nat) (conn : C),
    attempts (k + n) = inr conn ->
    (forall j, (j < n)%nat -> exists e, attempts (k + j) = inl e) ->
    (n < fuel)%nat ->
    get_db_connection attempts fuel k
    = (Returned conn,
       retry_events attempts k n ++ [Log INFO Successfully_connected]).
Proof.
  induction n as [|n IH]; intros k fuel conn Hok Hfail Hfuel;
    (destruct fuel as [|fuel]; [lia|]); simpl.
  - rewrite Nat.add_0_r in Hok. rewrite Hok. reflexivity.
  - destruct (Hfail 0%nat ltac:(lia)) as [e He].
    rewrite Nat.add_0_r in He. rewrite He.
    rewrite (connect_failures He).
    rewrite (IH (S k) fuel conn).
    + reflexivity.
    + rewrite <- Hok. f_equal. lia.
    + intros j Hj. destruct (Hfail (S j) ltac:(lia)) as [e' He'].
      exists e'. rewrite <- He'. f_equal. lia.
    + lia.
Qed.

Lemma get_db_connection_keeps_retrying (fuel : nat) :
  forall k,
    (forall j, (j < fuel)%nat -> exists e, attempts (k + j) = inl e) ->
    get_db_connection attempts fuel k
    = (Retrying, retry_events attempts k fuel).
Proof.
  induction fuel as [|fuel IH]; intros k Hfail; simpl.
  - reflexivity.
  - destruct (Hfail 0%nat ltac:(lia)) as [e He].
    rewrite Nat.add_0_r in He. rewrite He.
    rewrite (connect_failures He).
    rewrite (IH (S k)).
    + reflexivity.
    + intros j Hj. destruct (Hfail (S j) ltac:(lia)) as [e' He'].
      exists e'. rewrite <- He'. f_equal. lia.
Qed.

Lemma get_db_connection_returns_a_success (fuel : nat) :
  forall k conn,
    fst (get_db_connection attempts fuel k) = Returned conn ->
    exists n, (n < fuel)%nat /\ attempts (k + n) = inr conn /\
              forall j, (j < n)%nat -> exists e, attempts (k + j) = inl e.
Proof.
  induction fuel as [|fuel IH]; intros k conn; simpl.
  - discriminate.
  - destruct (attempts k) as [e|conn'] eqn:Hk.
    + rewrite (connect_failures Hk).
      specialize (IH (S k) conn).
      destruct (get_db_connection attempts fuel (S k)) as [r ev].
      simpl in *. intros Hr.
      destruct (IH Hr) as (n & Hn & Hok & Hfail).
      exists (S n). repeat split.
      * lia.
      * rewrite <- Hok. f_equal. lia.
      * intros [|j] Hj.
        -- exists e. rewrite Nat.add_0_r. exact Hk.
        -- destruct (Hfail j ltac:(lia)) as [e' He'].
           exists e'. rewrite <- He'. f_equal. lia.
    + simpl. intros [= ->]. exists 0%nat. repeat split.
      * lia.
      * rewrite Nat.add_0_r. exact Hk.
      * intros j Hj. lia.
Qed.

End Acquire.

(** ** dict *)

Lemma dict_get_set_same k v d : dict_get k (dict_set k v d) = Some v.
Proof.
  induction d as [|[k' v'] d IH]; simpl.
  - rewrite String.eqb_refl. reflexivity.
  - destruct (String.eqb k k') eqn:E; simpl; rewrite E; auto.
Qed.

Lemma dict_get_set_other k k' v d :
  String.eqb k k' = false -> dict_get k (dict_set k' v d) = dict_get k d.
Proof.
  intros Hne. induction d as [|[k0 v0] d IH]; simpl.
  - rewrite Hne. reflexivity.
  - destruct (String.eqb k' k0) eqn:E; simpl.
    + apply String.eqb_eq in E. subst k0. rewrite Hne. reflexivity.
    + destruct (String.eqb k k0); auto.
Qed.

Lemma dict_get_remove_same k d : dict_get k (dict_remove k d) = None.
Proof.
  induction d as [|[k' v'] d IH]; simpl; auto.
  destruct (String.eqb k k') eqn:E; simpl; rewrite ?E; auto.
Qed.

Lemma dict_get_remove_other k k' d :
  String.eqb k k' = false -> dict_get k (dict_remove k' d) = dict_get k d.
Proof.
  intros Hne. induction d as [|[k0 v0] d IH]; simpl; auto.
  destruct (String.eqb k' k0) eqn:E; simpl.
  - apply String.eqb_eq in E. subst k0. rewrite Hne. exact IH.
  - destruct (String.eqb k k0); auto.
Qed.

Lemma dict_get_set k k' v d :
  dict_get k (dict_set k' v d)
  = if String.eqb k k' then Some v else dict_get k d.
Proof.
  destruct (String.eqb k k') eqn:E.
  - apply String.eqb_eq in E. subst. apply dict_get_set_same.
  - apply dict_get_set_other. exact E.
Qed.

Lemma dict_mem_set k k' v d :
  dict_mem k (dict_set k' v d) = String.eqb k k' || dict_mem k d.
Proof.
  unfold dict_mem. rewrite dict_get_set.
  destruct (String.eqb k k'); reflexivity.
Qed.

Lemma updated_refl fields d : updated fields d d.
Proof. split; reflexivity. Qed.

Lemma updated_trans fields d1 d2 d3 :
  updated fields d1 d2 -> updated fields d2 d3 -> updated fields d1 d3.
Proof.
  intros [M1 G1] [M2 G2]. split; intros k.
  - rewrite M2. apply M1.
  - intros Hk. rewrite (G2 k Hk). apply G1, Hk.
Qed.

(** Overwriting a key that is there. *)
Lemma updated_set fields key v d :
  dict_mem key d = true -> in_list key fields = true ->
  updated fields d (dict_set key v d).
Proof.
  intros Hmem Hin. split; intros k.
  - rewrite dict_mem_set. destruct (String.eqb k key) eqn:E; auto.
    apply String.eqb_eq in E. subst. simpl. auto.
  - intros Hk. apply dict_get_set_other.
    destruct (String.eqb k key) eqn:E; auto.
    apply String.eqb_eq in E. subst. congruence.
Qed.

(** ** on_message: where a message can stop *)

Section Handler.

Variable lib : pylib.
Variable C : Type.
Variable drv : driver C.

Ltac run_handler :=
  unfold on_message, call, try_except, bind, lift, set_local, get_local,
    log, emit, invoke, raise, ret, read_message_text; simpl.

Ltac pick_clause e :=
  unfold dropped, reported;
  destruct (isinstance e JSONDecodeError); simpl;
  [| rewrite (isinstance_Exception e); simpl ].

(** A payload that does not decode: the handler reads [message_text],
    which is not bound, and the [UnboundLocalError] leaves
    [on_message]. *)
Lemma on_message_undecodable (msg : mqtt_message) (c : C) (e : exn) :
  bytes_decode lib (payload msg) = inl e ->
  on_message lib drv msg c
  = (inl (Raise UnboundLocalError
            "cannot access local variable 'message_text'"),
     c, [Log ERROR (reported e)]).
Proof.
  intros Hdec. run_handler. rewrite Hdec. simpl.
  pick_clause e; reflexivity.
Qed.

Lemma on_message_parse_error msg c text e :
  bytes_decode lib (payload msg) = inr text ->
  load_message_json lib text = inl e ->
  on_message lib drv msg c = (inr tt, c, dropped msg text e).
Proof.
  intros Hdec Hload. run_handler. rewrite Hdec. simpl.
  rewrite Hload. simpl. pick_clause e; reflexivity.
Qed.

Lemma on_message_not_a_dict msg c text v e :
  bytes_decode lib (payload msg) = inr text ->
  load_message_json lib text = inr v ->
  attr_get v = inl e ->
  on_message lib drv msg c = (inr tt, c, dropped msg text e).
Proof.
  intros Hdec Hload Hget. run_handler. rewrite Hdec. simpl.
  rewrite Hload. simpl. rewrite Hget. simpl. pick_clause e; reflexivity.
Qed.

Lemma on_message_timestamp_error msg c text data e :
  bytes_decode lib (payload msg) = inr text ->
  load_message_json lib text = inr (PDict data) ->
  parse_timestamp lib data = inl e ->
  on_message lib drv msg c = (inr tt, c, dropped msg text e).
Proof.
  intros Hdec Hload Hts. run_handler. rewrite Hdec. simpl.
  rewrite Hload. simpl. rewrite Hts. simpl. pick_clause e; reflexivity.
Qed.

(** A message that reaches the Writer: what [store_sensor_data] does,
    and, if it raises, the report of that. *)
Lemma on_message_stores msg c text data data' :
  bytes_decode lib (payload msg) = inr text ->
  load_message_json lib text = inr (PDict data) ->
  parse_timestamp lib data = inr data' ->
  on_message lib drv msg c
  = after_store msg text (store_sensor_data lib drv data' c).
Proof.
  intros Hdec Hload Hts. unfold after_store.
  run_handler. rewrite Hdec. simpl.
  rewrite Hload. simpl. rewrite Hts. simpl.
  destruct (store_sensor_data lib drv data' c) as [[[e|[]] c'] ev]; simpl.
  - pick_clause e; rewrite ?app_nil_r; reflexivity.
  - rewrite ?app_nil_r. reflexivity.
Qed.

(** Once the payload has decoded, [on_message] returns, whatever the
    Normalizer and the Writer raise. *)
Lemma on_message_decoded_returns msg c text :
  bytes_decode lib (payload msg) = inr text ->
  fst (fst (on_message lib drv msg c)) = inr tt.
Proof.
  intros Hdec.
  destruct (load_message_json lib text) as [e|v] eqn:Hload.
  { rewrite (on_message_parse_error _ _ Hdec Hload). reflexivity. }
  destruct (attr_get v) as [e|data] eqn:Hget.
  { rewrite (on_message_not_a_dict _ _ Hdec Hload Hget). reflexivity. }
  assert (v = PDict data) as ->
      by (destruct v; simpl in Hget; congruence).
  destruct (parse_timestamp lib data) as [e|data'] eqn:Hts.
  { rewrite (on_message_timestamp_error _ _ Hdec Hload Hts). reflexivity. }
  rewrite (on_message_stores _ _ Hdec Hload Hts).
  destruct (store_sensor_data lib drv data' c) as [[[e|u] c'] ev];
    reflexivity.
Qed.

(** A record reaches the insert only through the Writer, run on the
    dict that lines 176-190 leave. *)
Lemma on_message_executes msg c text data params :
  bytes_decode lib (payload msg) = inr text ->
  load_message_json lib text = inr (PDict data) ->
  In (CallExecute params) (snd (on_message lib drv msg c)) ->
  exists data',
    parse_timestamp lib data = inr data' /\
    In (CallExecute params) (snd (store_sensor_data lib drv data' c)).
Proof.
  intros Hdec Hload.
  destruct (parse_timestamp lib data) as [e|data'] eqn:Hts.
  - rewrite (on_message_timestamp_error _ _ Hdec Hload Hts).
    simpl. intros [H|[H|[H|[]]]]; discriminate H.
  - rewrite (on_message_stores _ _ Hdec Hload Hts).
    intros H. exists data'. split; [reflexivity|].
    destruct (store_sensor_data lib drv data' c) as [[[e|u] c'] ev];
      simpl in *; destruct H as [H|H]; try discriminate H; auto.
    apply in_app_or in H as [H|[H|[H|[]]]]; auto; discriminate H.
Qed.

(** ** Lines 176-190 *)

Lemma parse_timestamp_skipped (data : dict) :
  dict_get "timestamp" data = None \/
  (exists v, dict_get "timestamp" data = Some v /\ truthy v = false) ->
  parse_timestamp lib data = inr data.
Proof.
  unfold parse_timestamp. intros [->|(v & -> & ->)]; reflexivity.
Qed.

Lemma parse_timestamp_string (data : dict) (s : string) :
  dict_get "timestamp" data = Some (PStr s) -> s <> "" ->
  parse_timestamp lib data
  = match
      fromisoformat lib (if endswith "Z" s then str_drop_last s else s)
    with
    | inl e => inl e
    | inr dt =>
        inr (dict_set "timestamp"
               (PDatetime
                  (if endswith "Z" s then replace_tzinfo dt UTC
                   else match tzinfo dt with
                        | None => replace_tzinfo dt UTC
                        | Some _ => dt
                        end)) data)
    end.
Proof.
  intros Hts Hs. unfold parse_timestamp. rewrite Hts. simpl.
  apply String.eqb_neq in Hs. rewrite Hs. simpl.
  destruct (endswith "Z" s).
  - destruct (fromisoformat lib (str_drop_last s)); reflexivity.
  - destruct (fromisoformat lib s) as [e|dt]; [reflexivity|].
    destruct (tzinfo dt); reflexivity.
Qed.

(** Lines 176-190 touch nothing but the value under [timestamp]. *)
Lemma parse_timestamp_keys (data data' : dict) :
  parse_timestamp lib data = inr data' ->
  (forall k, k <> "timestamp" -> dict_get k data' = dict_get k data) /\
  (dict_get "timestamp" data = None -> dict_get "timestamp" data' = None).
Proof.
  unfold parse_timestamp.
  destruct (dict_get "timestamp" data) as [ts|] eqn:Hts.
  2: { intros [= <-]. auto. }
  assert (Hset : forall v k, k <> "timestamp" ->
             dict_get k (dict_set "timestamp" v data) = dict_get k data)
    by (intros v k Hk; apply dict_get_set_other, String.eqb_neq, Hk).
  destruct (truthy ts); [| intros [= <-]; split; [auto | discriminate] ].
  destruct ts; try discriminate.
  destruct (endswith "Z" s).
  - destruct (fromisoformat lib (str_drop_last s)); [discriminate|].
    intros [= <-]. split; [auto | discriminate].
  - destruct (fromisoformat lib s) as [e|dt]; [discriminate|].
    destruct (tzinfo dt); intros [= <-]; split; auto; discriminate.
Qed.

End Handler.

(** ** The effect monad *)

Section Runs.

Variable C : Type.

Lemma bind_inv {L A B} (m : M C L A) (k : A -> M C L B) l c r l' c' ev :
  bind m k l c = (r, l', c', ev) ->
  (exists e, m l c = (inl e, l', c', ev) /\ r = inl e) \/
  (exists a l1 c1 ev1 ev2,
      m l c = (inr a, l1, c1, ev1) /\ k a l1 c1 = (r, l', c', ev2) /\
      ev = ev1 ++ ev2).
Proof.
  unfold bind. destruct (m l c) as [[[[e|a] l1] c1] ev1].
  - intros [= <- <- <- <-]. left. eauto.
  - destruct (k a l1 c1) as [[[r2 l2] c2] ev2] eqn:Hk.
    intros [= <- <- <- <-]. right. exists a, l1, c1, ev1, ev2. auto.
Qed.

Lemma keeps_ret {A} (R : dict -> dict -> Prop) (a : A) :
  (forall d, R d d) -> keeps R (ret (C:=C) a).
Proof. intros HR d c r d' c' ev [= <- <- <- <-]. auto. Qed.

Lemma keeps_log (R : dict -> dict -> Prop) lvl m :
  (forall d, R d d) -> keeps R (log (C:=C) lvl m).
Proof.
  intros HR d c r d' c' ev. unfold log, emit, ret.
  destruct (level_enabled lvl); intros [= <- <- <- <-];
    repeat split; auto. constructor; simpl; auto.
Qed.

Lemma keeps_bind {A B} (R : dict -> dict -> Prop)
      (m : M C dict A) (k : A -> M C dict B) :
  (forall d1 d2 d3, R d1 d2 -> R d2 d3 -> R d1 d3) ->
  keeps R m -> (forall a, keeps R (k a)) -> keeps R (bind m k).
Proof.
  intros Htrans Hm Hk d c r d' c' ev Hrun.
  apply bind_inv in Hrun as [(e & Hrun & ->)|
                             (a & d1 & c1 & ev1 & ev2 & H1 & H2 & ->)].
  - apply (Hm _ _ _ _ _ _ Hrun).
  - destruct (Hm _ _ _ _ _ _ H1) as (-> & Hev1 & HR1).
    destruct (Hk a _ _ _ _ _ _ H2) as (-> & Hev2 & HR2).
    repeat split; eauto. apply Forall_app; auto.
Qed.

Lemma keeps_for_each {A} (R : dict -> dict -> Prop)
      (xs : list A) (f : A -> M C dict unit) :
  (forall d, R d d) ->
  (forall d1 d2 d3, R d1 d2 -> R d2 d3 -> R d1 d3) ->
  (forall x, In x xs -> keeps R (f x)) -> keeps R (for_each xs f).
Proof.
  intros Hrefl Htrans. induction xs as [|x xs IH]; intros Hf; simpl.
  - apply keeps_ret, Hrefl.
  - apply keeps_bind; auto.
    + apply Hf. left. reflexivity.
    + intros _. apply IH. intros y Hy. apply Hf. right. exact Hy.
Qed.

Lemma keeps_weaken {A} (R R' : dict -> dict -> Prop) (m : M C dict A) :
  (forall d d', R d d' -> R' d d') -> keeps R m -> keeps R' m.
Proof.
  intros Hsub Hm d c r d' c' ev Hrun.
  destruct (Hm _ _ _ _ _ _ Hrun) as (? & ? & ?). auto.
Qed.

End Runs.

(** ** store_sensor_data: the record that is built *)

Section Built.

Variable lib : pylib.
Variable C : Type.
Variable drv : driver C.

Lemma dict_get_or_none_mem key d v :
  dict_get_or_none key d = v -> v <> PNone -> dict_get key d = Some v.
Proof.
  unfold dict_get_or_none. destruct (dict_get key d); congruence.
Qed.

Lemma dict_get_mem key d v : dict_get key d = Some v -> dict_mem key d = true.
Proof. unfold dict_mem. intros ->. reflexivity. Qed.

Ltac step_done :=
  intros [= <- <- <- <-];
  split; [reflexivity | split];
  [ repeat constructor | auto using updated_refl, updated_set ].

(** Lines 78-88 on a value that is there: the key is overwritten, with
    the number or with [None], or the conversion raises. *)
Lemma coerce_value_keeps fields key v (d : dict) (c : C) r d' c' ev :
  dict_mem key d = true -> in_list key fields = true ->
  try_except
    (if in_list key integer_fields then
       bind (lift (py_int lib v)) (fun z => assign key (PInt z))
     else
       bind (lift (py_float lib v)) (fun f => assign key (PFloat f)))
    [ ([ValueError; TypeError],
       fun _ =>
         bind (log WARNING (Invalid_numeric_value key v))
              (fun _ => assign key PNone)) ] d c
  = (r, d', c', ev) ->
  c' = c /\ Forall is_log ev /\ updated fields d d'.
Proof.
  intros Hmem Hin.
  destruct (in_list key integer_fields);
    unfold try_except, bind, lift, assign, get_local, set_local, log, emit;
    simpl.
  - destruct (py_int lib v) as [e|z]; simpl.
    + destruct (isinstance e ValueError || (isinstance e TypeError || false));
        simpl; step_done.
    + step_done.
  - destruct (py_float lib v) as [e|f]; simpl.
    + destruct (isinstance e ValueError || (isinstance e TypeError || false));
        simpl; step_done.
    + step_done.
Qed.

Lemma coerce_numeric_keeps fields key :
  in_list key fields = true ->
  keeps (C:=C) (updated fields) (coerce_numeric lib key).
Proof.
  intros Hin d c r d' c' ev.
  unfold coerce_numeric. unfold bind at 1, get_local.
  destruct (dict_get_or_none key d) eqn:Hv.
  1: { unfold ret. intros [= <- <- <- <-].
       repeat split; auto using updated_refl. }
  all: cbv beta iota;
    destruct (try_except _ _ d c) as [[[? ?] ?] ?] eqn:Hrun;
    simpl; intros [= <- <- <- <-];
    eapply coerce_value_keeps; [| exact Hin | exact Hrun];
    eapply dict_get_mem, dict_get_or_none_mem; [exact Hv | discriminate].
Qed.

Lemma coerce_text_keeps fields key :
  in_list key fields = true ->
  keeps (C:=C) (updated fields) (coerce_text lib key).
Proof.
  intros Hin d c r d' c' ev.
  unfold coerce_text, bind, get_local, assign, set_local, ret. simpl.
  destruct (dict_get key d) as [v|] eqn:Hv.
  - pose proof (dict_get_mem _ _ Hv) as Hmem.
    destruct v; step_done.
  - step_done.
Qed.

Lemma rename_timestamp_run (d : dict) (c : C) :
  rename_timestamp d c = (inr tt, renamed d, c, []).
Proof.
  unfold rename_timestamp, renamed, bind, get_local, set_local, ret. simpl.
  destruct (dict_get "timestamp" d); reflexivity.
Qed.

(** The loop of lines 107-109 adds [None] under the fields that are
    missing and changes nothing else. *)
Lemma fill_missing_run (fields : list string) :
  forall (d : dict) (c : C),
  exists d',
    for_each fields fill_missing d c = (inr tt, d', c, []) /\
    forall k,
      dict_get k d'
      = match dict_get k d with
        | Some v => Some v
        | None => if in_list k fields then Some PNone else None
        end.
Proof.
  induction fields as [|f fields IH]; intros d c; simpl.
  - exists d. split; [reflexivity|].
    intros k. destruct (dict_get k d); reflexivity.
  - unfold bind at 1, fill_missing at 1, bind at 1, get_local, assign.
    unfold bind at 1, get_local, set_local, ret. simpl.
    destruct (dict_mem f d) eqn:Hf; simpl.
    + destruct (IH d c) as (d' & -> & Hget). exists d'.
      split; [reflexivity|]. intros k. rewrite Hget.
      destruct (dict_get k d) eqn:Hk; auto.
      destruct (String.eqb k f) eqn:E; simpl; auto.
      apply String.eqb_eq in E. subst k.
      unfold dict_mem in Hf. rewrite Hk in Hf. discriminate.
    + destruct (IH (dict_set f PNone d) c) as (d' & -> & Hget). exists d'.
      split; [reflexivity|]. intros k. rewrite Hget, dict_get_set.
      destruct (String.eqb k f) eqn:E; simpl.
      * apply String.eqb_eq in E. subst k.
        unfold dict_mem in Hf. destruct (dict_get f d); congruence.
      * reflexivity.
Qed.

Lemma numeric_loop_keeps :
  keeps (C:=C) (updated (numeric_fields ++ text_fields))
        (for_each numeric_fields (coerce_numeric lib)).
Proof.
  apply keeps_for_each.
  - apply updated_refl.
  - apply updated_trans.
  - intros key Hkey. apply coerce_numeric_keeps.
    simpl in Hkey. repeat destruct Hkey as [<-|Hkey]; try reflexivity.
    contradiction.
Qed.

Lemma text_loop_keeps :
  keeps (C:=C) (updated (numeric_fields ++ text_fields))
        (for_each text_fields (coerce_text lib)).
Proof.
  apply keeps_for_each.
  - apply updated_refl.
  - apply updated_trans.
  - intros key Hkey. apply coerce_text_keeps.
    simpl in Hkey. repeat destruct Hkey as [<-|Hkey]; try reflexivity.
    contradiction.
Qed.

Ltac bind_ok H :=
  apply bind_inv in H
      as [(? & _ & [=]) | (? & ? & ? & ? & ? & ? & H & ->)].

(** When lines 69-114 go through: the connection is untouched, the
    events are log records, and the record is the input with
    [event_type] defaulted, the numeric and text fields coerced,
    [timestamp] renamed and the missing fields filled. *)
Lemma build_db_data_returns (data : dict) (c : C) d' c' ev :
  build_db_data lib data c = (inr tt, d', c', ev) ->
  c' = c /\ Forall is_log ev /\
  exists d3,
    updated (numeric_fields ++ text_fields)
            (dict_setdefault "event_type" (PStr "unknown") data) d3 /\
    forall k,
      dict_get k d'
      = match dict_get k (renamed d3) with
        | Some v => Some v
        | None => if in_list k expected_fields then Some PNone else None
        end.
Proof.
  intros H. unfold build_db_data in H.
  apply bind_inv in H as [(e & _ & [=]) | (a & l1 & c1 & ev1 & ev2 & H1 & H & ->)].
  unfold get_local in H1. injection H1 as <- <- <- <-.
  apply bind_inv in H as [(e & _ & [=]) | ([] & l1 & c1 & ev1 & ev2' & H1 & H & ->)].
  unfold set_local in H1. injection H1 as <- <- <-.
  apply bind_inv in H as [(e & _ & [=]) | ([] & d2 & c2 & ev2 & ev3 & Hnum & H & ->)].
  apply bind_inv in H as [(e & _ & [=]) | ([] & d3 & c3 & ev3' & ev4 & Htxt & H & ->)].
  apply bind_inv in H as [(e & _ & [=]) | ([] & d4 & c4 & ev4' & ev5 & Hren & H & ->)].
  apply bind_inv in H as [(e & _ & [=]) | ([] & d5 & c5 & ev5' & ev6 & Hfill & H & ->)].
  destruct (numeric_loop_keeps _ _ Hnum) as (-> & Hev2 & Hup2).
  destruct (text_loop_keeps _ _ Htxt) as (-> & Hev3 & Hup3).
  rewrite rename_timestamp_run in Hren. injection Hren as <- <- <-.
  destruct (fill_missing_run expected_fields (renamed d3) c)
    as (d5' & Hrun & Hget).
  rewrite Hrun in Hfill. injection Hfill as <- <- <-.
  assert (d' = d5' /\ c' = c /\ Forall is_log ev6) as (-> & -> & Hev6).
  { unfold bind, get_local, lift, log, emit in H. simpl in H.
    destruct (subscript "event_type" d5'); [discriminate|].
    destruct (subscript "device_id" d5'); [discriminate|].
    injection H as <- <- <-. repeat split. repeat constructor. }
  split; [reflexivity|]. split.
  - simpl. repeat (apply Forall_app; split); auto.
  - exists d3. split; [eapply updated_trans; eauto | exact Hget].
Qed.

Lemma build_db_data_quiet :
  keeps (C:=C) (fun _ _ => True) (build_db_data lib).
Proof.
  assert (Hloop : forall (m : Writer C unit),
             keeps (updated (numeric_fields ++ text_fields)) m ->
             keeps (fun _ _ => True) m)
    by (intros m; apply keeps_weaken; auto).
  assert (Hlift : forall A (r : result A),
             keeps (C:=C) (fun _ _ => True) (lift r))
    by (intros A r d c r' d' c' ev [= <- <- <- <-]; auto).
  assert (Hget : keeps (C:=C) (fun _ _ => True) get_local)
    by (intros d c r d' c' ev [= <- <- <- <-]; auto).
  unfold build_db_data.
  apply keeps_bind; [auto | exact Hget | intros a].
  apply keeps_bind; [auto | | intros _].
  { intros d c r d' c' ev [= <- <- <- <-]. auto. }
  apply keeps_bind; [auto | apply Hloop, numeric_loop_keeps | intros _].
  apply keeps_bind; [auto | apply Hloop, text_loop_keeps | intros _].
  apply keeps_bind; [auto | | intros _].
  { intros d c r d' c' ev. rewrite rename_timestamp_run.
    intros [= <- <- <- <-]. auto. }
  apply keeps_bind; [auto | | intros _].
  { intros d c r d' c' ev.
    destruct (fill_missing_run expected_fields d c) as (d1 & -> & _).
    intros [= <- <- <- <-]. auto. }
  apply keeps_bind; [auto | exact Hget | intros d].
  apply keeps_bind; [auto | apply Hlift | intros event_type].
  apply keeps_bind; [auto | apply Hlift | intros device_id].
  apply keeps_log. auto.
Qed.

(** ** store_sensor_data: the insert and the two handlers *)

Lemma insert_db_data_run (d : dict) (c : C) :
  insert_db_data drv d c
  = match cursor drv c with
    | (Some e, c1) => (inl e, d, c1, [CallCursor])
    | (None, c1) =>
        match execute drv d c1 with
        | (Some e, c2) => (inl e, d, c2, [CallCursor; CallExecute d])
        | (None, c2) =>
            match commit drv c2 with
            | (Some e, c3) =>
                (inl e, d, c3, [CallCursor; CallExecute d; CallCommit])
            | (None, c3) =>
                match subscript "event_type" d, subscript "device_id" d with
                | inr event_type, inr device_id =>
                    (inr tt, d, c3,
                     [CallCursor; CallExecute d; CallCommit;
                      Log INFO (Successfully_stored event_type device_id)])
                | inl e, _ | _, inl e =>
                    (inl e, d, c3, [CallCursor; CallExecute d; CallCommit])
                end
            end
        end
    end.
Proof.
  unfold insert_db_data, bind, db_call, get_local, lift, log, emit. simpl.
  destruct (cursor drv c) as [[e|] c1]; [reflexivity|].
  destruct (execute drv d c1) as [[e|] c2]; [reflexivity|].
  destruct (commit drv c2) as [[e|] c3]; [reflexivity|].
  destruct (subscript "event_type" d); [reflexivity|].
  destruct (subscript "device_id" d); reflexivity.
Qed.

(** The function, from what its [try] body does. *)
Lemma store_sensor_data_run (data : dict) (c : C) :
  store_sensor_data lib drv data c
  = match bind (build_db_data lib) (fun _ => insert_db_data drv) data c with
    | (inr _, _, c1, ev1) => (inr tt, c1, ev1)
    | (inl e, d1, c1, ev1) =>
        let '(r, c2) := rollback drv c1 in
        (match r with Some e' => inl e' | None => inr tt end, c2,
         ev1 ++ [Log ERROR (storing_failed e);
                 Log ERROR (Data_that_caused_error d1);
                 CallRollback])
    end.
Proof.
  unfold store_sensor_data, call, try_except.
  destruct (bind (build_db_data lib) _ data c) as [[[[e|[]] d1] c1] ev1];
    [|reflexivity].
  unfold storing_failed. simpl.
  destruct (isinstance e Psycopg2Error); simpl;
    [| rewrite (isinstance_Exception e); simpl ];
    unfold bind, log, emit, get_local, db_call; simpl;
    destruct (rollback drv c1) as [[e'|] c2]; reflexivity.
Qed.

Lemma in_after_logs (ev rest : list event) (e : event) :
  Forall is_log ev -> ~ is_log e -> In e (ev ++ rest) -> In e rest.
Proof.
  intros Hall Hcall Hin. apply in_app_or in Hin as [Hin|Hin]; auto.
  rewrite Forall_forall in Hall. apply Hall in Hin. contradiction.
Qed.

Ltac find_execute H :=
  simpl in H;
  repeat (destruct H as [H|H];
          [first [discriminate H | injection H as ->; eauto]|]);
  contradiction.

(** The only record that reaches [cur.execute] is the one that lines
    69-114 have built. *)
Lemma executed_record (data : dict) (c : C) (params : dict) :
  In (CallExecute params) (snd (store_sensor_data lib drv data c)) ->
  exists ev, build_db_data lib data c = (inr tt, params, c, ev).
Proof.
  rewrite store_sensor_data_run. unfold bind.
  destruct (build_db_data lib data c) as [[[[e|[]] d1] c1] ev1] eqn:Hb;
    destruct (build_db_data_quiet _ _ Hb) as (-> & Hev & _).
  - destruct (rollback drv c) as [[e'|] c2]; simpl; intros Hin;
      apply (@in_after_logs _ _ _ Hev) in Hin; auto; find_execute Hin.
  - rewrite insert_db_data_run.
    destruct (cursor drv c) as [[e|] c1];
      [| destruct (execute drv d1 c1) as [[e|] c2];
         [| destruct (commit drv c2) as [[e|] c3];
            [| destruct (subscript "event_type" d1) as [e|event_type];
               [| destruct (subscript "device_id" d1) as [e|device_id]]]]];
      try (destruct (rollback drv _) as [[e'|] c']);
      simpl; rewrite <- ?app_assoc; intros Hin;
      apply (@in_after_logs _ _ _ Hev) in Hin; auto; find_execute Hin.
Qed.

Lemma dict_get_setdefault k key v d :
  dict_get k (dict_setdefault key v d)
  = match dict_get k d with
    | Some x => Some x
    | None => if String.eqb k key then Some v else None
    end.
Proof.
  unfold dict_setdefault, dict_mem.
  destruct (dict_get key d) as [x|] eqn:Hkey.
  - destruct (dict_get k d) eqn:Hk; auto.
    destruct (String.eqb k key) eqn:E; auto.
    apply String.eqb_eq in E. congruence.
  - rewrite dict_get_set. destruct (String.eqb k key) eqn:E.
    + apply String.eqb_eq in E. subst. rewrite Hkey. reflexivity.
    + destruct (dict_get k d); reflexivity.
Qed.

Lemma dict_get_renamed k d :
  dict_get k (renamed d)
  = match dict_get "timestamp" d with
    | Some v =>
        if String.eqb k "time" then Some v
        else if String.eqb k "timestamp" then None
        else dict_get k d
    | None => dict_get k d
    end.
Proof.
  unfold renamed. destruct (dict_get "timestamp" d) as [v|]; auto.
  rewrite dict_get_set. destruct (String.eqb k "time"); auto.
  destruct (String.eqb k "timestamp") eqn:E.
  - apply String.eqb_eq in E. subst. apply dict_get_remove_same.
  - apply dict_get_remove_other. exact E.
Qed.

(** The record that is built, field by field, from the input. *)
Lemma record_fields (data : dict) (c : C) d' c' ev :
  build_db_data lib data c = (inr tt, d', c', ev) ->
  (forall f, in_list f expected_fields = true -> dict_mem f d' = true) /\
  (forall f, in_list f expected_fields = true ->
             dict_get f data = None ->
             f <> "event_type" -> f <> "time" ->
             dict_get f d' = Some PNone) /\
  (dict_get "event_type" data = None ->
   dict_get "event_type" d' = Some (PStr "unknown")) /\
  match dict_get "timestamp" data with
  | Some v => dict_get "time" d' = Some v
  | None => dict_get "time" data = None -> dict_get "time" d' = Some PNone
  end /\
  dict_get "timestamp" d' = None /\
  (forall k v, in_list k (numeric_fields ++ text_fields) = false ->
               k <> "timestamp" -> k <> "time" ->
               dict_get k data = Some v -> dict_get k d' = Some v).
Proof.
  intros Hb.
  destruct (build_db_data_returns _ _ Hb)
    as (_ & _ & d3 & [Hmem Hkeep] & Hget).
  assert (Hts : dict_get "timestamp" d3 = dict_get "timestamp" data).
  { rewrite Hkeep by reflexivity. rewrite dict_get_setdefault. simpl.
    destruct (dict_get "timestamp" data); reflexivity. }
  repeat split.
  - intros f Hf. unfold dict_mem. rewrite Hget, Hf.
    destruct (dict_get f (renamed d3)); reflexivity.
  - intros f Hf Hnone Het Htime.
    apply String.eqb_neq in Het, Htime.
    assert (Hd3 : dict_get f d3 = None).
    { specialize (Hmem f). unfold dict_mem in Hmem.
      rewrite dict_get_setdefault, Hnone, Het in Hmem.
      destruct (dict_get f d3); congruence. }
    rewrite Hget, dict_get_renamed, Hd3, Htime, Hf.
    destruct (dict_get "timestamp" d3);
      [destruct (String.eqb f "timestamp")|]; reflexivity.
  - intros Hnone.
    rewrite Hget, dict_get_renamed. simpl.
    rewrite (Hkeep "event_type") by reflexivity.
    rewrite dict_get_setdefault, Hnone. simpl.
    destruct (dict_get "timestamp" d3); reflexivity.
  - rewrite Hget, dict_get_renamed, Hts. simpl.
    destruct (dict_get "timestamp" data) as [v|]; [reflexivity|].
    intros Hnone. rewrite (Hkeep "time") by reflexivity.
    rewrite dict_get_setdefault, Hnone. reflexivity.
  - rewrite Hget, dict_get_renamed, Hts. simpl.
    destruct (dict_get "timestamp" data); reflexivity.
  - intros k v Hk Hts' Htime Hsome.
    apply String.eqb_neq in Hts', Htime.
    rewrite Hget, dict_get_renamed, Hts', Htime.
    rewrite (Hkeep k Hk), dict_get_setdefault, Hsome.
    destruct (dict_get "timestamp" d3); reflexivity.
Qed.

End Built.

(* ===================================================================== *)
(** * The claims *)
(* ===================================================================== *)

(** C9, as the code has it.  The clause of line 59 takes
    [psycopg2.OperationalError] and nothing else.  For every sequence of
    attempt outcomes in which each failed attempt raises
    [OperationalError], [get_db_connection] never hands a failure to its
    caller.  Each failed attempt is followed by the error record, the
    retry record and a sleep of 5 seconds; the loop has no bound: as long
    as the attempts fail it is still retrying, after any number of them;
    and it returns exactly when an attempt succeeds, with the connection
    of the first successful attempt. *)
Theorem C9_acquire_retries_until_connected :
  forall (C : Type) (attempts : nat -> result C),
    (forall k e, attempts k = inl e -> isinstance e OperationalError = true) ->
    (forall fuel e, fst (get_db_connection attempts fuel 0) <> Raised e) /\
    (forall fuel conn,
        fst (get_db_connection attempts fuel 0) = Returned conn ->
        exists n, (n < fuel)%nat /\ attempts n = inr conn /\
                  forall j, (j < n)%nat -> exists e, attempts j = inl e) /\
    (forall n conn,
        attempts n = inr conn ->
        (forall j, (j < n)%nat -> exists e, attempts j = inl e) ->
        forall fuel, (n < fuel)%nat ->
          get_db_connection attempts fuel 0
          = (Returned conn,
             retry_events attempts 0 n ++ [Log INFO Successfully_connected])) /\
    ((forall j, exists e, attempts j = inl e) ->
     forall fuel,
       get_db_connection attempts fuel 0
       = (Retrying, retry_events attempts 0 fuel)).
Proof.
  intros C attempts Hfail. repeat split.
  - intros fuel e. apply get_db_connection_never_raises, Hfail.
  - intros fuel conn Hret.
    apply (@get_db_connection_returns_a_success _ _ Hfail) in Hret.
    exact Hret.
  - intros n conn Hok Hbefore fuel Hfuel.
    apply (@get_db_connection_first_success _ _ Hfail); auto.
  - intros Hnever fuel.
    apply (@get_db_connection_keeps_retrying _ _ Hfail). auto.
Qed.

Lemma C9_witness :
  get_db_connection Reference.third_time_lucky 3 0
  = (Returned Reference.fresh,
     retry_events Reference.third_time_lucky 0 2
     ++ [Log INFO Successfully_connected]).
Proof.
  assert (Hfail : forall k e,
             Reference.third_time_lucky k = inl e ->
             isinstance e OperationalError = true).
  { intros [|[|k]] e; simpl; intros [= <-]; reflexivity. }
  apply (proj1 (proj2 (proj2
           (C9_acquire_retries_until_connected
              Reference.third_time_lucky Hfail))) 2%nat).
  - reflexivity.
  - intros [|[|j]] Hj; simpl; eauto. lia.
  - lia.
Defined.

(** At a sequence whose first attempt raises something else than
    [OperationalError] C9 as the specification states it fails: the
    exception leaves [get_db_connection], which hands the failure to its
    caller without a record, a sleep or another attempt. *)
Lemma C9_counterexample :
  get_db_connection
    (fun _ : nat =>
       inl (Raise ProgrammingError "invalid dsn") : result Reference.pg)
    1 0
  = (Raised (Raise ProgrammingError "invalid dsn"), []) /\
  ~ (forall fuel e,
        fst (get_db_connection
               (fun _ : nat =>
                  inl (Raise ProgrammingError "invalid dsn")
                  : result Reference.pg)
               fuel 0)
        <> Raised e).
Proof.
  split; [reflexivity|]. intros Hnever.
  apply (Hnever 1%nat (Raise ProgrammingError "invalid dsn")). reflexivity.
Qed.

(** C7. When the decoded text contains the marker [MQTT event:], the
    JSON payload is the text from its first brace on, whatever stands
    before; when it has the marker and no brace, normalization fails with
    a [ValueError], and the handler logs the error and the raw text and
    drops the message; without the marker the whole text is parsed. *)
Theorem C7_marker_prefix_is_skipped :
  forall (lib : pylib) (C : Type) (drv : driver C) (message_text : string),
    (forall i,
        str_contains "MQTT event:" message_text = true ->
        str_find "{" message_text = Some i ->
        load_message_json lib message_text
        = json_loads lib (str_from i message_text) /\
        String.substring i 1 message_text = "{" /\
        forall j, (j < i)%nat -> String.substring j 1 message_text <> "{") /\
    (str_contains "MQTT event:" message_text = true ->
     str_find "{" message_text = None ->
     (forall j, String.substring j 1 message_text <> "{") /\
     load_message_json lib message_text
     = inl (Raise ValueError "No JSON object found in message") /\
     forall msg c,
       bytes_decode lib (payload msg) = inr message_text ->
       on_message lib drv msg c
       = (inr tt, c,
          [Log INFO (Received_message (topic msg) message_text);
           Log ERROR (Error_processing_message
                        (Raise ValueError "No JSON object found in message"));
           Log ERROR (Raw_message message_text)])) /\
    (str_contains "MQTT event:" message_text = false ->
     load_message_json lib message_text = json_loads lib message_text).
Proof.
  intros lib C drv message_text. unfold load_message_json, str_find.
  split; [|split].
  - intros i -> Hfind. rewrite Hfind. split; [reflexivity|]. split.
    + apply (String.index_correct1 0 i "{" message_text Hfind).
    + intros j Hj.
      apply (String.index_correct2 0 i "{" message_text Hfind); [lia | exact Hj].
  - intros Hmark Hfind. rewrite Hmark, Hfind. split; [|split].
    + intros j.
      apply (String.index_correct3 0 j "{" message_text Hfind);
        [discriminate | lia].
    + reflexivity.
    + intros msg c Hdec.
      rewrite (@on_message_parse_error lib C drv msg c message_text
                 (Raise ValueError "No JSON object found in message") Hdec);
        [reflexivity|].
      unfold load_message_json, str_find. rewrite Hmark, Hfind. reflexivity.
  - intros ->. reflexivity.
Qed.

Lemma C7_witness :
  load_message_json Reference.lib
    (Reference.dq "MQTT event: {'device_id':'d2'}")
  = inr (PDict [("device_id", PStr "d2")]).
Proof.
  rewrite (proj1 (proj1 (C7_marker_prefix_is_skipped
                           Reference.lib
                           (Reference.pg_driver Reference.any_row)
                           (Reference.dq "MQTT event: {'device_id':'d2'}"))
                        12%nat eq_refl eq_refl)).
  reflexivity.
Defined.

(** The records that reach the insert, from the message. *)
Section Executed.

Variable lib : pylib.
Variable C : Type.
Variable drv : driver C.

Lemma in_list_In (key : string) (fields : list string) :
  In key fields -> in_list key fields = true.
Proof.
  intros Hin. unfold in_list. apply existsb_exists.
  exists key. split; [exact Hin | apply String.eqb_refl].
Qed.

(** The record that reaches the insert, field by field, from the JSON
    object of the message. *)
Lemma executed_record_fields msg (c : C) text data params :
  bytes_decode lib (payload msg) = inr text ->
  load_message_json lib text = inr (PDict data) ->
  In (CallExecute params) (snd (on_message lib drv msg c)) ->
  (forall f, In f expected_fields -> dict_mem f params = true) /\
  (forall f, In f expected_fields -> dict_get f data = None ->
             f <> "event_type" -> f <> "time" ->
             dict_get f params = Some PNone) /\
  (dict_get "event_type" data = None ->
   dict_get "event_type" params = Some (PStr "unknown")) /\
  (dict_get "timestamp" data = None -> dict_get "time" data = None ->
   dict_get "time" params = Some PNone) /\
  (forall data' v,
      parse_timestamp lib data = inr data' ->
      dict_get "timestamp" data' = Some v ->
      dict_get "time" params = Some v) /\
  dict_get "timestamp" params = None.
Proof.
  intros Hdec Hload Hin.
  destruct (@on_message_executes lib C drv msg c text data params
              Hdec Hload Hin) as (data' & Hts & Hex).
  destruct (@executed_record lib C drv data' c params Hex) as (ev & Hb).
  destruct (@record_fields lib C data' c params c ev Hb)
    as (Hall & Hnull & Het & Htime & Hnots & _).
  destruct (@parse_timestamp_keys lib data data' Hts) as (Hsame & Hnone).
  repeat split.
  - intros f Hf. apply Hall, in_list_In, Hf.
  - intros f Hf Habs Hne1 Hne2. apply Hnull; auto using in_list_In.
    rewrite Hsame; auto. intros ->. simpl in Hf.
    repeat (destruct Hf as [Hf|Hf]; [discriminate Hf|]). contradiction.
  - intros Habs. apply Het. rewrite Hsame; [exact Habs | discriminate].
  - intros Hts0 Htime0. rewrite (Hnone Hts0) in Htime. apply Htime.
    rewrite Hsame; [exact Htime0 | discriminate].
  - intros data'' v Hts' Hv. rewrite Hts in Hts'. injection Hts' as <-.
    rewrite Hv in Htime. exact Htime.
  - exact Hnots.
Qed.

End Executed.

(** C4, as the code has it.  For every message with a JSON object, the record
    passed to the insert holds each of the fifteen fields of the schema.
    A field that the object lacks is there as an explicit [None] - except
    [event_type], which is then ["unknown"], and [time], which is the
    value that lines 176-190 leave under [timestamp] when the object has
    one.  No [timestamp] key reaches the insert. *)
Theorem C4_record_holds_every_field :
  forall (lib : pylib) (C : Type) (drv : driver C)
         (msg : mqtt_message) (c : C) (text : string) (data params : dict),
    bytes_decode lib (payload msg) = inr text ->
    load_message_json lib text = inr (PDict data) ->
    In (CallExecute params) (snd (on_message lib drv msg c)) ->
    (forall f, In f expected_fields -> dict_mem f params = true) /\
    (forall f, In f expected_fields -> dict_get f data = None ->
               f <> "event_type" -> f <> "time" ->
               dict_get f params = Some PNone) /\
    (dict_get "event_type" data = None ->
     dict_get "event_type" params = Some (PStr "unknown")) /\
    (dict_get "timestamp" data = None -> dict_get "time" data = None ->
     dict_get "time" params = Some PNone) /\
    (forall data' v,
        parse_timestamp lib data = inr data' ->
        dict_get "timestamp" data' = Some v ->
        dict_get "time" params = Some v) /\
    dict_get "timestamp" params = None.
Proof.
  intros lib C drv msg c text data params.
  apply executed_record_fields.
Qed.

Lemma C4_witness :
  dict_mem "fan_pwm"
    [("event_type", PStr "unknown"); ("time", PNone); ("device_id", PNone);
     ("temperature", PNone); ("humidity", PNone); ("pressure", PNone);
     ("temp_sensor_type", PNone); ("motion", PNone); ("switch", PNone);
     ("version", PNone); ("uptime", PNone); ("wifi_rssi", PNone);
     ("uptime_seconds", PNone); ("fan_pwm", PNone);
     ("fans_active_level", PNone)] = true.
Proof.
  refine (proj1 (@C4_record_holds_every_field
                   Reference.lib _ (Reference.pg_driver Reference.any_row)
                   (Reference.message "{}") Reference.fresh
                   "{}" [] _ _ _ _) "fan_pwm" _).
  - reflexivity.
  - reflexivity.
  - vm_compute. do 3 right. left. reflexivity.
  - simpl. tauto.
Defined.

(** At the message [{}] C4 as the specification states it fails:
    [event_type] is absent
    from the object, and the record passed to the insert holds
    ["unknown"] under it, not [None]. *)
Lemma C4_counterexample :
  Reference.json_loads "{}" = inr (PDict []) /\
  ~ (forall params f,
        In (CallExecute params) (snd (Reference.run "{}" Reference.fresh)) ->
        In f expected_fields -> dict_get f [] = None ->
        dict_get f params = Some PNone).
Proof.
  split; [reflexivity|]. intros Hclaim.
  specialize (Hclaim
    [("event_type", PStr "unknown"); ("time", PNone); ("device_id", PNone);
     ("temperature", PNone); ("humidity", PNone); ("pressure", PNone);
     ("temp_sensor_type", PNone); ("motion", PNone); ("switch", PNone);
     ("version", PNone); ("uptime", PNone); ("wifi_rssi", PNone);
     ("uptime_seconds", PNone); ("fan_pwm", PNone);
     ("fans_active_level", PNone)] "event_type").
  assert (Hex : dict_get "event_type"
                  [("event_type", PStr "unknown")] = Some PNone -> False)
    by discriminate.
  apply Hex. simpl in Hclaim |- *. apply Hclaim.
  - vm_compute. do 3 right. left. reflexivity.
  - simpl. tauto.
  - reflexivity.
Qed.

(** C1 does not hold of the code.  The message [{"temperature": 21.5}] has no
    [device_id]; line 173 computes the default ["unknown"] into a local
    that is never read, and the record passed to the insert, and the row
    that is committed, hold [None] under [device_id]. *)
Theorem C1_absent_device_id_is_stored_as_null :
  let '(r, c, ev) := Reference.run "{'temperature': 21.5}" Reference.fresh in
  (exists data,
      Reference.json_loads (Reference.dq "{'temperature': 21.5}")
      = inr (PDict data) /\ dict_get "device_id" data = None) /\
  (exists params,
      In (CallExecute params) ev /\
      dict_get "device_id" params = Some PNone) /\
  Reference.committed c
  = [[PNone; PNone; PStr "unknown";
      PFloat (S754_finite false 6051711999279104 (-48));
      PNone; PNone; PNone; PNone; PNone; PNone; PNone; PNone; PNone; PNone;
      PNone]].
Proof.
  vm_compute. split; [|split].
  - eexists. split; reflexivity.
  - eexists. split; [do 3 right; left; reflexivity | reflexivity].
  - reflexivity.
Qed.

(** C3 does not hold of the code.  The payload [0xff] is not UTF-8: line 156 raises
    before [message_text] is bound, the catch-all clause logs the error
    and then reads [message_text] for the raw-message record, and that
    [UnboundLocalError] leaves [on_message] - the handler does not
    return normally, and the raw message is not logged. *)
Theorem C3_undecodable_payload_escapes_the_handler :
  on_message Reference.lib (Reference.pg_driver Reference.any_row)
             {| topic := "your_topic_prefix/d1"; payload := [xff] |}
             Reference.fresh
  = (inl (Raise UnboundLocalError
            "cannot access local variable 'message_text'"),
     Reference.fresh,
     [Log ERROR (Error_processing_message
                   (Raise UnicodeDecodeError
                      "'utf-8' codec can't decode byte"))]).
Proof. vm_compute. reflexivity. Qed.

(** C2, as the code has it.  When the object has no timestamp, or an empty
    (falsy) one, lines 176-190 leave the dict as it is and the Writer is
    run on it.  When the timestamp is a non-empty string that does not
    parse, the [ValueError] of [fromisoformat] is taken by the handler,
    which logs it with the raw message: the message is dropped and the
    Writer is not run. *)
Theorem C2_timestamp_skipped_or_message_dropped :
  forall (lib : pylib) (C : Type) (drv : driver C)
         (msg : mqtt_message) (c : C) (text : string) (data : dict),
    bytes_decode lib (payload msg) = inr text ->
    load_message_json lib text = inr (PDict data) ->
    ((dict_get "timestamp" data = None \/
      (exists v, dict_get "timestamp" data = Some v /\ truthy v = false)) ->
     parse_timestamp lib data = inr data /\
     on_message lib drv msg c
     = after_store msg text (store_sensor_data lib drv data c)) /\
    (forall s e,
        dict_get "timestamp" data = Some (PStr s) -> s <> "" ->
        fromisoformat lib (if endswith "Z" s then str_drop_last s else s)
        = inl e ->
        parse_timestamp lib data = inl e /\
        on_message lib drv msg c = (inr tt, c, dropped msg text e)).
Proof.
  intros lib C drv msg c text data Hdec Hload. split.
  - intros Hskip.
    pose proof (@parse_timestamp_skipped lib data Hskip) as Hts.
    split; [exact Hts|].
    apply (@on_message_stores lib C drv msg c text data data Hdec Hload Hts).
  - intros s e Hs Hne Hfail.
    assert (Hts : parse_timestamp lib data = inl e).
    { rewrite (@parse_timestamp_string lib data s Hs Hne), Hfail.
      reflexivity. }
    split; [exact Hts|].
    apply (@on_message_timestamp_error lib C drv msg c text data e
             Hdec Hload Hts).
Qed.

Lemma C2_witness :
  Reference.run "{'device_id':'d1','timestamp':'not-a-time'}" Reference.fresh
  = (inr tt, Reference.fresh,
     dropped (Reference.message "{'device_id':'d1','timestamp':'not-a-time'}")
             (Reference.dq "{'device_id':'d1','timestamp':'not-a-time'}")
             (Raise ValueError "Invalid isoformat string")).
Proof.
  refine (proj2 (proj2 (@C2_timestamp_skipped_or_message_dropped
                   Reference.lib _ (Reference.pg_driver Reference.any_row)
                   (Reference.message
                      "{'device_id':'d1','timestamp':'not-a-time'}")
                   Reference.fresh
                   (Reference.dq "{'device_id':'d1','timestamp':'not-a-time'}")
                   [("device_id", PStr "d1");
                    ("timestamp", PStr "not-a-time")] _ _)
                  "not-a-time" _ _ _ _)).
  - reflexivity.
  - reflexivity.
  - reflexivity.
  - discriminate.
  - reflexivity.
Defined.

(** At a message whose timestamp does not parse C2 as the specification
    states it fails: the handler returns, but no record reaches the
    insert and nothing is committed. *)
Lemma C2_counterexample :
  let '(r, c, ev) :=
    Reference.run "{'device_id':'d1','timestamp':'not-a-time'}"
                  Reference.fresh in
  Reference.fromisoformat "not-a-time"
  = inl (Raise ValueError "Invalid isoformat string") /\
  r = inr tt /\
  Reference.committed c = [] /\
  forall params, ~ In (CallExecute params) ev.
Proof.
  vm_compute. repeat split.
  intros params [H|[H|[H|[]]]]; discriminate H.
Qed.

(** C5 does not hold of the code.  In [{"device_id":"d1","wifi_rssi":1e999}] the value
    of [wifi_rssi] is the float infinity; [int] raises [OverflowError] on
    it, which the clause of line 84 does not take.  The field is not set
    to [None], no warning is logged, the exception leaves the coercion
    loop, and the record is rolled back instead of being inserted. *)
Theorem C5_overflow_aborts_the_record :
  Reference.run "{'device_id':'d1','wifi_rssi':1e999}" Reference.fresh
  = (inr tt, Reference.fresh,
     [Log INFO (Received_message "your_topic_prefix/d1"
                  (Reference.dq "{'device_id':'d1','wifi_rssi':1e999}"));
      Log ERROR (Unexpected_error_storing
                   (Raise OverflowError
                      "cannot convert float infinity to integer"));
      Log ERROR (Data_that_caused_error
                   [("device_id", PStr "d1");
                    ("wifi_rssi", PFloat (S754_infinity false));
                    ("event_type", PStr "unknown")]);
      CallRollback]).
Proof. vm_compute. reflexivity. Qed.

(** Lines 77-88, on one field. *)
Section Coercion.

Variable lib : pylib.
Variable C : Type.

(** A field that is missing, or [None], is left alone. *)
Lemma coerce_numeric_absent key (d : dict) (c : C) :
  dict_get_or_none key d = PNone ->
  coerce_numeric lib key d c = (inr tt, d, c, []).
Proof.
  intros Hv. unfold coerce_numeric, bind, get_local. simpl.
  rewrite Hv. reflexivity.
Qed.

(** A field with a value: the converted value is stored; a
    [ValueError] or [TypeError] of the conversion is answered with the
    warning and [None]; any other exception leaves the loop. *)
Lemma coerce_numeric_run key (d : dict) (c : C) v :
  dict_get key d = Some v -> v <> PNone ->
  coerce_numeric lib key d c
  = match converted lib key v with
    | inr v' => (inr tt, dict_set key v' d, c, [])
    | inl e =>
        if isinstance e ValueError || isinstance e TypeError
        then (inr tt, dict_set key PNone d, c,
              [Log WARNING (Invalid_numeric_value key v)])
        else (inl e, d, c, [])
    end.
Proof.
  intros Hv Hnone.
  unfold coerce_numeric, dict_get_or_none, bind at 1, get_local.
  rewrite Hv. unfold converted.
  destruct v; try contradiction; cbv beta iota;
    destruct (in_list key integer_fields);
    match goal with
    | |- context [py_int lib ?v] => destruct (py_int lib v) as [e|?]
    | |- context [py_float lib ?v] => destruct (py_float lib v) as [e|?]
    end;
    unfold try_except, bind, lift, assign, get_local, set_local, log, emit;
    simpl; try reflexivity;
    rewrite orb_false_r;
    destruct (isinstance e ValueError || isinstance e TypeError);
    reflexivity.
Qed.

(** [int] of a finite float is its value rounded towards zero. *)
Lemma float_trunc_quot (s : bool) (m : positive) (e : Z) :
  float_trunc s m e
  = Z.quot (cond_Zopp s (Zpos m) * 2 ^ Z.max e 0) (2 ^ Z.max (- e) 0).
Proof.
  unfold float_trunc.
  destruct (Z.le_gt_cases 0 e) as [He|He].
  - rewrite Z.max_l, Z.max_r by lia. simpl (2 ^ 0). rewrite Z.quot_1_r.
    rewrite Z.shiftl_mul_pow2 by lia.
    unfold cond_Zopp. destruct s; [|reflexivity].
    symmetry. apply Z.mul_opp_l.
  - rewrite Z.max_r, Z.max_l by lia. simpl (2 ^ 0). rewrite Z.mul_1_r.
    replace e with (- - e) at 1 by lia.
    rewrite Z.shiftl_opp_r, Z.shiftr_div_pow2 by lia.
    assert (0 < 2 ^ (- e)) by (apply Z.pow_pos_nonneg; lia).
    unfold cond_Zopp. destruct s.
    + rewrite Z.quot_opp_l by lia.
      rewrite Z.quot_div_nonneg by lia. reflexivity.
    + rewrite Z.quot_div_nonneg by lia. reflexivity.
Qed.

End Coercion.

(** C10. For a field of [integer_fields] (they are numeric fields) the
    conversion is [int]: a finite float is stored as its integer part,
    rounded towards zero and without a warning, while a string that [int]
    does not read - a decimal such as ["3.5"] - is logged and replaced by
    [None].  So 3.9 is kept as 3 and "3.5" is dropped. *)
Theorem C10_integer_fields_truncate_floats_and_drop_decimal_strings :
  forall (lib : pylib) (C : Type) (key : string) (d : dict) (c : C),
    In key integer_fields ->
    In key numeric_fields /\
    (forall s m e,
        dict_get key d = Some (PFloat (S754_finite s m e)) ->
        coerce_numeric lib key d c
        = (inr tt, dict_set key (PInt (float_trunc s m e)) d, c, []) /\
        float_trunc s m e
        = Z.quot (cond_Zopp s (Zpos m) * 2 ^ Z.max e 0)
                 (2 ^ Z.max (- e) 0)) /\
    (forall str,
        dict_get key d = Some (PStr str) ->
        int_of_str lib str = None ->
        coerce_numeric lib key d c
        = (inr tt, dict_set key PNone d, c,
           [Log WARNING (Invalid_numeric_value key (PStr str))])).
Proof.
  intros lib C key d c Hkey.
  assert (Hint : in_list key integer_fields = true)
    by (apply in_list_In, Hkey).
  split; [|split].
  - simpl in Hkey. simpl. intuition.
  - intros s m e Hv. split; [|apply float_trunc_quot].
    rewrite (@coerce_numeric_run lib C key d c _ Hv) by discriminate.
    unfold converted. rewrite Hint. reflexivity.
  - intros str Hv Hbad.
    rewrite (@coerce_numeric_run lib C key d c _ Hv) by discriminate.
    unfold converted. rewrite Hint. simpl. rewrite Hbad. reflexivity.
Qed.

Lemma C10_witness :
  Reference.json_loads "3.9"
  = inr (PFloat (S754_finite false 8782019273372467 (-51))) /\
  coerce_numeric Reference.lib "wifi_rssi"
    [("wifi_rssi", PFloat (S754_finite false 8782019273372467 (-51)))]
    Reference.fresh
  = (inr tt, [("wifi_rssi", PInt 3)], Reference.fresh, []) /\
  coerce_numeric Reference.lib "wifi_rssi"
    [("wifi_rssi", PStr "3.5")] Reference.fresh
  = (inr tt, [("wifi_rssi", PNone)], Reference.fresh,
     [Log WARNING (Invalid_numeric_value "wifi_rssi" (PStr "3.5"))]).
Proof.
  assert (Hkey : In "wifi_rssi" integer_fields) by (simpl; tauto).
  split; [reflexivity|]. split.
  - exact (proj1 (proj1 (proj2
             (@C10_integer_fields_truncate_floats_and_drop_decimal_strings
                Reference.lib _ "wifi_rssi"
                [("wifi_rssi",
                  PFloat (S754_finite false 8782019273372467 (-51)))]
                Reference.fresh Hkey))
             false 8782019273372467%positive (-51) eq_refl)).
  - exact (proj2 (proj2
             (@C10_integer_fields_truncate_floats_and_drop_decimal_strings
                Reference.lib _ "wifi_rssi" [("wifi_rssi", PStr "3.5")]
                Reference.fresh Hkey))
             "3.5" eq_refl eq_refl).
Defined.

(** ** store_sensor_data: the loops of lines 76-94, field by field *)

Section Fields.

Variable lib : pylib.
Variable C : Type.

Lemma not_in_list (key : string) (fields : list string) :
  in_list key fields = false -> ~ In key fields.
Proof.
  intros Hf Hin. rewrite (in_list_In _ _ Hin) in Hf. discriminate.
Qed.

Lemma coerced_None key : coerced lib key PNone = PNone.
Proof.
  unfold coerced, converted. destruct (in_list key integer_fields); reflexivity.
Qed.

(** [int] and [float] raise [TypeError] on [None], which line 84 takes. *)
Lemma converted_None key e :
  converted lib key PNone = inl e -> caught e = true.
Proof.
  unfold converted.
  destruct (in_list key integer_fields); intros [= <-]; reflexivity.
Qed.

(** One round of the loop of lines 76-88. *)
Lemma coerce_numeric_outcome key (d : dict) (c : C) r d' c' ev :
  coerce_numeric lib key d c = (r, d', c', ev) ->
  c' = c /\
  (forall k, k <> key -> dict_get k d' = dict_get k d) /\
  match r with
  | inr _ =>
      dict_get key d' = option_map (coerced lib key) (dict_get key d) /\
      forall v e, dict_get key d = Some v ->
                  converted lib key v = inl e -> caught e = true
  | inl e =>
      exists v, dict_get key d = Some v /\
                converted lib key v = inl e /\ caught e = false
  end.
Proof.
  intros Hrun.
  assert (Hother : forall v k, k <> key ->
             dict_get k (dict_set key v d) = dict_get k d)
    by (intros v k Hk; apply dict_get_set_other, String.eqb_neq, Hk).
  destruct (dict_get key d) as [v|] eqn:Hv.
  2: { rewrite coerce_numeric_absent in Hrun
         by (unfold dict_get_or_none; rewrite Hv; reflexivity).
       injection Hrun as <- <- <- <-.
       split; [reflexivity|]. split; [reflexivity|].
       rewrite Hv. split; [reflexivity | discriminate]. }
  assert (Hnone : v = PNone \/ v <> PNone)
    by (destruct v; auto; right; discriminate).
  destruct Hnone as [->|Hnone].
  { rewrite coerce_numeric_absent in Hrun
      by (unfold dict_get_or_none; rewrite Hv; reflexivity).
    injection Hrun as <- <- <- <-.
    split; [reflexivity|]. split; [reflexivity|].
    rewrite Hv. simpl. rewrite coerced_None. split; [reflexivity|].
    intros v e [= <-]. apply converted_None. }
  rewrite (@coerce_numeric_run lib C key d c v Hv Hnone) in Hrun.
  destruct (converted lib key v) as [e|v'] eqn:Hconv.
  - change (isinstance e ValueError || isinstance e TypeError)
      with (caught e) in Hrun.
    destruct (caught e) eqn:Hcaught; injection Hrun as <- <- <- <-.
    + split; [reflexivity|]. split; [apply Hother|].
      rewrite dict_get_set_same. simpl. unfold coerced. rewrite Hconv.
      split; [reflexivity|].
      intros v0 e0 [= <-]. rewrite Hconv. intros [= <-]. exact Hcaught.
    + split; [reflexivity|]. split; [reflexivity|].
      exists v. rewrite Hconv. auto.
  - injection Hrun as <- <- <- <-.
    split; [reflexivity|]. split; [apply Hother|].
    rewrite dict_get_set_same. simpl. unfold coerced. rewrite Hconv.
    split; [reflexivity|].
    intros v0 e0 [= <-]. rewrite Hconv. discriminate.
Qed.

(** The loop of lines 76-88 over distinct keys: when it goes through,
    each key holds [coerced] of what it held; when it raises, some key
    held a value whose conversion raised what line 84 does not take. *)
Lemma numeric_loop_outcome (keys : list string) :
  NoDup keys ->
  forall (d : dict) (c : C) r d' c' ev,
    for_each keys (coerce_numeric lib) d c = (r, d', c', ev) ->
    c' = c /\
    (forall k, ~ In k keys -> dict_get k d' = dict_get k d) /\
    match r with
    | inr _ =>
        forall k, In k keys ->
          dict_get k d' = option_map (coerced lib k) (dict_get k d) /\
          forall v e, dict_get k d = Some v ->
                      converted lib k v = inl e -> caught e = true
    | inl e =>
        exists k v, In k keys /\ dict_get k d = Some v /\
                    converted lib k v = inl e /\ caught e = false
    end.
Proof.
  induction 1 as [|key keys Hnew Hdup IH]; intros d c r d' c' ev Hrun.
  - injection Hrun as <- <- <- <-.
    split; [reflexivity|]. split; [reflexivity|]. intros k [].
  - simpl in Hrun.
    apply bind_inv in Hrun
        as [(e & Hrun & ->) | ([] & d1 & c1 & ev1 & ev2 & H1 & Hrun & ->)].
    + destruct (coerce_numeric_outcome _ _ _ Hrun)
        as (-> & Hframe & v & Hv & Hconv & Hcaught).
      split; [reflexivity|]. split.
      * intros k Hk. apply Hframe. intros ->. apply Hk. left. reflexivity.
      * exists key, v. simpl. auto.
    + destruct (coerce_numeric_outcome _ _ _ H1)
        as (-> & Hframe & Hkey & Hok).
      destruct (IH _ _ _ _ _ _ Hrun) as (-> & Hrest & Hr).
      assert (Hne : forall k, In k keys -> k <> key)
        by (intros k Hk ->; contradiction).
      split; [reflexivity|]. split.
      * intros k Hk. rewrite Hrest by (intros Hin; apply Hk; right; exact Hin).
        apply Hframe. intros ->. apply Hk. left. reflexivity.
      * destruct r as [e|u].
        -- destruct Hr as (k & v & Hk & Hv & Hconv & Hcaught).
           exists k, v. rewrite <- (Hframe k (Hne k Hk)). simpl. auto.
        -- intros k [<-|Hk].
           ++ rewrite (Hrest key Hnew). auto.
           ++ destruct (Hr k Hk) as (Hget & Hok').
              rewrite (Hframe k (Hne k Hk)) in Hget, Hok'. auto.
Qed.

(** One round of the loop of lines 92-94: it cannot raise. *)
Lemma coerce_text_outcome key (d : dict) (c : C) :
  exists d',
    coerce_text lib key d c = (inr tt, d', c, []) /\
    (forall k, k <> key -> dict_get k d' = dict_get k d) /\
    dict_get key d' = option_map (as_text lib) (dict_get key d).
Proof.
  assert (Hother : forall v k, k <> key ->
             dict_get k (dict_set key v d) = dict_get k d)
    by (intros v k Hk; apply dict_get_set_other, String.eqb_neq, Hk).
  unfold coerce_text, bind, get_local, assign, set_local, ret. simpl.
  destruct (dict_get key d) as [v|] eqn:Hv.
  - destruct v;
      try (eexists; split; [reflexivity|]; split; [apply Hother|];
           rewrite dict_get_set_same; reflexivity).
    exists d. rewrite Hv. auto.
  - exists d. rewrite Hv. auto.
Qed.

Lemma text_loop_outcome (keys : list string) :
  NoDup keys ->
  forall (d : dict) (c : C),
  exists d',
    for_each keys (coerce_text lib) d c = (inr tt, d', c, []) /\
    (forall k, ~ In k keys -> dict_get k d' = dict_get k d) /\
    (forall k, In k keys ->
               dict_get k d' = option_map (as_text lib) (dict_get k d)).
Proof.
  induction 1 as [|key keys Hnew Hdup IH]; intros d c.
  - exists d. split; [reflexivity|]. split; [reflexivity|]. intros k [].
  - destruct (coerce_text_outcome key d c) as (d1 & H1 & Hframe & Hkey).
    destruct (IH d1 c) as (d' & Hrun & Hrest & Hin).
    exists d'. split.
    + simpl. unfold bind. rewrite H1, Hrun. reflexivity.
    + assert (Hne : forall k, In k keys -> k <> key)
        by (intros k Hk ->; contradiction).
      split.
      * intros k Hk. rewrite Hrest by (intros H; apply Hk; right; exact H).
        apply Hframe. intros ->. apply Hk. left. reflexivity.
      * intros k [<-|Hk].
        -- rewrite (Hrest key Hnew). exact Hkey.
        -- rewrite (Hin k Hk), (Hframe k (Hne k Hk)). reflexivity.
Qed.

(** The warning of one round of the loop of lines 76-88 that goes
    through. *)
Lemma coerce_numeric_events key (d : dict) (c : C) d' c' ev :
  coerce_numeric lib key d c = (inr tt, d', c', ev) ->
  ev = warning lib d key.
Proof.
  unfold warning. intros Hrun.
  destruct (dict_get key d) as [v|] eqn:Hv.
  2: { rewrite coerce_numeric_absent in Hrun
         by (unfold dict_get_or_none; rewrite Hv; reflexivity).
       injection Hrun as <- <- <-. reflexivity. }
  assert (Hnone : v = PNone \/ v <> PNone)
    by (destruct v; auto; right; discriminate).
  destruct Hnone as [->|Hnone].
  { rewrite coerce_numeric_absent in Hrun
      by (unfold dict_get_or_none; rewrite Hv; reflexivity).
    injection Hrun as <- <- <-. reflexivity. }
  rewrite (@coerce_numeric_run lib C key d c v Hv Hnone) in Hrun.
  destruct (converted lib key v) as [e|v'].
  - destruct (isinstance e ValueError || isinstance e TypeError);
      [|discriminate Hrun].
    injection Hrun as <- <- <-.
    destruct v; try reflexivity; contradiction.
  - injection Hrun as <- <- <-. destruct v; reflexivity.
Qed.

Lemma warning_ext (d d' : dict) (keys : list string) :
  (forall k, In k keys -> dict_get k d' = dict_get k d) ->
  flat_map (warning lib d') keys = flat_map (warning lib d) keys.
Proof.
  induction keys as [|k keys IH]; intros Hsame; simpl; [reflexivity|].
  rewrite IH by (intros k' Hk'; apply Hsame; right; exact Hk').
  unfold warning. rewrite (Hsame k) by (left; reflexivity). reflexivity.
Qed.

(** The warnings of the loop of lines 76-88 when it goes through: one
    for each key whose conversion raised, in the order of the keys. *)
Lemma numeric_loop_events (keys : list string) :
  NoDup keys ->
  forall (d : dict) (c : C) d' c' ev,
    for_each keys (coerce_numeric lib) d c = (inr tt, d', c', ev) ->
    ev = flat_map (warning lib d) keys.
Proof.
  induction 1 as [|key keys Hnew Hdup IH]; intros d c d' c' ev Hrun.
  - injection Hrun as <- <- <-. reflexivity.
  - simpl in Hrun.
    apply bind_inv in Hrun
        as [(e & _ & [=]) | ([] & d1 & c1 & ev1 & ev2 & H1 & Hrun & ->)].
    rewrite (coerce_numeric_events _ _ _ H1).
    rewrite (IH _ _ _ _ _ Hrun). simpl. f_equal.
    apply warning_ext. intros k Hk.
    destruct (coerce_numeric_outcome _ _ _ H1) as (_ & Hframe & _).
    apply Hframe. intros ->. contradiction.
Qed.

(** The loop of lines 76-88 logs nothing but its warnings, whether it
    goes through or raises. *)
Lemma coerce_numeric_warns key (d : dict) (c : C) r d' c' ev :
  coerce_numeric lib key d c = (r, d', c', ev) ->
  forall x, In x ev ->
            exists k v, x = Log WARNING (Invalid_numeric_value k v).
Proof.
  intros Hrun.
  destruct (dict_get key d) as [v|] eqn:Hv.
  2: { rewrite coerce_numeric_absent in Hrun
         by (unfold dict_get_or_none; rewrite Hv; reflexivity).
       injection Hrun as <- <- <- <-. intros x []. }
  assert (Hnone : v = PNone \/ v <> PNone)
    by (destruct v; auto; right; discriminate).
  destruct Hnone as [->|Hnone].
  { rewrite coerce_numeric_absent in Hrun
      by (unfold dict_get_or_none; rewrite Hv; reflexivity).
    injection Hrun as <- <- <- <-. intros x []. }
  rewrite (@coerce_numeric_run lib C key d c v Hv Hnone) in Hrun.
  destruct (converted lib key v) as [e|v'].
  - destruct (isinstance e ValueError || isinstance e TypeError);
      injection Hrun as <- <- <- <-.
    + intros x [<-|[]]. eauto.
    + intros x [].
  - injection Hrun as <- <- <- <-. intros x [].
Qed.

Lemma numeric_loop_warns (keys : list string) :
  forall (d : dict) (c : C) r d' c' ev,
    for_each keys (coerce_numeric lib) d c = (r, d', c', ev) ->
    forall x, In x ev ->
              exists k v, x = Log WARNING (Invalid_numeric_value k v).
Proof.
  induction keys as [|key keys IH]; intros d c r d' c' ev Hrun.
  - injection Hrun as <- <- <- <-. intros x [].
  - simpl in Hrun.
    apply bind_inv in Hrun
        as [(e & Hrun & ->) | ([] & d1 & c1 & ev1 & ev2 & H1 & Hrun & ->)].
    + apply (coerce_numeric_warns _ _ _ Hrun).
    + intros x Hx. apply in_app_or in Hx as [Hx|Hx].
      * apply (coerce_numeric_warns _ _ _ H1 x Hx).
      * apply (IH _ _ _ _ _ _ Hrun x Hx).
Qed.

Lemma numeric_fields_distinct : NoDup numeric_fields.
Proof.
  unfold numeric_fields.
  repeat (constructor; [simpl; intuition discriminate|]). constructor.
Qed.

Lemma text_fields_distinct : NoDup text_fields.
Proof.
  unfold text_fields.
  repeat (constructor; [simpl; intuition discriminate|]). constructor.
Qed.

(** The value under [k] after the missing fields are filled in. *)
Lemma filled_in (v : option pyval) (k : string) :
  in_list k expected_fields = true ->
  match v with
  | Some x => Some x
  | None => if in_list k expected_fields then Some PNone else None
  end
  = Some (match v with Some x => x | None => PNone end).
Proof. intros ->. destruct v; reflexivity. Qed.

(** Lines 69-114, in full: they raise only out of the loop of lines
    76-88; when they go through, each numeric field holds [coerced] of
    the input's value and each text field [as_text] of it, [None] standing
    for a missing key. *)
Lemma build_db_data_outcome (data : dict) (c : C) r d' c' ev :
  build_db_data lib data c = (r, d', c', ev) ->
  c' = c /\
  match r with
  | inr _ =>
      (forall k, In k numeric_fields ->
         dict_get k d'
         = Some (match dict_get k data with
                 | Some v => coerced lib k v
                 | None => PNone
                 end) /\
         forall v e, dict_get k data = Some v ->
                     converted lib k v = inl e -> caught e = true) /\
      (forall k, In k text_fields ->
         dict_get k d'
         = Some (match dict_get k data with
                 | Some v => as_text lib v
                 | None => PNone
                 end)) /\
      exists event_type device_id,
        dict_get "event_type" d' = Some event_type /\
        dict_get "device_id" d' = Some device_id /\
        ev = flat_map (warning lib data) numeric_fields
             ++ [Log INFO (Storing event_type device_id
                             (dict_get_or_none "temperature" d')
                             (dict_get_or_none "motion" d')
                             (dict_get_or_none "wifi_rssi" d')
                             (dict_get_or_none "uptime_seconds" d'))]
  | inl e =>
      (exists k v, In k numeric_fields /\ dict_get k data = Some v /\
                   converted lib k v = inl e /\ caught e = false) /\
      forall x, In x ev ->
                exists k v, x = Log WARNING (Invalid_numeric_value k v)
  end.
Proof.
  intros H. unfold build_db_data in H.
  apply bind_inv in H
      as [(e & H & _) | (a & l1 & c1 & ev1 & ev2 & H1 & H & ->)];
    [discriminate H|].
  unfold get_local in H1. injection H1 as <- <- <- <-.
  apply bind_inv in H
      as [(e & H & _) | ([] & l1 & c1 & ev1 & ev2' & H1 & H & ->)];
    [discriminate H|].
  unfold set_local in H1. injection H1 as <- <- <-.
  set (d0 := dict_setdefault "event_type" (PStr "unknown") data) in *.
  assert (Hd0 : forall k, In k numeric_fields ->
                          dict_get k d0 = dict_get k data).
  { intros k Hk. unfold d0. rewrite dict_get_setdefault.
    destruct (dict_get k data); [reflexivity|].
    simpl in Hk. repeat destruct Hk as [<-|Hk]; try reflexivity.
    contradiction. }
  apply bind_inv in H
      as [(e & Hnum & ->) | ([] & d2 & c2 & ev3 & ev4 & Hnum & H & ->)].
  { destruct (numeric_loop_outcome numeric_fields_distinct _ _ Hnum)
      as (-> & _ & k & v & Hk & Hv & Hconv & Hcaught).
    split; [reflexivity|]. split.
    - exists k, v. rewrite <- (Hd0 k Hk). auto.
    - apply (numeric_loop_warns _ _ _ Hnum). }
  destruct (numeric_loop_outcome numeric_fields_distinct _ _ Hnum)
    as (-> & Hframe2 & Hnumeric).
  destruct (text_loop_outcome text_fields_distinct d2 c)
    as (d3 & Htxt & Hframe3 & Htext).
  apply bind_inv in H
      as [(e & H & _) | ([] & l3 & c3 & ev5 & ev6 & H1 & H & ->)];
    [rewrite Htxt in H; discriminate H|].
  rewrite Htxt in H1. injection H1 as <- <- <-.
  apply bind_inv in H
      as [(e & H & _) | ([] & l4 & c4 & ev7 & ev8 & H1 & H & ->)];
    [rewrite rename_timestamp_run in H; discriminate H|].
  rewrite rename_timestamp_run in H1. injection H1 as <- <- <-.
  destruct (fill_missing_run expected_fields (renamed d3) c)
    as (d5 & Hfill & Hget).
  apply bind_inv in H
      as [(e & H & _) | ([] & l5 & c5 & ev9 & ev10 & H1 & H & ->)];
    [rewrite Hfill in H; discriminate H|].
  rewrite Hfill in H1. injection H1 as <- <- <-.
  assert (Hsub : forall f, in_list f expected_fields = true ->
             exists v, subscript f d5 = inr v).
  { intros f Hf. unfold subscript. rewrite Hget, Hf.
    destruct (dict_get f (renamed d3)); eauto. }
  destruct (Hsub "event_type" eq_refl) as (event_type & Het).
  destruct (Hsub "device_id" eq_refl) as (device_id & Hdi).
  unfold bind, get_local, lift, log, emit in H. simpl in H.
  rewrite Het, Hdi in H. injection H as <- <- <- <-.
  split; [reflexivity|].
  assert (Hts : dict_get "timestamp" d3 = dict_get "timestamp" data).
  { rewrite Hframe3, Hframe2 by (simpl; intuition discriminate).
    unfold d0. rewrite dict_get_setdefault.
    destruct (dict_get "timestamp" data); reflexivity. }
  assert (Hfinal : forall k,
             in_list k expected_fields = true ->
             String.eqb k "time" = false ->
             String.eqb k "timestamp" = false ->
             dict_get k d5
             = Some (match dict_get k d3 with Some x => x | None => PNone end)).
  { intros k Hexp Htime Hstamp.
    rewrite Hget, dict_get_renamed, Htime, Hstamp.
    rewrite <- (@filled_in (dict_get k d3) k Hexp).
    destruct (dict_get "timestamp" d3); reflexivity. }
  split; [|split].
  - intros k Hk.
    destruct (Hnumeric k Hk) as (Hval & Hok).
    rewrite (Hd0 k Hk) in Hval, Hok. split; [|exact Hok].
    assert (Hfacts : in_list k expected_fields = true /\
                     String.eqb k "time" = false /\
                     String.eqb k "timestamp" = false /\
                     ~ In k text_fields).
    { simpl in Hk. repeat destruct Hk as [<-|Hk]; try contradiction;
        (repeat split; [simpl; intuition discriminate]). }
    destruct Hfacts as (Hexp & Htime & Hstamp & Hnot).
    rewrite (Hfinal k Hexp Htime Hstamp), (Hframe3 k Hnot), Hval.
    destruct (dict_get k data); reflexivity.
  - intros k Hk.
    assert (Hfacts : in_list k expected_fields = true /\
                     String.eqb k "time" = false /\
                     String.eqb k "timestamp" = false /\
                     ~ In k numeric_fields /\
                     String.eqb k "event_type" = false).
    { simpl in Hk. repeat destruct Hk as [<-|Hk]; try contradiction;
        (repeat split; [simpl; intuition discriminate]). }
    destruct Hfacts as (Hexp & Htime & Hstamp & Hnot & Het').
    rewrite (Hfinal k Hexp Htime Hstamp), (Htext k Hk), (Hframe2 k Hnot).
    unfold d0. rewrite dict_get_setdefault, Het'.
    destruct (dict_get k data); reflexivity.
  - exists event_type, device_id.
    unfold subscript in Het, Hdi.
    destruct (dict_get "event_type" d5) as [x|]; [|discriminate Het].
    destruct (dict_get "device_id" d5) as [y|]; [|discriminate Hdi].
    injection Het as ->. injection Hdi as ->.
    split; [reflexivity|]. split; [reflexivity|].
    rewrite (numeric_loop_events numeric_fields_distinct _ _ Hnum).
    rewrite (@warning_ext data d0 numeric_fields Hd0).
    reflexivity.
Qed.

End Fields.

(** ** store_sensor_data: when the record reaches the insert *)

Section Reached.

Variable lib : pylib.
Variable C : Type.
Variable drv : driver C.

(** When the numeric fields convert, lines 69-114 go through. *)
Lemma build_db_data_goes_through (data : dict) (c : C) :
  numbers_convert lib data ->
  exists d' ev, build_db_data lib data c = (inr tt, d', c, ev).
Proof.
  intros Hnum.
  destruct (build_db_data lib data c) as [[[[e|[]] d1] c1] ev1] eqn:Hb;
    pose proof (@build_db_data_outcome lib C data c _ _ _ _ Hb) as Hout.
  - destruct Hout as (_ & (k & v & Hk & Hv & Hconv & Hcaught) & _).
    rewrite (Hnum k v e Hk Hv Hconv) in Hcaught. discriminate Hcaught.
  - destruct Hout as (-> & _). eauto.
Qed.

(** Then, when [cursor()] returns, [cur.execute] is called. *)
Lemma store_sensor_data_executes (data : dict) (c : C) :
  numbers_convert lib data -> fst (cursor drv c) = None ->
  exists params,
    In (CallExecute params) (snd (store_sensor_data lib drv data c)).
Proof.
  intros Hnum Hcur.
  destruct (build_db_data_goes_through c Hnum) as (d1 & ev1 & Hb).
  exists d1. rewrite store_sensor_data_run. unfold bind. rewrite Hb.
  rewrite insert_db_data_run.
  destruct (cursor drv c) as [[e|] c1]; [discriminate Hcur|].
  destruct (execute drv d1 c1) as [[e|] c2];
    [| destruct (commit drv c2) as [[e|] c3];
       [| destruct (subscript "event_type" d1);
          [| destruct (subscript "device_id" d1)]]];
    try (destruct (rollback drv _) as [r c']);
    cbn [snd]; rewrite ?in_app_iff; simpl; auto 10.
Qed.

(** What the Writer emits, [on_message] emits. *)
Lemma after_store_events msg text (run : result unit * C * list event) e :
  In e (snd run) -> In e (snd (after_store msg text run)).
Proof.
  destruct run as [[[x|u] c'] ev]; simpl; intros Hin.
  - right. apply in_or_app. left. exact Hin.
  - right. exact Hin.
Qed.

End Reached.

(** Lines 176-190 on a timestamp string. *)
Section Timestamp.

Variable lib : pylib.
Variable C : Type.
Variable drv : driver C.

Lemma substring_all (s : string) : String.substring 0 (String.length s) s = s.
Proof. induction s as [|a s IH]; simpl; [reflexivity | now rewrite IH]. Qed.

Lemma substring_split (s : string) :
  forall k, (k <= String.length s)%nat ->
  s = (String.substring 0 k s
       ++ String.substring k (String.length s - k) s)%string.
Proof.
  induction s as [|a s IH]; intros [|k] Hk; simpl in *; try lia.
  - reflexivity.
  - rewrite substring_all. reflexivity.
  - rewrite <- IH by lia. reflexivity.
Qed.

(** A string that ends with [Z] is [s[:-1]] followed by [Z]. *)
Lemma endswith_Z_drop_last (s : string) :
  endswith "Z" s = true -> s = (str_drop_last s ++ "Z")%string.
Proof.
  unfold endswith, str_drop_last. simpl String.length.
  intros H. apply andb_prop in H as [Hlen Hz].
  apply Nat.leb_le in Hlen. apply String.eqb_eq in Hz.
  rewrite (substring_split s (k := String.length s - 1)) at 1 by lia.
  replace (String.length s - (String.length s - 1))%nat with 1%nat by lia.
  rewrite Hz. reflexivity.
Qed.

(** Once lines 176-190 have put the datetime [t] under [timestamp]. *)
Lemma parsed_time_is_stored msg (c : C) text data (t : datetime) :
  bytes_decode lib (payload msg) = inr text ->
  load_message_json lib text = inr (PDict data) ->
  parse_timestamp lib data
  = inr (dict_set "timestamp" (PDatetime t) data) ->
  tzinfo t <> None ->
  time_stored_as lib drv msg text c data t.
Proof.
  intros Hdec Hload Hts Htz. split; [exact Htz|]. split; [exact Hts|].
  split.
  - apply (@on_message_stores lib C drv msg c text data _ Hdec Hload Hts).
  - intros params Hin.
    destruct (@executed_record_fields lib C drv msg c text data params
                Hdec Hload Hin) as (_ & _ & _ & _ & Htime & Hnone).
    split; [|exact Hnone].
    apply (Htime _ _ Hts). apply dict_get_set_same.
Qed.

(** And then the insert is reached, when nothing stops the Writer
    before it. *)
Lemma parsed_time_is_inserted msg (c : C) text data (t : datetime) :
  bytes_decode lib (payload msg) = inr text ->
  load_message_json lib text = inr (PDict data) ->
  parse_timestamp lib data
  = inr (dict_set "timestamp" (PDatetime t) data) ->
  tzinfo t <> None ->
  time_inserted_as lib drv msg text c data t.
Proof.
  intros Hdec Hload Hts Htz.
  pose proof (@parsed_time_is_stored msg c text data t Hdec Hload Hts Htz)
    as Hstored.
  split; [exact Hstored|]. intros Hnum Hcur.
  assert (Hnum' : numbers_convert lib
                    (dict_set "timestamp" (PDatetime t) data)).
  { intros key v e Hkey Hv Hconv. apply (Hnum key v e Hkey); auto.
    rewrite <- Hv. symmetry. apply dict_get_set_other.
    simpl in Hkey. repeat destruct Hkey as [<-|Hkey]; try reflexivity.
    contradiction. }
  destruct (@store_sensor_data_executes lib C drv _ c Hnum' Hcur)
    as (params & Hex).
  assert (Hin : In (CallExecute params) (snd (on_message lib drv msg c))).
  { rewrite (@on_message_stores lib C drv msg c text data _ Hdec Hload Hts).
    apply after_store_events, Hex. }
  exists params. split; [exact Hin|].
  destruct Hstored as (_ & _ & _ & Hrecord). apply Hrecord, Hin.
Qed.

End Timestamp.

(** C6. For every message whose object has a non-empty timestamp string
    [s]: if [s] ends with [Z], what is parsed is [s] without that [Z] and
    the result is tagged UTC; otherwise [s] is parsed, an offset it
    carries is kept, and without one the result is tagged UTC.  In each
    case the datetime carries a timezone and the Writer is run on the
    dict that holds it; the record that the Writer hands to the insert -
    it does so whenever the numeric fields convert and [cursor()]
    returns - has the datetime under [time], and no [timestamp] key. *)
Theorem C6_timestamp_is_parsed_to_an_aware_time :
  forall (lib : pylib) (C : Type) (drv : driver C)
         (msg : mqtt_message) (c : C) (text : string) (data : dict)
         (s : string),
    bytes_decode lib (payload msg) = inr text ->
    load_message_json lib text = inr (PDict data) ->
    dict_get "timestamp" data = Some (PStr s) -> s <> "" ->
    (endswith "Z" s = true ->
     s = (str_drop_last s ++ "Z")%string /\
     forall dt,
       fromisoformat lib (str_drop_last s) = inr dt ->
       time_inserted_as lib drv msg text c data (replace_tzinfo dt UTC)) /\
    (endswith "Z" s = false ->
     forall dt offset,
       fromisoformat lib s = inr dt -> tzinfo dt = Some offset ->
       time_inserted_as lib drv msg text c data dt) /\
    (endswith "Z" s = false ->
     forall dt,
       fromisoformat lib s = inr dt -> tzinfo dt = None ->
       time_inserted_as lib drv msg text c data (replace_tzinfo dt UTC)).
Proof.
  intros lib C drv msg c text data s Hdec Hload Hs Hne.
  pose proof (@parse_timestamp_string lib data s Hs Hne) as Hts.
  split; [|split].
  - intros Hz. split; [apply endswith_Z_drop_last, Hz|].
    intros dt Hdt. rewrite Hz, Hdt in Hts.
    apply parsed_time_is_inserted; auto. discriminate.
  - intros Hz dt offset Hdt Hoff. rewrite Hz, Hdt, Hoff in Hts.
    apply parsed_time_is_inserted; auto. rewrite Hoff. discriminate.
  - intros Hz dt Hdt Hoff. rewrite Hz, Hdt, Hoff in Hts.
    apply parsed_time_is_inserted; auto. discriminate.
Qed.

(** The round trip of the specification: its message reaches the insert,
    and the record has UTC 2025-04-21T17:21:47 under [time]. *)
Lemma C6_witness :
  exists params,
    In (CallExecute params)
       (snd (on_message Reference.lib
               (Reference.pg_driver Reference.any_row)
               (Reference.message
                  "{'device_id':'d1','event_type':'telemetry','temperature':'21.5','timestamp':'2025-04-21T17:21:47Z'}")
               Reference.fresh)) /\
    dict_get "time" params
    = Some (PDatetime (mkDatetime 2025 4 21 17 21 47 0 (Some UTC))) /\
    dict_get "timestamp" params = None.
Proof.
  refine (proj2 (proj2 (proj1 (@C6_timestamp_is_parsed_to_an_aware_time
                   Reference.lib _ (Reference.pg_driver Reference.any_row)
                   (Reference.message
                      "{'device_id':'d1','event_type':'telemetry','temperature':'21.5','timestamp':'2025-04-21T17:21:47Z'}")
                   Reference.fresh
                   (Reference.dq
                      "{'device_id':'d1','event_type':'telemetry','temperature':'21.5','timestamp':'2025-04-21T17:21:47Z'}")
                   [("device_id", PStr "d1");
                    ("event_type", PStr "telemetry");
                    ("temperature", PStr "21.5");
                    ("timestamp", PStr "2025-04-21T17:21:47Z")]
                   "2025-04-21T17:21:47Z" _ _ _ _) _)
                (mkDatetime 2025 4 21 17 21 47 0 None) _) _ _).
  - reflexivity.
  - reflexivity.
  - reflexivity.
  - discriminate.
  - reflexivity.
  - reflexivity.
  - intros key v e Hkey Hv Hconv. simpl in Hkey.
    repeat (destruct Hkey as [<-|Hkey];
            [simpl in Hv; try discriminate Hv|]);
      try contradiction.
    injection Hv as <-. vm_compute in Hconv. discriminate Hconv.
  - reflexivity.
Defined.

(** The round trip of the specification, end to end: the row that is
    committed for its example message. *)
Example round_trip_row :
  Reference.committed
    (snd (fst (Reference.run
       "{'device_id':'d1','event_type':'telemetry','temperature':'21.5','timestamp':'2025-04-21T17:21:47Z'}"
       Reference.fresh)))
  = [[PDatetime (mkDatetime 2025 4 21 17 21 47 0 (Some UTC));
      PStr "d1"; PStr "telemetry";
      PFloat (S754_finite false 6051711999279104 (-48));
      PNone; PNone; PNone; PNone; PNone; PNone; PNone; PNone; PNone; PNone;
      PNone]].
Proof. vm_compute. reflexivity. Qed.

(** The Writer on the reference connection. *)
Section Isolation.

Import Reference.

Variable lib : pylib.
Variable server : list pyval -> option exn.

Lemma pg_rollback_open (c : pg) :
  closed c = false ->
  rollback (pg_driver server) c = (None, mkPg (committed c) [] false false).
Proof. intros Hc. simpl. rewrite Hc. reflexivity. Qed.

(** On an open connection the Writer returns, and leaves no
    transaction open and none aborted, whether the write went through
    or not. *)
Ltac pg_step Hc :=
  repeat (cbn [cursor execute commit rollback pg_driver
               closed aborted pending committed];
          rewrite ?Hc).

Lemma pg_store_leaves_clean (data : dict) (c : pg) :
  closed c = false ->
  let '(r, c', ev) := store_sensor_data lib (pg_driver server) data c in
  r = inr tt /\ closed c' = false /\ pending c' = [] /\ aborted c' = false.
Proof.
  intros Hc. rewrite store_sensor_data_run. unfold bind.
  destruct (build_db_data lib data c) as [[[[e|[]] d1] c1] ev1] eqn:Hb;
    destruct (@build_db_data_quiet lib pg _ _ _ _ _ _ Hb) as (-> & _ & _).
  - rewrite (pg_rollback_open c Hc). simpl. repeat split.
  - rewrite insert_db_data_run. pg_step Hc.
    destruct (bind_params expected_fields d1) as [e|row];
      [pg_step Hc; repeat split|].
    destruct (aborted c); [pg_step Hc; repeat split|].
    destruct (server row) as [e|]; pg_step Hc; [repeat split|].
    destruct (subscript "event_type" d1); pg_step Hc; [repeat split|].
    destruct (subscript "device_id" d1); pg_step Hc; repeat split.
Qed.

(** On an open connection with no transaction open, a record that is
    built and that the server takes is committed, and nothing is rolled
    back. *)
Lemma pg_valid_record_is_committed (data : dict) (c : pg) d' ev row :
  closed c = false -> pending c = [] -> aborted c = false ->
  build_db_data lib data c = (inr tt, d', c, ev) ->
  bind_params expected_fields d' = inr row ->
  server row = None ->
  let '(r, c', ev') := store_sensor_data lib (pg_driver server) data c in
  r = inr tt /\
  c' = mkPg (committed c ++ [row]) [] false false /\
  ~ In CallRollback ev'.
Proof.
  intros Hc Hp Ha Hb Hrow Hok.
  destruct (@record_fields lib pg data c d' c ev Hb) as (Hall & _).
  assert (Hsub : forall f, in_list f expected_fields = true ->
             exists v, subscript f d' = inr v).
  { intros f Hf. specialize (Hall f Hf). unfold dict_mem in Hall.
    unfold subscript. destruct (dict_get f d'); [eauto | discriminate]. }
  destruct (Hsub "event_type" eq_refl) as (event_type & Het).
  destruct (Hsub "device_id" eq_refl) as (device_id & Hdi).
  rewrite store_sensor_data_run. unfold bind. rewrite Hb.
  rewrite insert_db_data_run. pg_step Hc.
  rewrite Hrow, Ha, Hok. pg_step Hc. rewrite Het, Hdi, Hp. simpl.
  split; [reflexivity|]. split; [reflexivity|].
  destruct (@build_db_data_quiet lib pg _ _ _ _ _ _ Hb) as (_ & Hev & _).
  intros Hin. apply in_app_or in Hin as [Hin|Hin].
  - rewrite Forall_forall in Hev. apply (Hev _ Hin).
  - simpl in Hin. repeat (destruct Hin as [Hin|Hin]; [discriminate Hin|]).
    contradiction.
Qed.

End Isolation.

(** C8, as the code has it.  When the body of the [try] raises - a
    [psycopg2.Error] of the insert, or anything else - the Writer logs
    the error and [db_data], then calls [rollback].  It returns to its
    caller when that call returns, and the connection is then in the
    state [rollback] leaves; an exception of [rollback] itself leaves
    [store_sensor_data].  On an open connection of the reference model
    [rollback] returns: every call of the Writer returns with no
    transaction open and none aborted, and the next record that is built
    and that the server takes is committed. *)
Theorem C8_failed_write_is_logged_and_rolled_back :
  (forall (lib : pylib) (C : Type) (drv : driver C)
          (data : dict) (c : C) e d1 c1 ev1,
      store_attempt lib drv data c = (inl e, d1, c1, ev1) ->
      store_sensor_data lib drv data c
      = (match fst (rollback drv c1) with
         | Some e' => inl e'
         | None => inr tt
         end,
         snd (rollback drv c1),
         ev1 ++ [Log ERROR (storing_failed e);
                 Log ERROR (Data_that_caused_error d1);
                 CallRollback])) /\
  (forall (lib : pylib) (server : list pyval -> option exn)
          (data : dict) (c : Reference.pg),
      Reference.closed c = false ->
      let '(r, c', ev) :=
        store_sensor_data lib (Reference.pg_driver server) data c in
      r = inr tt /\ Reference.closed c' = false /\
      Reference.pending c' = [] /\ Reference.aborted c' = false) /\
  (forall (lib : pylib) (server : list pyval -> option exn)
          (data : dict) (c : Reference.pg) d' ev row,
      Reference.closed c = false ->
      Reference.pending c = [] -> Reference.aborted c = false ->
      build_db_data lib data c = (inr tt, d', c, ev) ->
      Reference.bind_params expected_fields d' = inr row ->
      server row = None ->
      let '(r, c', ev') :=
        store_sensor_data lib (Reference.pg_driver server) data c in
      r = inr tt /\
      c' = Reference.mkPg (Reference.committed c ++ [row]) [] false false /\
      ~ In CallRollback ev').
Proof.
  split; [|split].
  - intros lib C drv data c e d1 c1 ev1 Hbody.
    rewrite store_sensor_data_run. unfold store_attempt in Hbody.
    rewrite Hbody. destruct (rollback drv c1) as [r c2]. reflexivity.
  - apply pg_store_leaves_clean.
  - apply pg_valid_record_is_committed.
Qed.

Lemma C8_witness :
  store_sensor_data Reference.lib
    (Reference.pg_driver Reference.time_not_null)
    [("device_id", PStr "d1")] Reference.fresh
  = (inr tt, Reference.fresh,
     [Log INFO (Storing (PStr "unknown") (PStr "d1") PNone PNone PNone PNone);
      CallCursor;
      CallExecute
        [("device_id", PStr "d1"); ("event_type", PStr "unknown");
         ("time", PNone); ("temperature", PNone); ("humidity", PNone);
         ("pressure", PNone); ("temp_sensor_type", PNone); ("motion", PNone);
         ("switch", PNone); ("version", PNone); ("uptime", PNone);
         ("wifi_rssi", PNone); ("uptime_seconds", PNone); ("fan_pwm", PNone);
         ("fans_active_level", PNone)];
      Log ERROR (Database_error_storing
                   (Raise IntegrityError
                      "null value in column time violates not-null constraint"));
      Log ERROR (Data_that_caused_error
        [("device_id", PStr "d1"); ("event_type", PStr "unknown");
         ("time", PNone); ("temperature", PNone); ("humidity", PNone);
         ("pressure", PNone); ("temp_sensor_type", PNone); ("motion", PNone);
         ("switch", PNone); ("version", PNone); ("uptime", PNone);
         ("wifi_rssi", PNone); ("uptime_seconds", PNone); ("fan_pwm", PNone);
         ("fans_active_level", PNone)]);
      CallRollback]).
Proof.
  rewrite (proj1 C8_failed_write_is_logged_and_rolled_back
             Reference.lib _ (Reference.pg_driver Reference.time_not_null)
             [("device_id", PStr "d1")] Reference.fresh
             (Raise IntegrityError
                "null value in column time violates not-null constraint")
             [("device_id", PStr "d1"); ("event_type", PStr "unknown");
              ("time", PNone); ("temperature", PNone); ("humidity", PNone);
              ("pressure", PNone); ("temp_sensor_type", PNone);
              ("motion", PNone); ("switch", PNone); ("version", PNone);
              ("uptime", PNone); ("wifi_rssi", PNone);
              ("uptime_seconds", PNone); ("fan_pwm", PNone);
              ("fans_active_level", PNone)]
             (Reference.mkPg [] [] true false)
             [Log INFO (Storing (PStr "unknown") (PStr "d1")
                          PNone PNone PNone PNone);
              CallCursor;
              CallExecute
                [("device_id", PStr "d1"); ("event_type", PStr "unknown");
                 ("time", PNone); ("temperature", PNone); ("humidity", PNone);
                 ("pressure", PNone); ("temp_sensor_type", PNone);
                 ("motion", PNone); ("switch", PNone); ("version", PNone);
                 ("uptime", PNone); ("wifi_rssi", PNone);
                 ("uptime_seconds", PNone); ("fan_pwm", PNone);
                 ("fans_active_level", PNone)]]
             eq_refl).
  reflexivity.
Defined.

(** On a connection that has been closed C8 as the specification states
    it fails:
    [cursor()] raises, the handler logs and calls [rollback], and
    [rollback] raises too - the Writer raises to its caller. *)
Lemma C8_counterexample :
  let '(r, c, ev) :=
    store_sensor_data Reference.lib
      (Reference.pg_driver Reference.any_row)
      [("device_id", PStr "d1")] Reference.closed_connection in
  r = inl Reference.connection_closed /\
  In CallRollback ev /\
  In (Log ERROR (Database_error_storing Reference.connection_closed)) ev.
Proof.
  vm_compute. split; [reflexivity|]. split.
  - do 4 right. left. reflexivity.
  - do 2 right. left. reflexivity.
Qed.

(* ===================================================================== *)
(** * Further consequences and runs *)
(* ===================================================================== *)

(** Whatever the library does: a message whose object has no [device_id]
    reaches the insert with [None] under [device_id]; the default of
    line 173 is lost. *)
Corollary absent_device_id_reaches_the_insert_as_None :
  forall (lib : pylib) (C : Type) (drv : driver C)
         (msg : mqtt_message) (c : C) (text : string) (data params : dict),
    bytes_decode lib (payload msg) = inr text ->
    load_message_json lib text = inr (PDict data) ->
    dict_get "device_id" data = None ->
    In (CallExecute params) (snd (on_message lib drv msg c)) ->
    dict_get "device_id" params = Some PNone.
Proof.
  intros lib C drv msg c text data params Hdec Hload Habs Hin.
  destruct (@executed_record_fields lib C drv msg c text data params
              Hdec Hload Hin) as (_ & Hnull & _).
  apply Hnull; [simpl; tauto | exact Habs | discriminate | discriminate].
Qed.

(** Whatever the library does: an infinite float under an integer field
    makes line 81 raise [OverflowError], which leaves the loop body with
    the dict unchanged and nothing logged. *)
Corollary infinity_leaves_the_coercion :
  forall (lib : pylib) (C : Type) (key : string) (d : dict) (c : C)
         (sign : bool),
    In key integer_fields ->
    dict_get key d = Some (PFloat (S754_infinity sign)) ->
    coerce_numeric lib key d c
    = (inl (Raise OverflowError "cannot convert float infinity to integer"),
       d, c, []).
Proof.
  intros lib C key d c sign Hkey Hv.
  rewrite (@coerce_numeric_run lib C key d c _ Hv) by discriminate.
  unfold converted. rewrite (in_list_In _ _ Hkey). reflexivity.
Qed.

(** 3.9 and "3.5" under two integer fields, end to end. *)
Example integer_fields_end_to_end :
  Reference.run "{'device_id':'d1','wifi_rssi':3.9,'fan_pwm':'3.5'}"
                Reference.fresh
  = (inr tt,
     Reference.mkPg
       [[PNone; PStr "d1"; PStr "unknown"; PNone; PNone; PNone; PNone;
         PNone; PNone; PNone; PNone; PInt 3; PNone; PNone; PNone]]
       [] false false,
     [Log INFO (Received_message "your_topic_prefix/d1"
        (Reference.dq "{'device_id':'d1','wifi_rssi':3.9,'fan_pwm':'3.5'}"));
      Log WARNING (Invalid_numeric_value "fan_pwm" (PStr "3.5"));
      Log INFO (Storing (PStr "unknown") (PStr "d1") PNone PNone
                        (PInt 3) PNone);
      CallCursor;
      CallExecute
        [("device_id", PStr "d1"); ("wifi_rssi", PInt 3); ("fan_pwm", PNone);
         ("event_type", PStr "unknown"); ("time", PNone);
         ("temperature", PNone); ("humidity", PNone); ("pressure", PNone);
         ("temp_sensor_type", PNone); ("motion", PNone); ("switch", PNone);
         ("version", PNone); ("uptime", PNone); ("uptime_seconds", PNone);
         ("fans_active_level", PNone)];
      CallCommit;
      Log INFO (Successfully_stored (PStr "unknown") (PStr "d1"))]).
Proof. vm_compute. reflexivity. Qed.

(** A write that the server refuses, then a valid one, on the same
    connection: the first is rolled back, the second is committed. *)
Example refused_write_then_valid_write :
  let server := Reference.pg_driver Reference.time_not_null in
  let '(_, c1, ev1) :=
    on_message Reference.lib server
      (Reference.message "{'device_id':'d1'}") Reference.fresh in
  let '(_, c2, ev2) :=
    on_message Reference.lib server
      (Reference.message
         "{'device_id':'d1','timestamp':'2025-04-21T17:21:47+02:00'}") c1 in
  c1 = Reference.fresh /\ In CallRollback ev1 /\
  ~ In CallRollback ev2 /\
  Reference.committed c2
  = [[PDatetime (mkDatetime 2025 4 21 17 21 47 0
                            (Some (FixedOffset 7200000000)));
      PStr "d1"; PStr "unknown"; PNone; PNone; PNone; PNone; PNone; PNone;
      PNone; PNone; PNone; PNone; PNone; PNone]].
Proof.
  vm_compute. repeat split.
  - do 6 right. left. reflexivity.
  - intros H. repeat (destruct H as [H|H]; [discriminate H|]). exact H.
Qed.
(* ===================================================================== *)
(** * Further properties of the code *)
(* ===================================================================== *)

(** ** The sample message, run *)

(** The sample message on the reference library and connection: its
    object, the record that reaches the insert, the row that is
    committed. *)
Example sample_run :
  Reference.json_loads (Reference.dq sample_text)
  = inr (PDict sample_object) /\
  Reference.run sample_text Reference.fresh
  = (inr tt,
     Reference.mkPg
       [[PStr "noon"; PStr "d1"; PNone;
         PFloat (S754_finite false 6051711999279104 (-48)); PNone; PNone;
         PNone; PStr "True"; PNone; PNone; PNone; PNone; PNone; PNone;
         PNone]]
       [] false false,
     [Log INFO (Received_message "your_topic_prefix/d1"
                  (Reference.dq sample_text));
      Log WARNING (Invalid_numeric_value "fan_pwm" (PStr "x"));
      Log INFO (Storing PNone (PStr "d1")
                  (PFloat (S754_finite false 6051711999279104 (-48)))
                  (PStr "True") PNone PNone);
      CallCursor;
      CallExecute sample_record;
      CallCommit;
      Log INFO (Successfully_stored PNone (PStr "d1"))]).
Proof. split; vm_compute; reflexivity. Qed.

(** ** The record that reaches the insert, from the JSON object *)

Section Inserted.

Variable lib : pylib.
Variable C : Type.
Variable drv : driver C.

(** A record reaches the insert only when lines 176-190 and lines
    69-114 have gone through, and it is what they built. *)
Lemma executed_built msg (c : C) text data params :
  bytes_decode lib (payload msg) = inr text ->
  load_message_json lib text = inr (PDict data) ->
  In (CallExecute params) (snd (on_message lib drv msg c)) ->
  exists data' ev,
    parse_timestamp lib data = inr data' /\
    build_db_data lib data' c = (inr tt, params, c, ev).
Proof.
  intros Hdec Hload Hin.
  destruct (@on_message_executes lib C drv msg c text data params
              Hdec Hload Hin) as (data' & Hts & Hex).
  destruct (@executed_record lib C drv data' c params Hex) as (ev & Hb).
  exists data', ev. auto.
Qed.

(** Lines 69-114 leave alone what is under a key that is neither a
    numeric nor a text field, [timestamp] apart; what is under [time]
    stays when there is no [timestamp]. *)
Lemma build_db_data_passes (data : dict) (c : C) d' c' ev k v :
  build_db_data lib data c = (inr tt, d', c', ev) ->
  dict_get k data = Some v ->
  ~ In k numeric_fields -> ~ In k text_fields -> k <> "timestamp" ->
  (k = "time" -> dict_get "timestamp" data = None) ->
  dict_get k d' = Some v.
Proof.
  intros Hb Hv Hnum Htxt Hstamp Htime.
  destruct (@build_db_data_returns lib C data c d' c' ev Hb)
    as (_ & _ & d3 & [_ Hkeep] & Hget).
  assert (Hk : in_list k (numeric_fields ++ text_fields) = false).
  { destruct (in_list k (numeric_fields ++ text_fields)) eqn:E; auto.
    unfold in_list in E. apply existsb_exists in E as (x & Hx & E).
    apply String.eqb_eq in E. subst x.
    apply in_app_or in Hx as [Hx|Hx]; contradiction. }
  assert (Hd3 : dict_get k d3 = Some v)
    by (rewrite (Hkeep k Hk), dict_get_setdefault, Hv; reflexivity).
  rewrite Hget, dict_get_renamed.
  apply String.eqb_neq in Hstamp. rewrite Hstamp.
  destruct (String.eqb k "time") eqn:E.
  - apply String.eqb_eq in E. specialize (Htime E).
    rewrite (Hkeep "timestamp") by reflexivity.
    rewrite dict_get_setdefault, Htime. simpl. rewrite Hd3. reflexivity.
  - destruct (dict_get "timestamp" d3); rewrite Hd3; reflexivity.
Qed.

Lemma integer_fields_are_numeric key :
  In key integer_fields -> In key numeric_fields.
Proof. simpl. intuition. Qed.

Lemma in_list_not_In (key : string) (fields : list string) :
  ~ In key fields -> in_list key fields = false.
Proof.
  intros Hnot. destruct (in_list key fields) eqn:E; auto.
  unfold in_list in E. apply existsb_exists in E as (x & Hx & E).
  apply String.eqb_eq in E. subst x. contradiction.
Qed.

(** [coerced] is [None] or a number of the type of the field. *)
Lemma coerced_typed key v :
  (in_list key integer_fields = true ->
   coerced lib key v = PNone \/ exists z, coerced lib key v = PInt z) /\
  (in_list key integer_fields = false ->
   coerced lib key v = PNone \/ exists f, coerced lib key v = PFloat f).
Proof.
  unfold coerced, converted. split; intros ->.
  - destruct (py_int lib v); eauto.
  - destruct (py_float lib v); eauto.
Qed.

Lemma as_text_typed v :
  as_text lib v = PNone \/ exists s, as_text lib v = PStr s.
Proof. destruct v; simpl; eauto. Qed.

End Inserted.

(** X1. For every message with a JSON object, the value bound to a numeric
    column at the insert is determined by the object's value under that
    key alone: [None] when the key is missing, and otherwise the result
    of [int] (for the four integer fields) or [float] (for the others) on
    it, or [None] when that conversion raised - which is also what a
    JSON null comes to. *)
Theorem numeric_field_at_the_insert :
  forall (lib : pylib) (C : Type) (drv : driver C)
         (msg : mqtt_message) (c : C) (text : string)
         (data params : dict) (key : string),
    bytes_decode lib (payload msg) = inr text ->
    load_message_json lib text = inr (PDict data) ->
    In (CallExecute params) (snd (on_message lib drv msg c)) ->
    In key numeric_fields ->
    dict_get key params
    = Some (match dict_get key data with
            | Some v => coerced lib key v
            | None => PNone
            end).
Proof.
  intros lib C drv msg c text data params key Hdec Hload Hin Hkey.
  destruct (@executed_built lib C drv msg c text data params Hdec Hload Hin)
    as (data' & ev & Hts & Hb).
  destruct (@build_db_data_outcome lib C data' c _ _ _ _ Hb)
    as (_ & Hnum & _).
  destruct (Hnum key Hkey) as (-> & _).
  destruct (@parse_timestamp_keys lib data data' Hts) as (Hsame & _).
  rewrite Hsame; [reflexivity|].
  intros ->. simpl in Hkey. intuition discriminate.
Qed.

Lemma numeric_field_at_the_insert_witness :
  dict_get "temperature" sample_record
  = Some (PFloat (S754_finite false 6051711999279104 (-48))) /\
  dict_get "fan_pwm" sample_record = Some PNone.
Proof.
  split.
  - refine (@numeric_field_at_the_insert
              Reference.lib _ (Reference.pg_driver Reference.any_row)
              (Reference.message sample_text) Reference.fresh
              (Reference.dq sample_text) sample_object sample_record
              "temperature" _ _ _ _).
    + reflexivity.
    + reflexivity.
    + vm_compute. do 4 right. left. reflexivity.
    + simpl. tauto.
  - refine (@numeric_field_at_the_insert
              Reference.lib _ (Reference.pg_driver Reference.any_row)
              (Reference.message sample_text) Reference.fresh
              (Reference.dq sample_text) sample_object sample_record
              "fan_pwm" _ _ _ _).
    + reflexivity.
    + reflexivity.
    + vm_compute. do 4 right. left. reflexivity.
    + simpl. tauto.
Defined.

(** X2. For every message with a JSON object, the value bound to a text
    column at the insert is [None] when the key is missing or null, and
    otherwise [str] of the object's value: a number or a boolean sent
    under [motion], [switch], [version], [uptime] or [temp_sensor_type]
    is stored as its text, never refused. *)
Theorem text_field_at_the_insert :
  forall (lib : pylib) (C : Type) (drv : driver C)
         (msg : mqtt_message) (c : C) (text : string)
         (data params : dict) (key : string),
    bytes_decode lib (payload msg) = inr text ->
    load_message_json lib text = inr (PDict data) ->
    In (CallExecute params) (snd (on_message lib drv msg c)) ->
    In key text_fields ->
    dict_get key params
    = Some (match dict_get key data with
            | Some v => as_text lib v
            | None => PNone
            end).
Proof.
  intros lib C drv msg c text data params key Hdec Hload Hin Hkey.
  destruct (@executed_built lib C drv msg c text data params Hdec Hload Hin)
    as (data' & ev & Hts & Hb).
  destruct (@build_db_data_outcome lib C data' c _ _ _ _ Hb)
    as (_ & _ & Htxt & _).
  rewrite (Htxt key Hkey).
  destruct (@parse_timestamp_keys lib data data' Hts) as (Hsame & _).
  rewrite Hsame; [reflexivity|].
  intros ->. simpl in Hkey. intuition discriminate.
Qed.

Lemma text_field_at_the_insert_witness :
  dict_get "motion" sample_record = Some (PStr "True") /\
  dict_get "version" sample_record = Some PNone.
Proof.
  split.
  - refine (@text_field_at_the_insert
              Reference.lib _ (Reference.pg_driver Reference.any_row)
              (Reference.message sample_text) Reference.fresh
              (Reference.dq sample_text) sample_object sample_record
              "motion" _ _ _ _).
    + reflexivity.
    + reflexivity.
    + vm_compute. do 4 right. left. reflexivity.
    + simpl. tauto.
  - refine (@text_field_at_the_insert
              Reference.lib _ (Reference.pg_driver Reference.any_row)
              (Reference.message sample_text) Reference.fresh
              (Reference.dq sample_text) sample_object sample_record
              "version" _ _ _ _).
    + reflexivity.
    + reflexivity.
    + vm_compute. do 4 right. left. reflexivity.
    + simpl. tauto.
Defined.

(** X3. Whatever the message holds, the twelve typed columns are bound to
    values of their type or to [None]: an integer field to an int, the
    other numeric fields to a float, a text field to a str.  Nothing of
    another type (a string under [temperature], a list under [motion])
    reaches the insert under these keys. *)
Theorem typed_columns_at_the_insert :
  forall (lib : pylib) (C : Type) (drv : driver C)
         (msg : mqtt_message) (c : C) (text : string) (data params : dict),
    bytes_decode lib (payload msg) = inr text ->
    load_message_json lib text = inr (PDict data) ->
    In (CallExecute params) (snd (on_message lib drv msg c)) ->
    (forall key, In key integer_fields ->
       dict_get key params = Some PNone \/
       exists z, dict_get key params = Some (PInt z)) /\
    (forall key, In key numeric_fields -> ~ In key integer_fields ->
       dict_get key params = Some PNone \/
       exists f, dict_get key params = Some (PFloat f)) /\
    (forall key, In key text_fields ->
       dict_get key params = Some PNone \/
       exists s, dict_get key params = Some (PStr s)).
Proof.
  intros lib C drv msg c text data params Hdec Hload Hin.
  destruct (@executed_built lib C drv msg c text data params Hdec Hload Hin)
    as (data' & ev & Hts & Hb).
  destruct (@build_db_data_outcome lib C data' c _ _ _ _ Hb)
    as (_ & Hnum & Htxt & _).
  split; [|split].
  - intros key Hkey.
    destruct (Hnum key (@integer_fields_are_numeric key Hkey)) as (-> & _).
    destruct (dict_get key data') as [v|]; [|auto].
    destruct (proj1 (@coerced_typed lib key v) (@in_list_In key integer_fields Hkey))
      as [->|(z & ->)]; eauto.
  - intros key Hkey Hnot.
    destruct (Hnum key Hkey) as (-> & _).
    destruct (dict_get key data') as [v|]; [|auto].
    destruct (proj2 (@coerced_typed lib key v) (@in_list_not_In key integer_fields Hnot))
      as [->|(f & ->)]; eauto.
  - intros key Hkey. rewrite (Htxt key Hkey).
    destruct (dict_get key data') as [v|]; [|auto].
    destruct (@as_text_typed lib v) as [->|(s & ->)]; eauto.
Qed.

Lemma typed_columns_at_the_insert_witness :
  (forall key, In key integer_fields ->
     dict_get key sample_record = Some PNone \/
     exists z, dict_get key sample_record = Some (PInt z)) /\
  (forall key, In key numeric_fields -> ~ In key integer_fields ->
     dict_get key sample_record = Some PNone \/
     exists f, dict_get key sample_record = Some (PFloat f)) /\
  (forall key, In key text_fields ->
     dict_get key sample_record = Some PNone \/
     exists s, dict_get key sample_record = Some (PStr s)).
Proof.
  refine (@typed_columns_at_the_insert
            Reference.lib _ (Reference.pg_driver Reference.any_row)
            (Reference.message sample_text) Reference.fresh
            (Reference.dq sample_text) sample_object sample_record
            _ _ _).
  - reflexivity.
  - reflexivity.
  - vm_compute. do 4 right. left. reflexivity.
Defined.

(** X4. What the object holds under any other key reaches the insert as it
    is: [device_id] and [event_type] (a JSON null under [event_type]
    stays null, the default of line 72 is for a missing key only), the
    keys outside the schema, and [time] itself when the object has no
    [timestamp] - a [time] sent by the device is not parsed. *)
Theorem other_keys_reach_the_insert_unchanged :
  forall (lib : pylib) (C : Type) (drv : driver C)
         (msg : mqtt_message) (c : C) (text : string)
         (data params : dict) (k : string) (v : pyval),
    bytes_decode lib (payload msg) = inr text ->
    load_message_json lib text = inr (PDict data) ->
    In (CallExecute params) (snd (on_message lib drv msg c)) ->
    dict_get k data = Some v ->
    ~ In k numeric_fields -> ~ In k text_fields -> k <> "timestamp" ->
    (k = "time" -> dict_get "timestamp" data = None) ->
    dict_get k params = Some v.
Proof.
  intros lib C drv msg c text data params k v Hdec Hload Hin Hv
         Hnum Htxt Hstamp Htime.
  destruct (@executed_built lib C drv msg c text data params Hdec Hload Hin)
    as (data' & ev & Hts & Hb).
  destruct (@parse_timestamp_keys lib data data' Hts) as (Hsame & Hnone).
  apply (@build_db_data_passes lib C data' c params c ev k v Hb); auto.
  rewrite (Hsame k Hstamp). exact Hv.
Qed.

Lemma other_keys_reach_the_insert_unchanged_witness :
  dict_get "event_type" sample_record = Some PNone /\
  dict_get "note" sample_record = Some (PStr "hi") /\
  dict_get "time" sample_record = Some (PStr "noon").
Proof.
  assert (Hrun : In (CallExecute sample_record)
                    (snd (on_message Reference.lib
                            (Reference.pg_driver Reference.any_row)
                            (Reference.message sample_text)
                            Reference.fresh)))
    by (vm_compute; do 4 right; left; reflexivity).
  split; [|split].
  - refine (@other_keys_reach_the_insert_unchanged
              Reference.lib _ (Reference.pg_driver Reference.any_row)
              (Reference.message sample_text) Reference.fresh
              (Reference.dq sample_text) sample_object sample_record
              "event_type" PNone eq_refl eq_refl Hrun eq_refl _ _ _ _).
    + simpl. intuition discriminate.
    + simpl. intuition discriminate.
    + discriminate.
    + discriminate.
  - refine (@other_keys_reach_the_insert_unchanged
              Reference.lib _ (Reference.pg_driver Reference.any_row)
              (Reference.message sample_text) Reference.fresh
              (Reference.dq sample_text) sample_object sample_record
              "note" (PStr "hi") eq_refl eq_refl Hrun eq_refl _ _ _ _).
    + simpl. intuition discriminate.
    + simpl. intuition discriminate.
    + discriminate.
    + discriminate.
  - refine (@other_keys_reach_the_insert_unchanged
              Reference.lib _ (Reference.pg_driver Reference.any_row)
              (Reference.message sample_text) Reference.fresh
              (Reference.dq sample_text) sample_object sample_record
              "time" (PStr "noon") eq_refl eq_refl Hrun eq_refl _ _ _ _).
    + simpl. intuition discriminate.
    + simpl. intuition discriminate.
    + discriminate.
    + intros _. reflexivity.
Defined.

(** ** store_sensor_data: what it logs and what it calls *)

Section Protocol.

Variable lib : pylib.
Variable C : Type.
Variable drv : driver C.

Lemma calls_app (ev ev' : list event) :
  calls (ev ++ ev') = calls ev ++ calls ev'.
Proof. apply filter_app. Qed.

Lemma calls_logs (ev : list event) : Forall is_log ev -> calls ev = [].
Proof.
  induction 1 as [|e ev He Hev IH]; [reflexivity|].
  destruct e; try contradiction. exact IH.
Qed.

Lemma in_list_true (key : string) (fields : list string) :
  in_list key fields = true -> In key fields.
Proof.
  unfold in_list. intros E. apply existsb_exists in E as (x & Hx & E).
  apply String.eqb_eq in E. subst x. exact Hx.
Qed.

Lemma in_calls (e : event) (ev : list event) :
  is_call e = true -> In e ev -> In e (calls ev).
Proof. intros He Hin. apply filter_In. auto. Qed.

(** The record that lines 69-114 build holds [event_type] and
    [device_id]: lines 112 and 134 raise no [KeyError]. *)
Lemma built_subscripts (data : dict) (c : C) d' c' ev :
  build_db_data lib data c = (inr tt, d', c', ev) ->
  exists event_type device_id,
    subscript "event_type" d' = inr event_type /\
    subscript "device_id" d' = inr device_id.
Proof.
  intros Hb.
  destruct (@build_db_data_outcome lib C data c _ _ _ _ Hb)
    as (_ & _ & _ & event_type & device_id & Het & Hdi & _).
  exists event_type, device_id. unfold subscript. rewrite Het, Hdi. auto.
Qed.

(** The calls that one run of the Writer makes on the connection. *)
Lemma store_sensor_data_calls (data : dict) (c : C) :
  calls (snd (store_sensor_data lib drv data c))
  = match build_db_data lib data c with
    | (inl _, _, _, _) => [CallRollback]
    | (inr _, d, _, _) =>
        match cursor drv c with
        | (Some _, _) => [CallCursor; CallRollback]
        | (None, c1) =>
            match execute drv d c1 with
            | (Some _, _) => [CallCursor; CallExecute d; CallRollback]
            | (None, c2) =>
                match commit drv c2 with
                | (Some _, _) =>
                    [CallCursor; CallExecute d; CallCommit; CallRollback]
                | (None, _) => [CallCursor; CallExecute d; CallCommit]
                end
            end
        end
    end.
Proof.
  rewrite store_sensor_data_run. unfold bind.
  destruct (build_db_data lib data c) as [[[[e|[]] d1] c1] ev1] eqn:Hb;
    destruct (@build_db_data_quiet lib C _ _ _ _ _ _ Hb) as (-> & Hev & _).
  - destruct (rollback drv c) as [r c2]. simpl.
    rewrite calls_app, (calls_logs Hev). reflexivity.
  - destruct (built_subscripts _ _ Hb)
      as (event_type & device_id & Het & Hdi).
    rewrite insert_db_data_run, Het, Hdi.
    destruct (cursor drv c) as [[e|] c1];
      [| destruct (execute drv d1 c1) as [[e|] c2];
         [| destruct (commit drv c2) as [[e|] c3]]];
      try (destruct (rollback drv _) as [r c']);
      simpl; rewrite ?calls_app, (calls_logs Hev); reflexivity.
Qed.

(** An exception leaves the conversion of lines 80-83 past line 84
    only as the [OverflowError] of [int] on an infinite float or of
    [float] on an integer beyond the range of a float. *)
Lemma uncaught_conversion key v e :
  converted lib key v = inl e -> caught e = false ->
  exn_cls e = OverflowError /\
  ((in_list key integer_fields = true /\
    exists sign, v = PFloat (S754_infinity sign)) \/
   (in_list key integer_fields = false /\
    exists z sign, v = PInt z /\ float_of_Z z = S754_infinity sign)).
Proof.
  unfold converted.
  destruct (in_list key integer_fields).
  - destruct v as [| | |f| | | |]; simpl;
      try (intros [= <-]; discriminate).
    + destruct f; simpl; try (intros [= <-]; discriminate).
      intros [= <-] _. split; [reflexivity|]. left. eauto.
    + destruct (int_of_str lib s); intros [= <-]; discriminate.
  - destruct v as [| |z| | | | |]; simpl;
      try (intros [= <-]; discriminate).
    + destruct (float_of_Z z) eqn:Hz; simpl;
        try (intros [= <-]; discriminate).
      intros [= <-] _. split; [reflexivity|]. right. eauto.
    + destruct (float_of_str lib s); intros [= <-]; discriminate.
Qed.

End Protocol.

(** X5. The calls of one run of [store_sensor_data] on the connection, in
    order: [cursor], then [execute] with the record that lines 69-114
    built, then [commit], each made only when the call before it
    returned; [rollback] is called exactly when one of them, or the
    building of the record, raised, and it is then the last call.  So a
    run makes at most one insert and never rolls back after a commit that
    returned. *)
Theorem calls_on_the_connection :
  forall (lib : pylib) (C : Type) (drv : driver C) (data : dict) (c : C),
    calls (snd (store_sensor_data lib drv data c))
    = match build_db_data lib data c with
      | (inl _, _, _, _) => [CallRollback]
      | (inr _, d, _, _) =>
          match cursor drv c with
          | (Some _, _) => [CallCursor; CallRollback]
          | (None, c1) =>
              match execute drv d c1 with
              | (Some _, _) => [CallCursor; CallExecute d; CallRollback]
              | (None, c2) =>
                  match commit drv c2 with
                  | (Some _, _) =>
                      [CallCursor; CallExecute d; CallCommit; CallRollback]
                  | (None, _) => [CallCursor; CallExecute d; CallCommit]
                  end
              end
          end
      end.
Proof. intros. apply store_sensor_data_calls. Qed.

(** X6. [store_sensor_data] asks the connection for a cursor exactly when no
    numeric field of the input holds a value whose conversion raises
    something other than [ValueError] and [TypeError]: apart from that
    every input, whatever its keys and values, is built into a record and
    taken to the database. *)
Theorem the_writer_reaches_the_database :
  forall (lib : pylib) (C : Type) (drv : driver C) (data : dict) (c : C),
    In CallCursor (snd (store_sensor_data lib drv data c)) <->
    (forall key v e,
        In key numeric_fields -> dict_get key data = Some v ->
        converted lib key v = inl e -> caught e = true).
Proof.
  intros lib C drv data c.
  pose proof (@store_sensor_data_calls lib C drv data c) as Hcalls.
  destruct (build_db_data lib data c) as [[[[e|[]] d1] c1] ev1] eqn:Hb;
    pose proof (@build_db_data_outcome lib C data c _ _ _ _ Hb) as Hout.
  - destruct Hout as (_ & (k & v & Hk & Hv & Hconv & Hcaught) & _). split.
    + intros Hin. apply (@in_calls CallCursor _ eq_refl) in Hin.
      rewrite Hcalls in Hin. destruct Hin as [Hin|[]]. discriminate Hin.
    + intros Hall. rewrite (Hall k v e Hk Hv Hconv) in Hcaught.
      discriminate Hcaught.
  - destruct Hout as (_ & Hnum & _). split.
    + intros _ key v e Hkey Hv Hconv.
      apply (proj2 (Hnum key Hkey) v e Hv Hconv).
    + intros _.
      assert (Hin : In CallCursor
                       (calls (snd (store_sensor_data lib drv data c)))).
      { rewrite Hcalls.
        destruct (cursor drv c) as [[e|] c2]; [left; reflexivity|].
        destruct (execute drv d1 c2) as [[e|] c3]; [left; reflexivity|].
        destruct (commit drv c3) as [[e|] c4]; left; reflexivity. }
      unfold calls in Hin. apply filter_In in Hin. apply Hin.
Qed.

(** X7. When a run of [store_sensor_data] does not reach the database, that
    is the work of an [OverflowError]: a numeric field holds an infinite
    float where an int is wanted, or an integer beyond the range of a float
    where a float is wanted; the run logs it as an unexpected error. *)
Theorem only_overflow_stops_the_writer :
  forall (lib : pylib) (C : Type) (drv : driver C) (data : dict) (c : C),
    ~ In CallCursor (snd (store_sensor_data lib drv data c)) ->
    exists key v e,
      In key numeric_fields /\ dict_get key data = Some v /\
      converted lib key v = inl e /\ exn_cls e = OverflowError /\
      ((In key integer_fields /\
        exists sign, v = PFloat (S754_infinity sign)) \/
       (~ In key integer_fields /\
        exists z sign, v = PInt z /\ float_of_Z z = S754_infinity sign)) /\
      In (Log ERROR (Unexpected_error_storing e))
         (snd (store_sensor_data lib drv data c)).
Proof.
  intros lib C drv data c Hnot.
  pose proof (@store_sensor_data_calls lib C drv data c) as Hcalls.
  pose proof (@store_sensor_data_run lib C drv data c) as Hrun.
  unfold bind in Hrun.
  destruct (build_db_data lib data c) as [[[[e|[]] d1] c1] ev1] eqn:Hb;
    pose proof (@build_db_data_outcome lib C data c _ _ _ _ Hb) as Hout.
  - destruct Hout as (_ & (k & v & Hk & Hv & Hconv & Hcaught) & _).
    destruct (@uncaught_conversion lib k v e Hconv Hcaught)
      as (Hcls & Hshape).
    exists k, v, e. repeat (split; [assumption|]). split.
    + destruct Hshape as [(Hint & Hinf)|(Hint & Hbig)].
      * left. split; [apply in_list_true, Hint | exact Hinf].
      * right. split; [apply not_in_list, Hint | exact Hbig].
    + rewrite Hrun. destruct (rollback drv c1) as [r c2]. simpl.
      apply in_or_app. right. left.
      unfold storing_failed, isinstance. rewrite Hcls. reflexivity.
  - exfalso. apply Hnot.
    assert (Hin : In CallCursor
                     (calls (snd (store_sensor_data lib drv data c)))).
    { rewrite Hcalls.
      destruct (cursor drv c) as [[e|] c2]; [left; reflexivity|].
      destruct (execute drv d1 c2) as [[e|] c3]; [left; reflexivity|].
      destruct (commit drv c3) as [[e|] c4]; left; reflexivity. }
    unfold calls in Hin. apply filter_In in Hin. apply Hin.
Qed.

Lemma only_overflow_stops_the_writer_witness :
  exists key v e,
    In key numeric_fields /\
    dict_get key [("device_id", PStr "d1");
                  ("wifi_rssi", PFloat (S754_infinity false))] = Some v /\
    converted Reference.lib key v = inl e /\ exn_cls e = OverflowError /\
    ((In key integer_fields /\
      exists sign, v = PFloat (S754_infinity sign)) \/
     (~ In key integer_fields /\
      exists z sign, v = PInt z /\ float_of_Z z = S754_infinity sign)) /\
    In (Log ERROR (Unexpected_error_storing e))
       (snd (store_sensor_data Reference.lib
               (Reference.pg_driver Reference.any_row)
               [("device_id", PStr "d1");
                ("wifi_rssi", PFloat (S754_infinity false))]
               Reference.fresh)).
Proof.
  apply only_overflow_stops_the_writer.
  vm_compute. intros H.
  repeat (destruct H as [H|H]; [discriminate H|]). exact H.
Defined.

(** ** The warnings of a record that is inserted *)

Section Warnings.

Variable lib : pylib.
Variable C : Type.
Variable drv : driver C.

(** When there is a warning for a field. *)
Lemma in_warning (data : dict) (k key : string) (v : pyval) :
  In (Log WARNING (Invalid_numeric_value key v)) (warning lib data k) <->
  k = key /\ dict_get key data = Some v /\ v <> PNone /\
  exists e, converted lib key v = inl e.
Proof.
  unfold warning. split.
  - destruct (dict_get k data) as [x|] eqn:Hx; [|intros []].
    assert (Hcase :
              In (Log WARNING (Invalid_numeric_value key v))
                 match converted lib k x with
                 | inl _ => [Log WARNING (Invalid_numeric_value k x)]
                 | inr _ => []
                 end ->
              x <> PNone ->
              k = key /\ dict_get key data = Some v /\ v <> PNone /\
              exists e, converted lib key v = inl e).
    { destruct (converted lib k x) as [e|y] eqn:Hconv; [|intros []].
      intros [[= <- <-]|[]] Hnone. eauto. }
    destruct x; try (intros Hin; apply Hcase; [exact Hin | discriminate]).
    intros [].
  - intros (-> & Hv & Hnone & e & Hconv). rewrite Hv, Hconv.
    destruct v; try contradiction; left; reflexivity.
Qed.

(** The warnings among the events of a run of the Writer on a record
    that it builds are those of the loop of lines 76-88. *)
Lemma store_sensor_data_warnings (data : dict) (c : C) d' c' evb key v :
  build_db_data lib data c = (inr tt, d', c', evb) ->
  In (Log WARNING (Invalid_numeric_value key v))
     (snd (store_sensor_data lib drv data c)) <->
  In (Log WARNING (Invalid_numeric_value key v))
     (flat_map (warning lib data) numeric_fields).
Proof.
  intros Hb.
  destruct (@build_db_data_outcome lib C data c _ _ _ _ Hb)
    as (-> & _ & _ & event_type & device_id & Het & Hdi & ->).
  rewrite store_sensor_data_run. unfold bind. rewrite Hb.
  rewrite insert_db_data_run.
  unfold subscript. rewrite Het, Hdi.
  set (ws := flat_map (warning lib data) numeric_fields).
  destruct (cursor drv c) as [[e|] c1];
    [| destruct (execute drv d' c1) as [[e|] c2];
       [| destruct (commit drv c2) as [[e|] c3]]];
    try (destruct (rollback drv _) as [r c4]);
    cbn [snd]; rewrite <- ?app_assoc; rewrite in_app_iff;
    (split; [intros [H|H]; [exact H | exfalso] | intros H; left; exact H]);
    simpl in H;
    repeat (destruct H as [H|H]; [discriminate H|]); exact H.
Qed.

End Warnings.

(** X8. For a record that reaches the insert the warnings are truthful: the
    run logs "Invalid numeric value for [key]: [v], setting to None"
    exactly when [key] is a numeric field under which the object holds
    [v], not null, and the conversion of [v] raised.  No field is nulled
    silently, and no warning is logged for a field that converts. *)
Theorem warnings_of_an_inserted_record :
  forall (lib : pylib) (C : Type) (drv : driver C)
         (msg : mqtt_message) (c : C) (text : string)
         (data params : dict) (key : string) (v : pyval),
    bytes_decode lib (payload msg) = inr text ->
    load_message_json lib text = inr (PDict data) ->
    In (CallExecute params) (snd (on_message lib drv msg c)) ->
    In (Log WARNING (Invalid_numeric_value key v))
       (snd (on_message lib drv msg c)) <->
    In key numeric_fields /\ dict_get key data = Some v /\ v <> PNone /\
    exists e, converted lib key v = inl e.
Proof.
  intros lib C drv msg c text data params key v Hdec Hload Hin.
  destruct (@executed_built lib C drv msg c text data params Hdec Hload Hin)
    as (data' & evb & Hts & Hb).
  destruct (@parse_timestamp_keys lib data data' Hts) as (Hsame & _).
  assert (Hstore :
            In (Log WARNING (Invalid_numeric_value key v))
               (snd (on_message lib drv msg c)) <->
            In (Log WARNING (Invalid_numeric_value key v))
               (snd (store_sensor_data lib drv data' c))).
  { rewrite (@on_message_stores lib C drv msg c text data data'
               Hdec Hload Hts).
    unfold after_store.
    destruct (store_sensor_data lib drv data' c) as [[[e|u] c1] ev1]; simpl.
    - rewrite in_app_iff. simpl. split.
      + intros [H|[H|[H|[H|[]]]]]; try discriminate H. exact H.
      + intros H. right. left. exact H.
    - split.
      + intros [H|H]; [discriminate H | exact H].
      + intros H. right. exact H. }
  rewrite Hstore.
  rewrite (@store_sensor_data_warnings lib C drv data' c _ _ _ key v Hb).
  rewrite in_flat_map. split.
  - intros (k & Hk & Hw). apply in_warning in Hw as (-> & Hv & Hnone & He).
    split; [exact Hk|]. split; [|auto].
    rewrite <- Hsame; [exact Hv|].
    intros ->. simpl in Hk. intuition discriminate.
  - intros (Hk & Hv & Hnone & He). exists key. split; [exact Hk|].
    apply in_warning. repeat split; auto.
    rewrite Hsame; [exact Hv|].
    intros ->. simpl in Hk. intuition discriminate.
Qed.

Lemma warnings_of_an_inserted_record_witness :
  In (Log WARNING (Invalid_numeric_value "fan_pwm" (PStr "x")))
     (snd (Reference.run sample_text Reference.fresh)) <->
  In "fan_pwm" numeric_fields /\
  dict_get "fan_pwm" sample_object = Some (PStr "x") /\
  PStr "x" <> PNone /\
  exists e, converted Reference.lib "fan_pwm" (PStr "x") = inl e.
Proof.
  refine (@warnings_of_an_inserted_record
            Reference.lib _ (Reference.pg_driver Reference.any_row)
            (Reference.message sample_text) Reference.fresh
            (Reference.dq sample_text) sample_object sample_record
            "fan_pwm" (PStr "x") _ _ _).
  - reflexivity.
  - reflexivity.
  - vm_compute. do 4 right. left. reflexivity.
Defined.

(** ** on_message: the messages that are dropped *)

(** X9. An exception leaves [on_message] exactly when the payload does not
    decode: then nothing but the error record is logged and the
    connection is not touched.  For every other payload the callback
    returns normally, whatever the parser, the timestamp and the database
    do, and its first record is the record of reception. *)
Theorem on_message_raises_only_on_an_undecodable_payload :
  forall (lib : pylib) (C : Type) (drv : driver C)
         (msg : mqtt_message) (c : C),
    match bytes_decode lib (payload msg) with
    | inr text =>
        exists c' ev,
          on_message lib drv msg c
          = (inr tt, c', Log INFO (Received_message (topic msg) text) :: ev)
    | inl e =>
        on_message lib drv msg c
        = (inl (Raise UnboundLocalError
                  "cannot access local variable 'message_text'"),
           c, [Log ERROR (reported e)])
    end.
Proof.
  intros lib C drv msg c.
  destruct (bytes_decode lib (payload msg)) as [e|text] eqn:Hdec.
  { apply on_message_undecodable, Hdec. }
  destruct (load_message_json lib text) as [e|v] eqn:Hload.
  { rewrite (@on_message_parse_error lib C drv msg c text e Hdec Hload).
    unfold dropped. eauto. }
  destruct (attr_get v) as [e|data] eqn:Hget.
  { rewrite (@on_message_not_a_dict lib C drv msg c text v e
               Hdec Hload Hget).
    unfold dropped. eauto. }
  assert (v = PDict data) as ->
      by (destruct v; simpl in Hget; congruence).
  destruct (parse_timestamp lib data) as [e|data'] eqn:Hts.
  { rewrite (@on_message_timestamp_error lib C drv msg c text data e
               Hdec Hload Hts).
    unfold dropped. eauto. }
  rewrite (@on_message_stores lib C drv msg c text data data'
             Hdec Hload Hts).
  unfold after_store.
  destruct (store_sensor_data lib drv data' c) as [[[e|u] c'] ev]; eauto.
Qed.

(** X10. JSON that is valid but is not an object - an array, a string, a
    number, true, false, null - is dropped at line 173: the
    [AttributeError] of [data.get] is logged with the raw message, the
    callback returns, and the connection is not touched. *)
Theorem json_that_is_not_an_object_is_dropped :
  forall (lib : pylib) (C : Type) (drv : driver C)
         (msg : mqtt_message) (c : C) (text : string) (v : pyval),
    bytes_decode lib (payload msg) = inr text ->
    load_message_json lib text = inr v ->
    (forall d, v <> PDict d) ->
    on_message lib drv msg c
    = (inr tt, c,
       [Log INFO (Received_message (topic msg) text);
        Log ERROR (Error_processing_message
                     (Raise AttributeError "object has no attribute 'get'"));
        Log ERROR (Raw_message text)]).
Proof.
  intros lib C drv msg c text v Hdec Hload Hnot.
  assert (Hget : attr_get v
                 = inl (Raise AttributeError "object has no attribute 'get'")).
  { destruct v; try reflexivity. destruct (Hnot d). reflexivity. }
  rewrite (@on_message_not_a_dict lib C drv msg c text v _ Hdec Hload Hget).
  reflexivity.
Qed.

Lemma json_that_is_not_an_object_is_dropped_witness :
  on_message Reference.lib (Reference.pg_driver Reference.any_row)
             (Reference.message "[1, 2]") Reference.fresh
  = (inr tt, Reference.fresh,
     [Log INFO (Received_message "your_topic_prefix/d1" "[1, 2]");
      Log ERROR (Error_processing_message
                   (Raise AttributeError "object has no attribute 'get'"));
      Log ERROR (Raw_message "[1, 2]")]).
Proof.
  refine (@json_that_is_not_an_object_is_dropped
            Reference.lib _ (Reference.pg_driver Reference.any_row)
            (Reference.message "[1, 2]") Reference.fresh
            "[1, 2]" (PList [PInt 1; PInt 2]) _ _ _).
  - reflexivity.
  - reflexivity.
  - discriminate.
Defined.

(** X11. A timestamp that is truthy but not a string - a number of seconds,
    true, a non-empty array or object - is not stored: line 178 raises
    [AttributeError], the message is logged as an error and dropped, and
    the connection is not touched. *)
Theorem timestamp_that_is_not_a_string_drops_the_message :
  forall (lib : pylib) (C : Type) (drv : driver C)
         (msg : mqtt_message) (c : C) (text : string)
         (data : dict) (ts : pyval),
    bytes_decode lib (payload msg) = inr text ->
    load_message_json lib text = inr (PDict data) ->
    dict_get "timestamp" data = Some ts ->
    truthy ts = true ->
    (forall s, ts <> PStr s) ->
    on_message lib drv msg c
    = (inr tt, c,
       [Log INFO (Received_message (topic msg) text);
        Log ERROR (Error_processing_message
                     (Raise AttributeError
                        "object has no attribute 'endswith'"));
        Log ERROR (Raw_message text)]).
Proof.
  intros lib C drv msg c text data ts Hdec Hload Hts Htruthy Hnot.
  assert (Hparse : parse_timestamp lib data
                   = inl (Raise AttributeError
                            "object has no attribute 'endswith'")).
  { unfold parse_timestamp. rewrite Hts, Htruthy.
    destruct ts; try reflexivity. destruct (Hnot s). reflexivity. }
  rewrite (@on_message_timestamp_error lib C drv msg c text data _
             Hdec Hload Hparse).
  reflexivity.
Qed.

Lemma timestamp_that_is_not_a_string_drops_the_message_witness :
  on_message Reference.lib (Reference.pg_driver Reference.any_row)
             (Reference.message "{'timestamp': 1745256107}") Reference.fresh
  = (inr tt, Reference.fresh,
     [Log INFO (Received_message "your_topic_prefix/d1"
                  (Reference.dq "{'timestamp': 1745256107}"));
      Log ERROR (Error_processing_message
                   (Raise AttributeError
                      "object has no attribute 'endswith'"));
      Log ERROR (Raw_message (Reference.dq "{'timestamp': 1745256107}"))]).
Proof.
  refine (@timestamp_that_is_not_a_string_drops_the_message
            Reference.lib _ (Reference.pg_driver Reference.any_row)
            (Reference.message "{'timestamp': 1745256107}") Reference.fresh
            (Reference.dq "{'timestamp': 1745256107}")
            [("timestamp", PInt 1745256107)] (PInt 1745256107) _ _ _ _ _).
  - reflexivity.
  - reflexivity.
  - reflexivity.
  - reflexivity.
  - discriminate.
Defined.

(** X12. A text that begins with an opening brace is handed to [json.loads]
    whole, whether or not the marker [MQTT event:] occurs in it: a JSON
    object that quotes the marker inside one of its strings is parsed as
    any other. *)
Theorem text_that_begins_with_a_brace_is_parsed_whole :
  forall (lib : pylib) (rest : string),
    load_message_json lib (String "{" rest)
    = json_loads lib (String "{" rest).
Proof.
  intros lib rest. unfold load_message_json.
  destruct (str_contains "MQTT event:" (String "{" rest)); [|reflexivity].
  assert (Hfind : str_find "{" (String "{" rest) = Some 0%nat).
  { unfold str_find. simpl. destruct rest; reflexivity. }
  rewrite Hfind. unfold str_from.
  rewrite Nat.sub_0_r. rewrite substring_all. reflexivity.
Qed.

(** ** get_db_connection: what the retries cost, and what they do not
       catch *)

Section Waiting.

Variable C : Type.
Variable attempts : nat -> result C.

Lemma slept_app (ev ev' : list event) :
  slept (ev ++ ev') = slept ev + slept ev'.
Proof.
  induction ev as [|e ev IH]; [reflexivity|].
  destruct e; simpl; rewrite IH; lia.
Qed.

(** The run of the loop over [n] attempts that raise
    [OperationalError]: what comes after them comes after their
    rounds. *)
Lemma get_db_connection_after_failures (n : nat) :
  forall (k fuel : nat),
    (forall j, (j < n)%nat ->
               exists e, attempts (k + j) = inl e /\
                         isinstance e OperationalError = true) ->
    get_db_connection attempts (n + fuel) k
    = (fst (get_db_connection attempts fuel (k + n)),
       retry_events attempts k n
       ++ snd (get_db_connection attempts fuel (k + n))).
Proof.
  induction n as [|n IH]; intros k fuel Hfail.
  - rewrite Nat.add_0_r. simpl.
    destruct (get_db_connection attempts fuel k). reflexivity.
  - destruct (Hfail 0%nat ltac:(lia)) as (e & He & Hop).
    rewrite Nat.add_0_r in He. simpl. rewrite He, Hop.
    rewrite (IH (S k) fuel).
    + replace (S k + n)%nat with (k + S n)%nat by lia. reflexivity.
    + intros j Hj. destruct (Hfail (S j) ltac:(lia)) as (e' & He' & Hop').
      exists e'. split; [|exact Hop'].
      rewrite <- He'. f_equal. lia.
Qed.

Lemma slept_retry_events (n : nat) :
  forall k,
    (forall j, (j < n)%nat -> exists e, attempts (k + j) = inl e) ->
    slept (retry_events attempts k n) = 5 * Z.of_nat n.
Proof.
  induction n as [|n IH]; intros k Hfail; [reflexivity|].
  destruct (Hfail 0%nat ltac:(lia)) as (e & He).
  rewrite Nat.add_0_r in He.
  cbn [retry_events]. rewrite He, slept_app.
  rewrite (IH (S k)).
  - unfold retry_round. cbn [slept]. lia.
  - intros j Hj. destruct (Hfail (S j) ltac:(lia)) as (e' & He').
    exists e'. rewrite <- He'. f_equal. lia.
Qed.

End Waiting.

(** X13. The retry is for [psycopg2.OperationalError] alone.  When an attempt
    raises anything else - after any number of attempts that failed
    with [OperationalError] - that exception leaves [get_db_connection] at
    once: it is not logged, the loop does not sleep and does not try
    again. *)
Theorem other_errors_leave_get_db_connection :
  forall (C : Type) (attempts : nat -> result C) (n fuel : nat) (e : exn),
    (forall j, (j < n)%nat ->
               exists e', attempts j = inl e' /\
                          isinstance e' OperationalError = true) ->
    attempts n = inl e ->
    isinstance e OperationalError = false ->
    get_db_connection attempts (n + S fuel) 0
    = (Raised e, retry_events attempts 0 n).
Proof.
  intros C attempts n fuel e Hfail He Hother.
  rewrite (@get_db_connection_after_failures C attempts n 0 (S fuel) Hfail).
  simpl. rewrite He, Hother. simpl. rewrite app_nil_r. reflexivity.
Qed.

Lemma other_errors_leave_get_db_connection_witness :
  get_db_connection
    (fun k : nat =>
       match k with
       | 0%nat =>
           inl (Raise OperationalError "could not connect to server")
       | _ => inl (Raise ProgrammingError "invalid dsn")
       end : result Reference.pg) 2 0
  = (Raised (Raise ProgrammingError "invalid dsn"),
     [Log ERROR (Could_not_connect
                   (Raise OperationalError "could not connect to server"));
      Log INFO Retrying_in_5_seconds;
      Sleep 5]).
Proof.
  refine (@other_errors_leave_get_db_connection
            Reference.pg _ 1%nat 0%nat
            (Raise ProgrammingError "invalid dsn") _ _ _).
  - intros j Hj. assert (j = 0%nat) as -> by lia.
    eexists. split; reflexivity.
  - reflexivity.
  - reflexivity.
Defined.

(** X14. The wait does not grow: when the connection is made at the attempt
    after [n] failed ones, [get_db_connection] has slept [5 * n] seconds
    in all, five after each failure, and returns that connection. *)
Theorem get_db_connection_sleeps_five_seconds_per_failure :
  forall (C : Type) (attempts : nat -> result C) (n fuel : nat) (conn : C),
    (forall j, (j < n)%nat ->
               exists e, attempts j = inl e /\
                         isinstance e OperationalError = true) ->
    attempts n = inr conn ->
    fst (get_db_connection attempts (n + S fuel) 0) = Returned conn /\
    slept (snd (get_db_connection attempts (n + S fuel) 0))
    = 5 * Z.of_nat n.
Proof.
  intros C attempts n fuel conn Hfail Hok.
  rewrite (@get_db_connection_after_failures C attempts n 0 (S fuel) Hfail).
  cbn [get_db_connection Nat.add]. rewrite Hok. cbn [fst snd].
  split; [reflexivity|].
  rewrite slept_app, (@slept_retry_events C attempts n 0).
  - cbn [slept]. lia.
  - intros j Hj. destruct (Hfail j Hj) as (e & He & _). eauto.
Qed.

Lemma get_db_connection_sleeps_five_seconds_per_failure_witness :
  fst (get_db_connection Reference.third_time_lucky 3 0)
  = Returned Reference.fresh /\
  slept (snd (get_db_connection Reference.third_time_lucky 3 0)) = 10.
Proof.
  refine (@get_db_connection_sleeps_five_seconds_per_failure
            Reference.pg Reference.third_time_lucky 2%nat 0%nat
            Reference.fresh _ _).
  - intros j Hj. destruct j as [|[|j]]; [| |lia];
      eexists; split; reflexivity.
  - reflexivity.
Defined.

(** ** The rows of the reference connection *)

Section Rows.

Import Reference.

Variable lib : pylib.
Variable server : list pyval -> option exn.

Lemma clean_mk (rows : list (list pyval)) : clean (mkPg rows [] false false).
Proof. repeat split. Qed.

Ltac pg_run Hc :=
  repeat (cbn [cursor execute commit rollback pg_driver
               closed aborted pending committed fst snd];
          rewrite ?Hc).

Ltac no_success Hws Hin :=
  rewrite ?in_app_iff in Hin; simpl in Hin;
  repeat (destruct Hin as [Hin|Hin]);
  first [discriminate Hin | exact Hin | apply (Hws _ _ Hin)].

(** What a run of the Writer does to the rows, on a connection with no
    transaction in progress. *)
Lemma pg_store_rows (data : dict) (c : pg) :
  clean c ->
  let '(r, c', ev) := store_sensor_data lib (pg_driver server) data c in
  r = inr tt /\ clean c' /\
  ((committed c' = committed c /\
    forall event_type device_id,
      ~ In (Log INFO (Successfully_stored event_type device_id)) ev) \/
   (exists params row event_type device_id,
       In (CallExecute params) ev /\
       bind_params expected_fields params = inr row /\
       server row = None /\
       committed c' = committed c ++ [row] /\
       In (Log INFO (Successfully_stored event_type device_id)) ev)).
Proof.
  intros Hclean. pose proof Hclean as (Hc & Ha & Hp).
  rewrite store_sensor_data_run. unfold bind.
  destruct (build_db_data lib data c) as [[[[e|[]] d1] c1] ev1] eqn:Hb;
    pose proof (@build_db_data_outcome lib pg data c _ _ _ _ Hb) as Hout.
  - destruct Hout as (-> & _ & Hwarn).
    pg_run Hc. split; [reflexivity|]. split; [apply clean_mk|].
    left. split; [reflexivity|].
    intros event_type device_id Hin.
    apply in_app_or in Hin as [Hin|Hin].
    + destruct (Hwarn _ Hin) as (k & v & [=]).
    + simpl in Hin.
      repeat (destruct Hin as [Hin|Hin]; [discriminate Hin|]). exact Hin.
  - destruct Hout
      as (-> & _ & _ & event_type & device_id & Het & Hdi & ->).
    set (ws := flat_map (warning lib data) numeric_fields).
    assert (Hws : forall et di,
               ~ In (Log INFO (Successfully_stored et di)) ws).
    { intros et di Hin. unfold ws in Hin.
      apply in_flat_map in Hin as (k & _ & Hin).
      unfold warning in Hin.
      destruct (dict_get k data) as [v|]; [|exact Hin].
      destruct v; try exact Hin;
        destruct (converted lib k _); try exact Hin;
        destruct Hin as [Hin|Hin]; try discriminate Hin; exact Hin. }
    clearbody ws.
    rewrite insert_db_data_run. unfold subscript. rewrite Het, Hdi.
    pg_run Hc.
    destruct (bind_params expected_fields d1) as [e|row] eqn:Hrow.
    { pg_run Hc. split; [reflexivity|]. split; [apply clean_mk|].
      left. split; [reflexivity|]. intros et di Hin. no_success Hws Hin. }
    rewrite Ha.
    destruct (server row) as [e|] eqn:Hserver.
    { pg_run Hc. split; [reflexivity|]. split; [apply clean_mk|].
      left. split; [reflexivity|]. intros et di Hin. no_success Hws Hin. }
    pg_run Hc. rewrite Hp. simpl.
    split; [reflexivity|]. split; [apply clean_mk|].
    right. exists d1, row, event_type, device_id.
    split; [apply in_or_app; right; simpl; auto|].
    split; [exact Hrow|]. split; [exact Hserver|].
    split; [reflexivity|].
    apply in_or_app. right. simpl. auto.
Qed.

(** The same, for the callback. *)
Lemma pg_message_rows (msg : mqtt_message) (c : pg) :
  clean c ->
  let '(r, c', ev) := on_message lib (pg_driver server) msg c in
  clean c' /\
  ((committed c' = committed c /\
    forall event_type device_id,
      ~ In (Log INFO (Successfully_stored event_type device_id)) ev) \/
   (exists params row event_type device_id,
       In (CallExecute params) ev /\
       bind_params expected_fields params = inr row /\
       server row = None /\
       committed c' = committed c ++ [row] /\
       In (Log INFO (Successfully_stored event_type device_id)) ev)).
Proof.
  intros Hclean.
  assert (Hdropped : forall text e,
             forall et di,
               ~ In (Log INFO (Successfully_stored et di))
                    (dropped msg text e)).
  { intros text e et di Hin. unfold dropped, reported in Hin.
    destruct (isinstance e JSONDecodeError); simpl in Hin;
      repeat (destruct Hin as [Hin|Hin]; [discriminate Hin|]); exact Hin. }
  destruct (bytes_decode lib (payload msg)) as [e|text] eqn:Hdec.
  { rewrite (@on_message_undecodable lib pg (pg_driver server) msg c e Hdec).
    split; [exact Hclean|]. left. split; [reflexivity|].
    intros et di Hin. unfold reported in Hin.
    destruct (isinstance e JSONDecodeError); simpl in Hin;
      repeat (destruct Hin as [Hin|Hin]; [discriminate Hin|]); exact Hin. }
  destruct (load_message_json lib text) as [e|v] eqn:Hload.
  { rewrite (@on_message_parse_error lib pg (pg_driver server) msg c text e
               Hdec Hload).
    split; [exact Hclean|]. left. split; [reflexivity | apply Hdropped]. }
  destruct (attr_get v) as [e|data] eqn:Hget.
  { rewrite (@on_message_not_a_dict lib pg (pg_driver server) msg c text v e
               Hdec Hload Hget).
    split; [exact Hclean|]. left. split; [reflexivity | apply Hdropped]. }
  assert (v = PDict data) as ->
      by (destruct v; simpl in Hget; congruence).
  destruct (parse_timestamp lib data) as [e|data'] eqn:Hts.
  { rewrite (@on_message_timestamp_error lib pg (pg_driver server) msg c
               text data e Hdec Hload Hts).
    split; [exact Hclean|]. left. split; [reflexivity | apply Hdropped]. }
  rewrite (@on_message_stores lib pg (pg_driver server) msg c text data data'
             Hdec Hload Hts).
  pose proof (pg_store_rows data' Hclean) as Hstore.
  destruct (store_sensor_data lib (pg_driver server) data' c)
    as [[r c'] ev].
  destruct Hstore as (-> & Hclean' & Hrows). simpl.
  split; [exact Hclean'|].
  destruct Hrows as [(Hsame & Hnone)|
                     (params & row & et & di & Hex & Hrow & Hok & Hadd & Hlog)].
  - left. split; [exact Hsame|].
    intros et di [Hin|Hin]; [discriminate Hin | apply (Hnone et di Hin)].
  - right. exists params, row, et, di. simpl. auto 10.
Qed.

End Rows.

(** X15. On the reference connection with no transaction in progress, one
    call of [on_message] - whatever the payload, the library and the
    server do - leaves the connection with no transaction in progress,
    and either leaves the committed rows as they were or adds one row at
    the end: the row bound from the record that was executed, which the
    server took.  The record "Successfully stored" is logged in the second
    case and only then: the log does not claim a row that is not there. *)
Theorem one_message_adds_at_most_one_row :
  forall (lib : pylib) (server : list pyval -> option exn)
         (msg : mqtt_message) (c : Reference.pg),
    clean c ->
    let '(r, c', ev) := on_message lib (Reference.pg_driver server) msg c in
    clean c' /\
    ((Reference.committed c' = Reference.committed c /\
      forall event_type device_id,
        ~ In (Log INFO (Successfully_stored event_type device_id)) ev) \/
     (exists params row event_type device_id,
         In (CallExecute params) ev /\
         Reference.bind_params expected_fields params = inr row /\
         server row = None /\
         Reference.committed c' = Reference.committed c ++ [row] /\
         In (Log INFO (Successfully_stored event_type device_id)) ev)).
Proof. intros lib server msg c. apply pg_message_rows. Qed.

Lemma one_message_adds_at_most_one_row_witness :
  let '(r, c', ev) :=
    on_message Reference.lib (Reference.pg_driver Reference.any_row)
               (Reference.message sample_text) Reference.fresh in
  clean c' /\
  ((Reference.committed c' = Reference.committed Reference.fresh /\
    forall event_type device_id,
      ~ In (Log INFO (Successfully_stored event_type device_id)) ev) \/
   (exists params row event_type device_id,
       In (CallExecute params) ev /\
       Reference.bind_params expected_fields params = inr row /\
       Reference.any_row row = None /\
       Reference.committed c'
       = Reference.committed Reference.fresh ++ [row] /\
       In (Log INFO (Successfully_stored event_type device_id)) ev)).
Proof.
  refine (@one_message_adds_at_most_one_row
            Reference.lib Reference.any_row
            (Reference.message sample_text) Reference.fresh _).
  repeat split.
Defined.

(** ** The client loop on the reference connection *)

Section Loop.

Import Reference.

Variable lib : pylib.

(** The loop stops at the first payload that does not decode, and
    line 249 closes the connection: what follows is not handled. *)
Lemma deliver_stops {C} (drv : driver C) (close : C -> C)
      (before : list mqtt_message) (bad : mqtt_message)
      (rest : list mqtt_message) (e : exn) :
  (forall m, In m before ->
             exists text, bytes_decode lib (payload m) = inr text) ->
  bytes_decode lib (payload bad) = inl e ->
  forall c,
    deliver lib drv close (before ++ bad :: rest) c
    = close (deliver lib drv close before c).
Proof.
  intros Hbefore Hbad.
  induction before as [|m before IH]; intros c; cbn [deliver app].
  - rewrite (@on_message_undecodable lib C drv bad c e Hbad). reflexivity.
  - destruct (Hbefore m (or_introl eq_refl)) as (text & Hm).
    pose proof (@on_message_decoded_returns lib C drv m c text Hm) as Hret.
    destruct (on_message lib drv m c) as [[r c'] ev]. simpl in Hret.
    subst r. apply IH. intros m' Hm'. apply Hbefore. right. exact Hm'.
Qed.

Variable server : list pyval -> option exn.

(** The rows after the loop has handled [msgs]. *)
Lemma pg_deliver_rows (msgs : list mqtt_message) :
  forall c : pg,
    clean c ->
    let c' := deliver lib (pg_driver server) pg_close msgs c in
    pending c' = [] /\ aborted c' = false /\
    (closed c' = true <->
     exists msg e, In msg msgs /\ bytes_decode lib (payload msg) = inl e) /\
    exists rows,
      committed c' = committed c ++ rows /\
      (List.length rows <= List.length msgs)%nat /\
      Forall (fun row => server row = None) rows.
Proof.
  induction msgs as [|msg msgs IH]; intros c Hclean; cbv zeta.
  - destruct Hclean as (Hc & Ha & Hp). cbn [deliver].
    split; [exact Hp|]. split; [exact Ha|]. split.
    + rewrite Hc. split; [discriminate | intros (m & e & [] & _)].
    + exists []. rewrite app_nil_r. auto.
  - cbn [deliver].
    destruct (bytes_decode lib (payload msg)) as [e|text] eqn:Hdec.
    + rewrite (@on_message_undecodable lib pg (pg_driver server) msg c e
                 Hdec).
      destruct Hclean as (Hc & Ha & Hp). unfold pg_close. rewrite Hc.
      cbn [pending aborted closed committed].
      split; [reflexivity|]. split; [reflexivity|]. split.
      * split; [|reflexivity]. intros _. exists msg, e. simpl. auto.
      * exists []. rewrite app_nil_r. simpl. split; [reflexivity|].
        split; [lia | constructor].
    + pose proof (@pg_message_rows lib server msg c Hclean) as Hstep.
      pose proof (@on_message_decoded_returns lib pg (pg_driver server)
                    msg c text Hdec) as Hret.
      destruct (on_message lib (pg_driver server) msg c) as [[r c1] ev].
      simpl in Hret. subst r. destruct Hstep as (Hclean1 & Hrows).
      destruct (IH c1 Hclean1)
        as (Hp & Ha & Hclosed & rows & Heq & Hlen & Hall).
      split; [exact Hp|]. split; [exact Ha|]. split.
      * rewrite Hclosed. split.
        -- intros (m & e & Hm & He). exists m, e. simpl. auto.
        -- intros (m & e & [<-|Hm] & He); [congruence|]. eauto.
      * destruct Hrows as [(Hsame & _)|
                           (params & row & et & di & _ & _ & Hok & Hadd & _)].
        -- exists rows. rewrite Heq, Hsame. simpl. auto.
        -- exists (row :: rows). rewrite Heq, Hadd, <- app_assoc. simpl.
           split; [reflexivity|]. split; [lia|]. constructor; assumption.
Qed.

End Loop.

(** X16. Over any sequence of messages that the client loop hands to
    [on_message] on the reference connection, starting with no
    transaction in progress: rows that are committed stay committed, in
    place; the rows added are rows that the server took, at most one for
    each message; and no transaction is left in progress.  A message
    that decodes never ends the loop, whatever else fails in it; the
    first payload that does not decode ends it: the exception leaves the
    callback, the connection is closed (lines 247-249), and the messages
    that follow are not handled. *)
Theorem committed_rows_only_grow :
  forall (lib : pylib) (server : list pyval -> option exn)
         (msgs : list mqtt_message) (c : Reference.pg),
    clean c ->
    let c' := deliver lib (Reference.pg_driver server) pg_close msgs c in
    Reference.pending c' = [] /\ Reference.aborted c' = false /\
    (Reference.closed c' = true <->
     exists msg e, In msg msgs /\ bytes_decode lib (payload msg) = inl e) /\
    (exists rows,
        Reference.committed c' = Reference.committed c ++ rows /\
        (List.length rows <= List.length msgs)%nat /\
        Forall (fun row => server row = None) rows) /\
    (forall before bad rest e,
        msgs = before ++ bad :: rest ->
        (forall m, In m before ->
                   exists text, bytes_decode lib (payload m) = inr text) ->
        bytes_decode lib (payload bad) = inl e ->
        c' = pg_close
               (deliver lib (Reference.pg_driver server) pg_close before c)).
Proof.
  intros lib server msgs c Hclean. cbv zeta.
  destruct (@pg_deliver_rows lib server msgs c Hclean)
    as (Hp & Ha & Hclosed & Hrows).
  split; [exact Hp|]. split; [exact Ha|]. split; [exact Hclosed|].
  split; [exact Hrows|].
  intros before bad rest e -> Hbefore Hbad.
  apply (@deliver_stops lib Reference.pg (Reference.pg_driver server)
           pg_close before bad rest e Hbefore Hbad).
Qed.

(** The sample message, an array, a payload that is not UTF-8, and one
    more message: the loop ends at the third, and the fourth is not
    stored. *)
Lemma committed_rows_only_grow_witness :
  deliver Reference.lib (Reference.pg_driver Reference.any_row) pg_close
          [Reference.message sample_text;
           Reference.message "[1, 2]";
           {| topic := "your_topic_prefix/d1"; payload := [xff] |};
           Reference.message "{'device_id':'d2'}"]
          Reference.fresh
  = pg_close
      (deliver Reference.lib (Reference.pg_driver Reference.any_row) pg_close
               [Reference.message sample_text; Reference.message "[1, 2]"]
               Reference.fresh).
Proof.
  refine (proj2 (proj2 (proj2 (proj2
            (@committed_rows_only_grow
               Reference.lib Reference.any_row
               [Reference.message sample_text;
                Reference.message "[1, 2]";
                {| topic := "your_topic_prefix/d1"; payload := [xff] |};
                Reference.message "{'device_id':'d2'}"]
               Reference.fresh _))))
            [Reference.message sample_text; Reference.message "[1, 2]"]
            {| topic := "your_topic_prefix/d1"; payload := [xff] |}
            [Reference.message "{'device_id':'d2'}"]
            (Raise UnicodeDecodeError "'utf-8' codec can't decode byte")
            _ _ _).
  - repeat split.
  - reflexivity.
  - intros m [<-|[<-|[]]]; eexists; reflexivity.
  - reflexivity.
Defined.

(** That run, computed: one row, and a closed connection. *)
Example loop_ends_at_the_undecodable_payload :
  deliver Reference.lib (Reference.pg_driver Reference.any_row) pg_close
          [Reference.message sample_text;
           Reference.message "[1, 2]";
           {| topic := "your_topic_prefix/d1"; payload := [xff] |};
           Reference.message "{'device_id':'d2'}"]
          Reference.fresh
  = Reference.mkPg
      [[PStr "noon"; PStr "d1"; PNone;
        PFloat (S754_finite false 6051711999279104 (-48)); PNone; PNone;
        PNone; PStr "True"; PNone; PNone; PNone; PNone; PNone; PNone;
        PNone]]
      [] false true.
Proof. vm_compute. reflexivity. Qed.

(** ** A connection that has been closed *)

Section Closed.

Import Reference.

Variable lib : pylib.
Variable server : list pyval -> option exn.

(** On a closed connection the Writer gets no further than [cursor]:
    [rollback] raises in its turn, and the connection stays as it is. *)
Lemma pg_closed_store (data : dict) (c : pg) :
  closed c = true ->
  exists ev,
    store_sensor_data lib (pg_driver server) data c
    = (inl connection_closed, c, ev) /\
    forall params, ~ In (CallExecute params) ev.
Proof.
  intros Hc. rewrite store_sensor_data_run. unfold bind.
  destruct (build_db_data lib data c) as [[[[e|[]] d1] c1] ev1] eqn:Hb;
    destruct (@build_db_data_quiet lib pg _ _ _ _ _ _ Hb) as (-> & Hev & _).
  - cbn [rollback pg_driver]. rewrite Hc. eexists. split; [reflexivity|].
    intros params Hin. apply (@in_after_logs _ _ _ Hev) in Hin; [|auto].
    simpl in Hin. repeat (destruct Hin as [Hin|Hin]; [discriminate Hin|]).
    exact Hin.
  - rewrite insert_db_data_run. cbn [cursor rollback pg_driver].
    rewrite Hc. cbn [rollback pg_driver]. rewrite Hc.
    eexists. split; [reflexivity|].
    intros params Hin. rewrite <- app_assoc in Hin.
    apply (@in_after_logs _ _ _ Hev) in Hin; [|auto].
    simpl in Hin. repeat (destruct Hin as [Hin|Hin]; [discriminate Hin|]).
    exact Hin.
Qed.

Lemma pg_closed_message (msg : mqtt_message) (c : pg) :
  closed c = true ->
  snd (fst (on_message lib (pg_driver server) msg c)) = c /\
  forall params,
    ~ In (CallExecute params) (snd (on_message lib (pg_driver server) msg c)).
Proof.
  intros Hc.
  assert (Hdropped : forall text e params,
             ~ In (CallExecute params) (dropped msg text e)).
  { intros text e params Hin. unfold dropped in Hin. simpl in Hin.
    repeat (destruct Hin as [Hin|Hin]; [discriminate Hin|]). exact Hin. }
  destruct (bytes_decode lib (payload msg)) as [e|text] eqn:Hdec.
  { rewrite (@on_message_undecodable lib pg (pg_driver server) msg c e Hdec).
    split; [reflexivity|]. intros params [Hin|[]]. discriminate Hin. }
  destruct (load_message_json lib text) as [e|v] eqn:Hload.
  { rewrite (@on_message_parse_error lib pg (pg_driver server) msg c text e
               Hdec Hload).
    split; [reflexivity | apply Hdropped]. }
  destruct (attr_get v) as [e|data] eqn:Hget.
  { rewrite (@on_message_not_a_dict lib pg (pg_driver server) msg c text v e
               Hdec Hload Hget).
    split; [reflexivity | apply Hdropped]. }
  assert (v = PDict data) as ->
      by (destruct v; simpl in Hget; congruence).
  destruct (parse_timestamp lib data) as [e|data'] eqn:Hts.
  { rewrite (@on_message_timestamp_error lib pg (pg_driver server) msg c
               text data e Hdec Hload Hts).
    split; [reflexivity | apply Hdropped]. }
  rewrite (@on_message_stores lib pg (pg_driver server) msg c text data data'
             Hdec Hload Hts).
  destruct (@pg_closed_store data' c Hc) as (ev & -> & Hnone).
  simpl. split; [reflexivity|].
  intros params [Hin|Hin]; [discriminate Hin|].
  apply in_app_or in Hin as [Hin|Hin]; [apply (Hnone params Hin)|].
  simpl in Hin. repeat (destruct Hin as [Hin|Hin]; [discriminate Hin|]).
  exact Hin.
Qed.

End Closed.

(** X17. The connection is made once (line 216) and never again: once the
    reference connection is closed, no call of [on_message] reaches the
    insert or changes the connection, whatever the message, and so it
    is after any sequence of messages - every later record is lost. *)
Theorem a_closed_connection_stays_closed :
  forall (lib : pylib) (server : list pyval -> option exn)
         (c : Reference.pg),
    Reference.closed c = true ->
    (forall msg,
        snd (fst (on_message lib (Reference.pg_driver server) msg c)) = c /\
        forall params,
          ~ In (CallExecute params)
               (snd (on_message lib (Reference.pg_driver server) msg c))) /\
    forall msgs,
      deliver lib (Reference.pg_driver server) pg_close msgs c = c.
Proof.
  intros lib server c Hc. split.
  - intros msg. apply pg_closed_message, Hc.
  - intros msgs. induction msgs as [|msg msgs IH]; [reflexivity|].
    cbn [deliver].
    pose proof (proj1 (@pg_closed_message lib server msg c Hc)) as Hsame.
    destruct (on_message lib (Reference.pg_driver server) msg c)
      as [[[e|u] c'] ev]; simpl in Hsame; subst c'.
    + unfold pg_close. rewrite Hc. reflexivity.
    + exact IH.
Qed.

Lemma a_closed_connection_stays_closed_witness :
  (forall msg,
      snd (fst (on_message Reference.lib
                  (Reference.pg_driver Reference.any_row) msg
                  Reference.closed_connection))
      = Reference.closed_connection /\
      forall params,
        ~ In (CallExecute params)
             (snd (on_message Reference.lib
                     (Reference.pg_driver Reference.any_row) msg
                     Reference.closed_connection))) /\
  forall msgs,
    deliver Reference.lib (Reference.pg_driver Reference.any_row) pg_close
            msgs Reference.closed_connection
    = Reference.closed_connection.
Proof.
  refine (@a_closed_connection_stays_closed
            Reference.lib Reference.any_row Reference.closed_connection _).
  reflexivity.
Defined.
